(** * Dual-token reward ledger: block stamping, hash layering and the two
      consensus cycles

    A shallow embedding of the Python sources
    [CORE_SYSTEMS/block_stamping_engine.py], [TOKEN_1_SNIFFEE/security_hasher.py],
    [TOKEN_1_SNIFFEE/sdb_reward_logic.py], [TOKEN_1_SNIFFEE/favorite_seed_generator.py],
    [TOKEN_1_SNIFFEE/wifi_analyzer.py], [TOKEN_2_BTZCY/btz_reward_logic.py],
    [TOKEN_2_BTZCY/ping_nmap_verifier.py], [TOKEN_2_BTZCY/packet_io_logic.py],
    [UTILITIES_AND_SECURITY/data_logger_output.py],
    [UTILITIES_AND_SECURITY/wallet_address_handler.py] and [main_node_runner.py],
    followed by the properties of the ledger that the specification states
    and by further properties of the code.

    Conventions.
    - A Python [str] is the list of its code points ([pystr]); [py "..."]
      writes a literal.  A [float] is a binary64 primitive float, an [int]
      is a [Z], a dictionary with fixed keys is a record.
    - A call that can raise returns a [result]; the exception is a
      constructor of [exn].
    - [hashlib], [json.dumps], the conversions of [float] and the Mersenne
      Twister of [random] are modelled as CPython computes them, so that
      every definition runs; the section "Reference values" compares them
      with CPython's output.
    - Wall-clock readings, the draws the traffic and verification
      simulations take from the random generator, and the text [time.ctime]
      renders in the local time zone are inputs of the function that reads
      them, in the order it reads them.  The one place that seeds the
      generator itself, [SecurityHasher._fictional_sha4091_logic], takes the
      generator's state and returns it.
    - Each class is modelled with the interface its own file gives it.
      Where a file refers to a name that nothing binds ([time] in
      [security_hasher.py], [_determine_highest_traffic_node] in
      [btz_reward_logic.py]) the lookup is part of the model and raises as
      Python does.  The collaborators of the node runner are parameters of
      its loop.
    - [print] calls and the files written by the persistence code are not
      modelled; of the data logger, what is modelled is the row it hands to
      the CSV writer.  The simulations that draw packets, latencies and
      scan results from the random generator ([NetworkPacket],
      [_simulated_ping], [_simulated_nmap_scan]) are not modelled either:
      their results are inputs. *)

From Stdlib Require Import ZArith String Ascii Bool Lia Uint63 Floats Permutation Sorted List.
Import ListNotations.
Open Scope Z_scope.
Open Scope list_scope.

Set Implicit Arguments.
Set Warnings "-inexact-float".

(* ===================================================================== *)
(** * Python values and exceptions                                        *)
(* ===================================================================== *)

Inductive exn : Type :=
| NameError
| AttributeError
| TypeError
| ValueError
| OverflowError
| UnicodeEncodeError.

Inductive result (A : Type) : Type :=
| Ok (a : A)
| Raise (e : exn).
Arguments Ok {A} a.
Arguments Raise {A} e.

Definition bind {A B : Type} (r : result A) (k : A -> result B) : result B :=
match r with
| Ok a => k a
| Raise e => Raise e
end.

Notation "x <- r ;; k" := (bind r (fun x => k))
  (at level 61, r at next level, right associativity).

Fixpoint mapM {A B : Type} (f : A -> result B) (l : list A) : result (list B) :=
match l with
| [] => Ok []
| a :: l' => b <- f a ;; bs <- mapM f l' ;; Ok (b :: bs)
end.

Definition returns {A : Type} (r : result A) : Prop := exists a, r = Ok a.

(** ** Strings *)

Definition pystr : Type := list Z.

Definition py (s : string) : pystr :=
map (fun a => Z.of_N (N_of_ascii a)) (list_ascii_of_string s).
Arguments py s%_string.

(** [sys.maxunicode + 1]: the code points of a [str] are below it. *)
Definition CODE_POINTS : Z := 0x110000.

Definition code_point (c : Z) : Prop := 0 <= c < CODE_POINTS.
Definition valid_str (s : pystr) : Prop := Forall code_point s.

Definition valid_strb (s : pystr) : bool :=
forallb (fun c => (0 <=? c) && (c <? CODE_POINTS)) s.

(** [ord(char)] of a one-character string is its code point; [chr(i)] raises
    [ValueError] when [i] is not in [range(0x110000)]. *)
Definition ord (c : Z) : Z := c.
Definition chr (i : Z) : result Z :=
if (0 <=? i) && (i <? CODE_POINTS) then Ok i else Raise ValueError.

Fixpoint str_eqb (a b : pystr) : bool :=
match a, b with
| [], [] => true
| x :: a', y :: b' => (x =? y) && str_eqb a' b'
| _, _ => false
end.

(** [s.startswith(p)] *)
Fixpoint startswith (s p : pystr) : bool :=
match p, s with
| [], _ => true
| c :: p', d :: s' => (c =? d) && startswith s' p'
| _ :: _, [] => false
end.

(** [s[:n]] for [n >= 0] *)
Definition slice_to (n : nat) (s : pystr) : pystr := firstn n s.

(** Lexicographic order on code points, the order of [sorted] on [str]. *)
Fixpoint str_ltb (a b : pystr) : bool :=
match a, b with
| _, [] => false
| [], _ :: _ => true
| x :: a', y :: b' => (x <? y) || ((x =? y) && str_ltb a' b')
end.

(** Digits of a non-negative number in a base, most significant first. *)
Fixpoint digits_fuel (fuel : nat) (base n : Z) (acc : list Z) : list Z :=
match fuel with
| O => acc
| S f => if n <? base then n :: acc else digits_fuel f base (n / base) (n mod base :: acc)
end.
Definition digits (base n : Z) : list Z :=
digits_fuel (S (Z.to_nat (Z.log2 n))) base n [].

Definition digit_char (upper : bool) (d : Z) : Z :=
if d <? 10 then 48 + d else (if upper then 55 else 87) + d.

(** [str(n)] for an [int] *)
Definition str_of_int (n : Z) : pystr :=
if n <? 0 then 45 :: map (digit_char false) (digits 10 (- n))
else map (digit_char false) (digits 10 n).

(** [format(n, 'x')] and [format(n, 'X')] for [n >= 0] *)
Definition hex_lower (n : Z) : pystr := map (digit_char false) (digits 16 n).
Definition hex_upper (n : Z) : pystr := map (digit_char true) (digits 16 n).

(** The digits of [n], left-padded with zeros to [width] characters. *)
Definition zero_padded (base : Z) (width : nat) (n : Z) : pystr :=
let d := map (digit_char false) (digits base n) in
repeat 48 (width - length d) ++ d.

(** [s.upper()] on ASCII text: the code only applies it to hexadecimal digests. *)
Definition ascii_upper (s : pystr) : pystr :=
map (fun c => if (97 <=? c) && (c <=? 122) then c - 32 else c) s.

(** [str(b)] for a [bool] *)
Definition str_of_bool (b : bool) : pystr := if b then py "True" else py "False".

(** [s.encode('utf-8')]: surrogates cannot be encoded. *)
Definition utf8_char (c : Z) : result (list Z) :=
if c <? 0x80 then Ok [c]
else if c <? 0x800 then Ok [0xC0 + c / 64; 0x80 + c mod 64]
else if (0xD800 <=? c) && (c <=? 0xDFFF) then Raise UnicodeEncodeError
else if c <? 0x10000 then Ok [0xE0 + c / 4096; 0x80 + (c / 64) mod 64; 0x80 + c mod 64]
else Ok [0xF0 + c / 262144; 0x80 + (c / 4096) mod 64; 0x80 + (c / 64) mod 64; 0x80 + c mod 64].

Definition encode_utf8 (s : pystr) : result (list Z) :=
chunks <- mapM utf8_char s ;; Ok (concat chunks).

(* ===================================================================== *)
(** * [hashlib]: SHA-256 and SHA-512 (FIPS 180-4)                         *)
(* ===================================================================== *)

Module Hashlib.

(** Arithmetic on [w]-bit words.  SHA-256 runs on primitive 63-bit integers
    masked to 32 bits, SHA-512 on [Z] masked to 64 bits. *)
Record word_ops (W : Type) : Type := {
  of_Z : Z -> W;
  to_Z : W -> Z;
  wadd : W -> W -> W;
  wand : W -> W -> W;
  wxor : W -> W -> W;
  wnot : W -> W;
  big_sigma0 : W -> W;
  big_sigma1 : W -> W;
  small_sigma0 : W -> W;
  small_sigma1 : W -> W
}.

(** ** 64-bit words *)

Definition mask64 : Z := 0xFFFFFFFFFFFFFFFF.
Definition rotr64 (n x : Z) : Z :=
Z.lor (Z.shiftr x n) (Z.land (Z.shiftl x (64 - n)) mask64).
Definition xor3 (a b c : Z) : Z := Z.lxor (Z.lxor a b) c.

Definition Z_words64 : word_ops Z := {|
  of_Z := fun x => Z.land x mask64;
  to_Z := fun x => x;
  wadd := fun x y => Z.land (x + y) mask64;
  wand := Z.land;
  wxor := Z.lxor;
  wnot := fun x => Z.lxor x mask64;
  big_sigma0 := fun x => xor3 (rotr64 28 x) (rotr64 34 x) (rotr64 39 x);
  big_sigma1 := fun x => xor3 (rotr64 14 x) (rotr64 18 x) (rotr64 41 x);
  small_sigma0 := fun x => xor3 (rotr64 1 x) (rotr64 8 x) (Z.shiftr x 7);
  small_sigma1 := fun x => xor3 (rotr64 19 x) (rotr64 61 x) (Z.shiftr x 6)
|}.

(** ** 32-bit words *)

Definition mask32 : int := 0xFFFFFFFF%uint63.
Definition rotr32 (n x : int) : int :=
PrimInt63.lor (PrimInt63.lsr x n)
              (PrimInt63.land (PrimInt63.lsl x (PrimInt63.sub 32%uint63 n)) mask32).
Definition ixor3 (a b c : int) : int := PrimInt63.lxor (PrimInt63.lxor a b) c.

Definition int_words32 : word_ops int := {|
  of_Z := fun x => Uint63.of_Z (Z.land x 0xFFFFFFFF);
  to_Z := Uint63.to_Z;
  wadd := fun x y => PrimInt63.land (PrimInt63.add x y) mask32;
  wand := PrimInt63.land;
  wxor := PrimInt63.lxor;
  wnot := fun x => PrimInt63.lxor x mask32;
  big_sigma0 := fun x => ixor3 (rotr32 2 x) (rotr32 13 x) (rotr32 22 x);
  big_sigma1 := fun x => ixor3 (rotr32 6 x) (rotr32 11 x) (rotr32 25 x);
  small_sigma0 := fun x => ixor3 (rotr32 7 x) (rotr32 18 x) (PrimInt63.lsr x 3);
  small_sigma1 := fun x => ixor3 (rotr32 17 x) (rotr32 19 x) (PrimInt63.lsr x 10)
|}.

(** ** Constants

    The leading fractional bits of the square roots (initial hash) and cube
    roots (round constants) of the first primes. *)
Fixpoint primes_from (fuel : nat) (n : Z) (found : list Z) (want : nat) : list Z :=
match want, fuel with
| O, _ => rev found
| _, O => rev found
| S want', S fuel' =>
    if forallb (fun p => negb (n mod p =? 0)) found
    then primes_from fuel' (n + 1) (n :: found) want'
    else primes_from fuel' (n + 1) found want
end.

Definition first_primes (k : nat) : list Z := primes_from 500 2 [] k.

Fixpoint cube_root_bits (bits : nat) (n acc : Z) : Z :=
match bits with
| O => acc
| S b =>
    let c := acc + 2 ^ Z.of_nat b in
    cube_root_bits b n (if c * c * c <=? n then c else acc)
end.

Definition initial_hash (w : Z) : list Z :=
map (fun p => Z.sqrt (p * 2 ^ (2 * w)) mod 2 ^ w) (first_primes 8).

Definition round_constants (w : Z) (n : nat) : list Z :=
map (fun p => cube_root_bits (Z.to_nat w + 4) (p * 2 ^ (3 * w)) 0 mod 2 ^ w) (first_primes n).

(** ** The compression function and the digest *)

Section Compression.
Variable W : Type.
Variable ops : word_ops W.
Variable word_bytes : nat.
Variable H0 K : list W.

Definition zero : W := of_Z ops 0.
Definition word_at (l : list W) (i : nat) : W := nth i l zero.

Definition choose (x y z : W) : W :=
wxor ops (wand ops x y) (wand ops (wnot ops x) z).

Definition majority (x y z : W) : W :=
wxor ops (wxor ops (wand ops x y) (wand ops x z)) (wand ops y z).

(** One round on the eight working variables; [win] holds the sixteen most
    recent words of the message schedule, the current one first. *)
Definition round (st : list W * list W) (k : W) : list W * list W :=
let '(v, win) := st in
let a := word_at v 0 in let b := word_at v 1 in
let c := word_at v 2 in let d := word_at v 3 in
let e := word_at v 4 in let f := word_at v 5 in
let g := word_at v 6 in let h := word_at v 7 in
let t1 := wadd ops (wadd ops (wadd ops (wadd ops h (big_sigma1 ops e)) (choose e f g)) k)
                   (word_at win 0) in
let t2 := wadd ops (big_sigma0 ops a) (majority a b c) in
let next := wadd ops (wadd ops (wadd ops (small_sigma1 ops (word_at win 14)) (word_at win 9))
                               (small_sigma0 ops (word_at win 1)))
                     (word_at win 0) in
([wadd ops t1 t2; a; b; c; wadd ops d t1; e; f; g], tl win ++ [next]).

Definition compress (h : list W) (block : list W) : list W :=
map (fun p => wadd ops (fst p) (snd p)) (combine h (fst (fold_left round K (h, block)))).

Fixpoint be_value (bytes : list Z) (acc : Z) : Z :=
match bytes with
| [] => acc
| b :: bs => be_value bs (Z.shiftl acc 8 + b)
end.

Fixpoint be_bytes (n : nat) (x : Z) : list Z :=
match n with
| O => []
| S n' => Z.land (Z.shiftr x (8 * Z.of_nat n')) 255 :: be_bytes n' x
end.

Fixpoint words_of (n : nat) (bytes : list Z) : list W :=
match n with
| O => []
| S n' =>
    of_Z ops (be_value (firstn word_bytes bytes) 0)
    :: words_of n' (skipn word_bytes bytes)
end.

Definition block_bytes : nat := (16 * word_bytes)%nat.

Fixpoint absorb (n : nat) (h : list W) (bytes : list Z) : list W :=
match n with
| O => h
| S n' => absorb n' (compress h (words_of 16 bytes)) (skipn block_bytes bytes)
end.

(** The message, a [1] bit, zeros, and the bit length on two words. *)
Definition pad (msg : list Z) : list Z :=
let len := Z.of_nat (length msg) in
let blk := Z.of_nat block_bytes in
let lenb := (2 * word_bytes)%nat in
let zeros := (blk - (len + 1 + Z.of_nat lenb) mod blk) mod blk in
msg ++ [128] ++ repeat 0 (Z.to_nat zeros) ++ be_bytes lenb (8 * len).

Definition digest (msg : list Z) : list Z :=
let padded := pad msg in
flat_map (fun w => be_bytes word_bytes (to_Z ops w))
         (absorb (Nat.div (length padded) block_bytes) H0 padded).

End Compression.

Definition H256 : list int := Eval vm_compute in map (of_Z int_words32) (initial_hash 32).
Definition K256 : list int := Eval vm_compute in map (of_Z int_words32) (round_constants 32 64).
Definition H512 : list Z := Eval vm_compute in initial_hash 64.
Definition K512 : list Z := Eval vm_compute in round_constants 64 80.

Definition hex_of_bytes (bs : list Z) : pystr :=
flat_map (fun b => [digit_char false (Z.shiftr b 4); digit_char false (Z.land b 15)]) bs.

(** [hashlib.sha256(data).hexdigest()] and [hashlib.sha512(data).hexdigest()] *)
Definition sha256_hexdigest (data : list Z) : pystr :=
hex_of_bytes (digest int_words32 4 H256 K256 data).

Definition sha512_hexdigest (data : list Z) : pystr :=
hex_of_bytes (digest Z_words64 8 H512 K512 data).

End Hashlib.

(* ===================================================================== *)
(** * [random]: the Mersenne Twister MT19937 of CPython                   *)
(* ===================================================================== *)

Module Random.

Definition N : nat := 624.
Definition M : nat := 397.

(** The generator state: 624 words of 32 bits and the position of the next
    word to hand out. *)
Record state : Type := { mt : list int; index : nat }.

Definition w32 (x : int) : int := PrimInt63.land x Hashlib.mask32.
Definition word (l : list int) (i : nat) : int := nth i l 0%uint63.

Fixpoint set_word (l : list int) (i : nat) (v : int) : list int :=
match l, i with
| [], _ => []
| _ :: l', O => v :: l'
| x :: l', S i' => x :: set_word l' i' v
end.

Definition mix (x : int) : int := PrimInt63.lxor x (PrimInt63.lsr x 30).

(** [init_genrand(s)] *)
Fixpoint init_genrand_from (n : nat) (i prev : int) : list int :=
match n with
| O => []
| S n' =>
    let x := w32 (PrimInt63.add (PrimInt63.mul 1812433253%uint63 (mix prev)) i) in
    x :: init_genrand_from n' (PrimInt63.add i 1%uint63) x
end.

Definition init_genrand (s : int) : list int :=
w32 s :: init_genrand_from (N - 1) 1%uint63 (w32 s).

(** The two mixing loops of [init_by_array(key)]. *)
Fixpoint key_loop (k : nat) (key : list int) (l : list int) (i j : nat) : list int * nat :=
match k with
| O => (l, i)
| S k' =>
    let v := w32 (PrimInt63.add
                    (PrimInt63.add
                       (PrimInt63.lxor (word l i)
                          (PrimInt63.mul (mix (word l (i - 1))) 1664525%uint63))
                       (word key j))
                    (Uint63.of_Z (Z.of_nat j))) in
    let l1 := set_word l i v in
    let i1 := S i in
    let j1 := S j in
    let l2 := if (N <=? i1)%nat then set_word l1 0 (word l1 (N - 1)) else l1 in
    let i2 := if (N <=? i1)%nat then 1%nat else i1 in
    let j2 := if (length key <=? j1)%nat then 0%nat else j1 in
    key_loop k' key l2 i2 j2
end.

Fixpoint index_loop (k : nat) (l : list int) (i : nat) : list int :=
match k with
| O => l
| S k' =>
    let v := w32 (PrimInt63.sub
                    (PrimInt63.lxor (word l i)
                       (PrimInt63.mul (mix (word l (i - 1))) 1566083941%uint63))
                    (Uint63.of_Z (Z.of_nat i))) in
    let l1 := set_word l i v in
    let i1 := S i in
    let l2 := if (N <=? i1)%nat then set_word l1 0 (word l1 (N - 1)) else l1 in
    let i2 := if (N <=? i1)%nat then 1%nat else i1 in
    index_loop k' l2 i2
end.

Definition init_by_array (key : list int) : state :=
let '(l, i) := key_loop (Nat.max N (length key)) key (init_genrand 19650218%uint63) 1 0 in
{| mt := set_word (index_loop (N - 1) l i) 0 0x80000000%uint63; index := N |}.

(** The 32-bit words of a non-negative integer, least significant first,
    at least one word. *)
Fixpoint key_words (fuel : nat) (a : Z) : list int :=
match fuel with
| O => []
| S f =>
    Uint63.of_Z (Z.land a 0xFFFFFFFF)
    :: (if Z.shiftr a 32 =? 0 then [] else key_words f (Z.shiftr a 32))
end.

(** [random.seed(a)] for an [int]: the absolute value is the key. *)
Definition seed (a : Z) : state :=
init_by_array (key_words (S (Z.to_nat (Z.log2 (Z.abs a)))) (Z.abs a)).

(** Regeneration of the 624 words, in place from word 0 upwards. *)
Fixpoint twist (k : nat) (kk : nat) (l : list int) : list int :=
match k with
| O => l
| S k' =>
    let y := PrimInt63.lor (PrimInt63.land (word l kk) 0x80000000%uint63)
                           (PrimInt63.land (word l (Nat.modulo (kk + 1) N)) 0x7FFFFFFF%uint63) in
    let mag := if PrimInt63.eqb (PrimInt63.land y 1%uint63) 0%uint63
               then 0%uint63 else 0x9908B0DF%uint63 in
    let v := PrimInt63.lxor (PrimInt63.lxor (word l (Nat.modulo (kk + M) N))
                                            (PrimInt63.lsr y 1))
                            mag in
    twist k' (S kk) (set_word l kk v)
end.

Definition temper (y : int) : int :=
let y1 := PrimInt63.lxor y (PrimInt63.lsr y 11) in
let y2 := PrimInt63.lxor y1 (PrimInt63.land (PrimInt63.lsl y1 7) 0x9D2C5680%uint63) in
let y3 := PrimInt63.lxor y2 (PrimInt63.land (PrimInt63.lsl y2 15) 0xEFC60000%uint63) in
PrimInt63.lxor y3 (PrimInt63.lsr y3 18).

(** [genrand_uint32] *)
Definition genrand_uint32 (st : state) : int * state :=
let st1 := if (N <=? index st)%nat
           then {| mt := twist N 0 (mt st); index := 0 |} else st in
(temper (word (mt st1) (index st1)), {| mt := mt st1; index := S (index st1) |}).

(** The words of [getrandbits(k)] for [k > 32], least significant first; the
    last word keeps its top bits. *)
Fixpoint getrandbits_words (words : nat) (k : Z) (shift : Z) (st : state) : Z * state :=
match words with
| O => (0, st)
| S w' =>
    let '(r, st1) := genrand_uint32 st in
    let r1 := if k <? 32 then Z.shiftr (Uint63.to_Z r) (32 - k) else Uint63.to_Z r in
    let '(rest, st2) := getrandbits_words w' (k - 32) (shift + 32) st1 in
    (Z.shiftl r1 shift + rest, st2)
end.

(** [random.getrandbits(k)] *)
Definition getrandbits (k : Z) (st : state) : result Z * state :=
if k <? 0 then (Raise ValueError, st)
else if k =? 0 then (Ok 0, st)
else if k <=? 32 then
  let '(r, st1) := genrand_uint32 st in (Ok (Z.shiftr (Uint63.to_Z r) (32 - k)), st1)
else
  let '(v, st1) := getrandbits_words (Z.to_nat ((k - 1) / 32 + 1)) k 0 st in (Ok v, st1).

End Random.

(* ===================================================================== *)
(** * [float]: conversions of binary64 values                             *)
(* ===================================================================== *)

Module PyFloat.

(** The float equal to a small non-negative [int], as a comparison between
    a [float] and that [int] sees it. *)
Definition of_int (n : Z) : float := PrimFloat.of_uint63 (Uint63.of_Z n).

(** [int(x)]: truncation towards zero. *)
Definition int_of_float (x : float) : result Z :=
match Prim2SF x with
| S754_nan => Raise ValueError
| S754_infinity _ => Raise OverflowError
| S754_zero _ => Ok 0
| S754_finite s m e =>
    let mag := if 0 <=? e then Zpos m * 2 ^ e else Zpos m / 2 ^ (- e) in
    Ok (if s then - mag else mag)
end.

(** The nearest integer to [num / den], ties to even. *)
Definition round_half_even (num den : Z) : Z :=
let q := num / den in
let r := num mod den in
match 2 * r ?= den with
| Lt => q
| Gt => q + 1
| Eq => if Z.even q then q else q + 1
end.

(** [format(x, '.<places>f')]: the exact value rounded to [places] decimals. *)
Definition format_fixed (places : nat) (x : float) : pystr :=
let scale := 10 ^ Z.of_nat places in
let render (s : bool) (n : Z) :=
  (if s then py "-" else []) ++ str_of_int (n / scale) ++ py "."
  ++ zero_padded 10 places (n mod scale) in
match Prim2SF x with
| S754_nan => py "nan"
| S754_infinity s => if s then py "-inf" else py "inf"
| S754_zero s => render s 0
| S754_finite s m e =>
    render s (if 0 <=? e then Zpos m * 2 ^ e * scale
              else round_half_even (Zpos m * scale) (2 ^ (- e)))
end.

(** A non-negative number [n * 2^p * 10^q], compared exactly. *)
Definition sci : Type := (Z * Z * Z)%type.

Definition sci_compare (a b : sci) : comparison :=
let '(n1, p1, q1) := a in
let '(n2, p2, q2) := b in
let p := Z.min p1 p2 in
let q := Z.min q1 q2 in
(n1 * 2 ^ (p1 - p) * 10 ^ (q1 - q)) ?= (n2 * 2 ^ (p2 - p) * 10 ^ (q2 - q)).

Definition sci_leb (a b : sci) : bool :=
match sci_compare a b with Gt => false | _ => true end.

(** [floor(log10 (m * 2^e))] *)
Definition decimal_exponent (m e : Z) : Z :=
let est := (Z.log2 m + e) * 30103 / 100000 in
if sci_leb (1, 0, est + 1) (m, e, 0) then est + 1
else if sci_leb (1, 0, est) (m, e, 0) then est
else est - 1.

(** Does the decimal [c] read back as the float [m * 2^e]?  The interval
    runs between the midpoints to the neighbouring floats; its ends belong
    to it when [m] is even. *)
Definition reads_back (m e : Z) (c : sci) : bool :=
let lo := if (m =? 2 ^ 52) && (-1074 <? e) then (4 * m - 1, e - 2, 0) else (2 * m - 1, e - 1, 0) in
let hi := (2 * m + 1, e - 1, 0) in
match sci_compare lo c, sci_compare c hi with
| Lt, Lt => true
| Eq, Lt | Lt, Eq | Eq, Eq => Z.even m
| _, _ => false
end.

(** The shortest digit string that reads back as [m * 2^e], and among the
    candidates of that length the one nearest to the value: the integer [d]
    and the power of ten it is scaled by. *)
Fixpoint shortest_from (fuel : nat) (m e k : Z) (p : Z) : Z * Z :=
let q := k - p + 1 in
let num := Zpos (Z.to_pos m) * (if 0 <=? e then 2 ^ e else 1) * (if q <? 0 then 10 ^ (- q) else 1) in
let den := (if e <? 0 then 2 ^ (- e) else 1) * (if 0 <=? q then 10 ^ q else 1) in
let lower := num / den in
let r := num mod den in
let upper := if r =? 0 then lower else lower + 1 in
let ok_lower := reads_back m e (lower, 0, q) in
let ok_upper := reads_back m e (upper, 0, q) in
let nearest :=
  match 2 * r ?= den with
  | Lt => lower
  | Gt => upper
  | Eq => if Z.even lower then lower else upper
  end in
if ok_lower && ok_upper then (nearest, q)
else if ok_lower then (lower, q)
else if ok_upper then (upper, q)
else match fuel with
     | O => (nearest, q)
     | S f => shortest_from f m e k (p + 1)
     end.

Fixpoint strip_zeros (fuel : nat) (d q : Z) : Z * Z :=
match fuel with
| O => (d, q)
| S f => if (d mod 10 =? 0) && negb (d =? 0) then strip_zeros f (d / 10) (q + 1) else (d, q)
end.

(** [repr] of a positive finite float: fixed notation when the decimal point
    falls within the digits or at most 16 places right and 4 places left of
    them, exponent notation otherwise. *)
Definition repr_finite (m e : Z) : pystr :=
let '(d0, q0) := shortest_from 16 m e (decimal_exponent m e) 1 in
let '(d, q) := strip_zeros 20 d0 q0 in
let ds := map (digit_char false) (digits 10 d) in
let nd := Z.of_nat (length ds) in
let decpt := nd + q in
if (decpt <=? -4) || (16 <? decpt) then
  let ex := decpt - 1 in
  firstn 1 ds ++ (if nd =? 1 then [] else py "." ++ skipn 1 ds) ++ py "e"
  ++ (if ex <? 0 then py "-" else py "+") ++ zero_padded 10 2 (Z.abs ex)
else if decpt <=? 0 then py "0." ++ repeat 48 (Z.to_nat (- decpt)) ++ ds
else if nd <=? decpt then ds ++ repeat 48 (Z.to_nat (decpt - nd)) ++ py ".0"
else firstn (Z.to_nat decpt) ds ++ py "." ++ skipn (Z.to_nat decpt) ds.

(** [repr(x)], which is also [str(x)] and what an f-string renders. *)
Definition repr (x : float) : pystr :=
match Prim2SF x with
| S754_nan => py "nan"
| S754_infinity s => if s then py "-inf" else py "inf"
| S754_zero s => if s then py "-0.0" else py "0.0"
| S754_finite s m e => (if s then py "-" else []) ++ repr_finite (Zpos m) e
end.

End PyFloat.

(* ===================================================================== *)
(** * [json.dumps(d, sort_keys=True)] on a flat dictionary                *)
(* ===================================================================== *)

Module Json.

Inductive value : Type :=
| JInt (n : Z)
| JFloat (x : float)
| JStr (s : pystr).

(** A [dict] with [str] keys, in insertion order. *)
Definition dict : Type := list (pystr * value).

(** One character of a string literal under [ensure_ascii=True]: everything
    outside [' '..'~'], the quote and the backslash are escaped; characters
    beyond the basic plane become a surrogate pair. *)
Definition u_escape (n : Z) : pystr := py "\u" ++ zero_padded 16 4 n.

Definition escape_char (c : Z) : pystr :=
if c =? 92 then py "\\"
else if c =? 34 then [92; 34]
else if c =? 8 then py "\b"
else if c =? 12 then py "\f"
else if c =? 10 then py "\n"
else if c =? 13 then py "\r"
else if c =? 9 then py "\t"
else if (32 <=? c) && (c <=? 126) then [c]
else if c <? 0x10000 then u_escape c
else u_escape (Z.lor 0xD800 (Z.land (Z.shiftr (c - 0x10000) 10) 0x3FF))
     ++ u_escape (Z.lor 0xDC00 (Z.land (c - 0x10000) 0x3FF)).

Definition encode_str (s : pystr) : pystr := [34] ++ flat_map escape_char s ++ [34].

Definition encode_float (x : float) : pystr :=
match Prim2SF x with
| S754_nan => py "NaN"
| S754_infinity s => if s then py "-Infinity" else py "Infinity"
| _ => PyFloat.repr x
end.

(** One value.  An [int] is written in full: from Python 3.11 on the
    conversion raises [ValueError] beyond 4300 digits, and the encoding is
    that of integers within the limit. *)
Definition encode (v : value) : pystr :=
match v with
| JInt n => str_of_int n
| JFloat x => encode_float x
| JStr s => encode_str s
end.

(** [sorted(d.items())]: insertion into the sorted tail keeps the order of
    the keys; the keys of a dictionary are distinct. *)
Fixpoint insert_item (kv : pystr * value) (l : dict) : dict :=
match l with
| [] => [kv]
| kv' :: l' => if str_ltb (fst kv') (fst kv) then kv' :: insert_item kv l' else kv :: l
end.

Definition sort_items (d : dict) : dict := fold_right insert_item [] d.

Fixpoint join (sep : pystr) (parts : list pystr) : pystr :=
match parts with
| [] => []
| [p] => p
| p :: rest => p ++ sep ++ join sep rest
end.

Definition dumps_sorted (d : dict) : pystr :=
py "{"
++ join (py ", ") (map (fun kv => encode_str (fst kv) ++ py ": " ++ encode (snd kv)) (sort_items d))
++ py "}".

End Json.

(* ===================================================================== *)
(** * [security_hasher.py]                                                *)
(* ===================================================================== *)

Module SecurityHasher.

Definition CONSTELLATION_HASH_LENGTH : nat := 128.

(** [sha256_hash(data)]: [hashlib.sha256(data.encode('utf-8')).hexdigest()] *)
Definition sha256_hash (data : pystr) : result pystr :=
bytes <- encode_utf8 data ;; Ok (Hashlib.sha256_hexdigest bytes).

(** [placeholder_hash()]: ["0" * 64] *)
Definition placeholder_hash : pystr := repeat 48 64.

(** [soft_encrypt(data)]: [chr(ord(char) ^ key)] for every character, with
    [key = 42]. *)
Definition soft_encrypt_key : Z := 42.

Definition soft_encrypt (data : pystr) : result pystr :=
mapM (fun char => chr (Z.lxor (ord char) soft_encrypt_key)) data.

(** What the expression [time.time()] evaluates to inside this module.  The
    file imports [hashlib], [random] and [typing.Union] only: as shipped the
    global name [time] is unbound and evaluating it raises [NameError]; once
    the name is bound to the standard module the expression yields the clock
    reading. *)
Inductive time_binding : Type :=
| Unbound
| Bound (reading : float).

Definition time_time (t : time_binding) : result float :=
match t with
| Unbound => Raise NameError
| Bound reading => Ok reading
end.

Definition shipped_binding : time_binding := Unbound.

(** [int(time.time() * 1000) % 10000] *)
Definition clock_seed (t : time_binding) : result Z :=
now <- time_time t ;;
ms <- PyFloat.int_of_float (PrimFloat.mul now 1000%float) ;;
Ok (ms mod 10000).

(** [_fictional_sha4091_logic(seed)]: the state of the process-wide
    generator goes in and comes out. *)
Definition _fictional_sha4091_logic (seed : pystr) (t : time_binding) (g : Random.state)
  : result pystr * Random.state :=
match encode_utf8 seed with
| Raise e => (Raise e, g)
| Ok seed_bytes =>
    let base_hash := Hashlib.sha512_hexdigest seed_bytes in
    match clock_seed t with
    | Raise e => (Raise e, g)
    | Ok s =>
        let g1 := Random.seed s in
        match Random.getrandbits 64 g1 with
        | (Raise e, g2) => (Raise e, g2)
        | (Ok bits, g2) =>
            let random_factor := hex_lower bits in
            let final_seed := base_hash ++ random_factor in
            (final_bytes <- encode_utf8 final_seed ;;
             Ok (slice_to CONSTELLATION_HASH_LENGTH (Hashlib.sha512_hexdigest final_bytes)),
             g2)
        end
    end
end.

(** [constellation_lock_key(hard_hash, complexity, reward_type)] *)
Definition constellation_lock_key (hard_hash : pystr) (complexity : float) (reward_type : pystr)
  (t : time_binding) (g : Random.state) : result pystr * Random.state :=
let lock_seed := hard_hash ++ py "-" ++ PyFloat.format_fixed 7 complexity ++ py "-" ++ reward_type in
let '(r, g') := _fictional_sha4091_logic lock_seed t g in
(constellation_hash <- r ;; Ok (py "CONSTELLATION_LOCK:" ++ ascii_upper constellation_hash), g').

End SecurityHasher.

(* ===================================================================== *)
(** * [block_stamping_engine.py]                                          *)
(* ===================================================================== *)

Module BlockStampingEngine.

(** The dictionary [_prepare_block_data] assembles. *)
Record BlockData : Type := {
  BLOCK_INDEX : Z;
  TIME : pystr;
  TIMESTAMP : float;
  PREVIOUS_HASH : pystr;
  COMPLEXITY_LEVEL : float;
  WINNERS_ADDRESSES : pystr;
  REWARD_CHAIN : pystr;
  REWARD_AMOUNT : Z;
  SEEDFRAME : pystr;
  BINARY_TRANSIT_NO : Z;
  SOFT_ENCRYPTER : pystr
}.

(** A stamped block: the assembled fields and the two keys
    [stamp_new_block] adds to the dictionary afterwards. *)
Record Block : Type := {
  fields : BlockData;
  HARDCOVER_CRYPTION : pystr;
  CONSTELLATION_SECURITY : pystr
}.

(** The engine: [self.blockchain] and [self.current_complexity]; the hasher
    it holds has no state. *)
Record engine : Type := {
  blockchain : list Block;
  current_complexity : float
}.

(** [BlockStampingEngine(chain, complexity)] *)
Definition init (chain : list Block) (complexity : float) : engine :=
{| blockchain := chain; current_complexity := complexity |}.

(** [update_complexity(new_complexity)] *)
Definition update_complexity (self : engine) (new_complexity : float) : engine :=
{| blockchain := blockchain self; current_complexity := new_complexity |}.

(** The two keys [stamp_new_block] reads from the dictionary that
    [_get_last_block] returns. *)
Record last_block : Type := {
  last_HARDCOVER_CRYPTION : pystr;
  last_BLOCK_INDEX : Z
}.

Definition view (b : Block) : last_block :=
{| last_HARDCOVER_CRYPTION := HARDCOVER_CRYPTION b;
   last_BLOCK_INDEX := BLOCK_INDEX (fields b) |}.

(** [_get_last_block()]: the fallback dictionary on an empty chain,
    [self.blockchain[-1]] otherwise. *)
Definition _get_last_block (self : engine) : last_block :=
match blockchain self with
| [] => {| last_HARDCOVER_CRYPTION := SecurityHasher.placeholder_hash; last_BLOCK_INDEX := 0 |}
| b :: rest => view (last rest b)
end.

(** One reading of the clock: [time.time()] and the text [time.ctime]
    renders for it in the local time zone.  The reading is one of the real
    clock, for which [time.ctime] returns; on a number that is no time of
    the platform ([nan], [inf], a year out of range) it would raise. *)
Record clock_reading : Type := {
  seconds : float;
  ctime : pystr
}.

(** [_prepare_block_data(index, previous_hash, miner_address, reward_type,
    reward_amount, binary_transit_no, seedframe)] *)
Definition _prepare_block_data (self : engine) (index : Z) (previous_hash miner_address
  reward_type : pystr) (reward_amount binary_transit_no : Z) (seedframe : pystr)
  (now : clock_reading) : result BlockData :=
let timestamp_s := seconds now in
soft <- SecurityHasher.soft_encrypt (miner_address ++ reward_type) ;;
Ok {| BLOCK_INDEX := index;
      TIME := ctime now;
      TIMESTAMP := timestamp_s;
      PREVIOUS_HASH := previous_hash;
      COMPLEXITY_LEVEL := current_complexity self;
      WINNERS_ADDRESSES := miner_address;
      REWARD_CHAIN := reward_type;
      REWARD_AMOUNT := reward_amount;
      SEEDFRAME := seedframe;
      BINARY_TRANSIT_NO := binary_transit_no;
      SOFT_ENCRYPTER := soft |}.

(** The items of the assembled dictionary, in insertion order. *)
Definition items (b : BlockData) : Json.dict :=
[ (py "BLOCK_INDEX", Json.JInt (BLOCK_INDEX b));
  (py "TIME", Json.JStr (TIME b));
  (py "TIMESTAMP", Json.JFloat (TIMESTAMP b));
  (py "PREVIOUS_HASH", Json.JStr (PREVIOUS_HASH b));
  (py "COMPLEXITY_LEVEL", Json.JFloat (COMPLEXITY_LEVEL b));
  (py "WINNERS_ADDRESSES", Json.JStr (WINNERS_ADDRESSES b));
  (py "REWARD_CHAIN", Json.JStr (REWARD_CHAIN b));
  (py "REWARD_AMOUNT", Json.JInt (REWARD_AMOUNT b));
  (py "SEEDFRAME", Json.JStr (SEEDFRAME b));
  (py "BINARY-TRANSIT-NO", Json.JInt (BINARY_TRANSIT_NO b));
  (py "SOFT-ENCRYPTER", Json.JStr (SOFT_ENCRYPTER b)) ].

(** The arguments of one call of [stamp_new_block]; [seedframe] defaults to
    ["0"] and [is_genesis] to [False]. *)
Record stamp_args : Type := {
  miner_address : pystr;
  reward_type : pystr;
  reward_amount : Z;
  binary_transit_no : Z;
  seedframe : pystr;
  is_genesis : bool
}.

(** [stamp_new_block(miner_address, reward_type, reward_amount,
    binary_transit_no, seedframe, is_genesis)].  The block is returned, not
    appended: appending is the caller's. *)
Definition stamp_new_block (self : engine) (a : stamp_args) (now : clock_reading)
  (t : SecurityHasher.time_binding) (g : Random.state) : result Block * Random.state :=
let last_block := _get_last_block self in
let index := last_BLOCK_INDEX last_block + 1 in
let previous_hash := last_HARDCOVER_CRYPTION last_block in
match _prepare_block_data self index previous_hash (miner_address a) (reward_type a)
        (reward_amount a) (binary_transit_no a) (seedframe a) now with
| Raise e => (Raise e, g)
| Ok new_block =>
    let block_content_string := Json.dumps_sorted (items new_block) in
    match SecurityHasher.sha256_hash block_content_string with
    | Raise e => (Raise e, g)
    | Ok hard_hash =>
        let '(lock, g') :=
          SecurityHasher.constellation_lock_key hard_hash (current_complexity self)
            (reward_type a) t g in
        (constellation_lock <- lock ;;
         Ok {| fields := new_block;
               HARDCOVER_CRYPTION := hard_hash;
               CONSTELLATION_SECURITY := constellation_lock |},
         g')
    end
end.

End BlockStampingEngine.

(* ===================================================================== *)
(** * [favorite_seed_generator.py]                                        *)
(* ===================================================================== *)

Module FavoriteSeedGenerator.

(** [FAVORITE_ALGORITHM_FACTORS], in insertion order. *)
Definition FAVORITE_ALGORITHM_FACTORS : list (pystr * float) :=
[ (py "HighThroughput_SHA512", 1.5%float);
  (py "LowLatency_SHA256", 1.25%float);
  (py "DenseTopology_SCRAMBLE", 1.75%float);
  (py "RandomizedNoise_XOR", 2%float) ].

Definition TARGET_SEED_LENGTH : nat := 64.

Record SeedFrame : Type := {
  seed_timestamp : Z;
  seed_frame_id : pystr;
  favorite_algorithm : pystr;
  complexity_factor : float;
  target_seed_transaction : pystr;
  constellation_lock_signature : pystr
}.

(** What one call of [_generate_new_seed_frame] takes from its environment,
    in the order it is read: the position [random.choice] picks, the clock
    and the 128 random bits of [_generate_complex_seed], the clock of
    ["seed_timestamp"], the clock of [_generate_constellation_lock_key]. *)
Record draw : Type := {
  choice : nat;
  seed_clock : float;
  seed_bits : Z;
  stamp_clock : float;
  lock_clock : float
}.

(** [_select_random_favorite()] *)
Definition _select_random_favorite (d : draw) : pystr * float :=
nth (Nat.modulo (choice d) (length FAVORITE_ALGORITHM_FACTORS)) FAVORITE_ALGORITHM_FACTORS
    ([], 0%float).

(** [_generate_complex_seed(favorite_key)] *)
Definition _generate_complex_seed (favorite : pystr * float) (d : draw) : result pystr :=
let '(favorite_key, factor) := favorite in
let complex_input :=
  favorite_key ++ py "-" ++ PyFloat.repr (PrimFloat.mul (seed_clock d) factor)
  ++ py "-" ++ str_of_int (seed_bits d) in
bytes <- encode_utf8 complex_input ;;
Ok (slice_to TARGET_SEED_LENGTH (Hashlib.sha512_hexdigest bytes)).

(** [_generate_constellation_lock_key(target_seed)] *)
Definition _generate_constellation_lock_key (target_seed : pystr) (d : draw) : result pystr :=
hours <- PyFloat.int_of_float (PrimFloat.div (lock_clock d) 3600%float) ;;
bytes <- encode_utf8 (target_seed ++ py "-" ++ str_of_int hours) ;;
Ok (Hashlib.sha256_hexdigest bytes).

(** [_generate_new_seed_frame()] *)
Definition _generate_new_seed_frame (d : draw) : result SeedFrame :=
let favorite := _select_random_favorite d in
target_seed <- _generate_complex_seed favorite d ;;
stamp <- PyFloat.int_of_float (stamp_clock d) ;;
id_bytes <- encode_utf8 target_seed ;;
lock <- _generate_constellation_lock_key target_seed d ;;
Ok {| seed_timestamp := stamp;
      seed_frame_id := slice_to 16 (Hashlib.sha256_hexdigest id_bytes);
      favorite_algorithm := fst favorite;
      complexity_factor := snd favorite;
      target_seed_transaction := target_seed;
      constellation_lock_signature := lock |}.

(** The generator object: [self._current_seed_frame]. *)
Record generator : Type := { _current_seed_frame : SeedFrame }.

(** [FavoriteSeedGenerator()] *)
Definition init (d : draw) : result generator :=
frame <- _generate_new_seed_frame d ;; Ok {| _current_seed_frame := frame |}.

(** [generate_favorite_seed()] *)
Definition generate_favorite_seed (self : generator) : pystr :=
target_seed_transaction (_current_seed_frame self).

(** [refresh_seed()] *)
Definition refresh_seed (self : generator) (d : draw) : result generator :=
frame <- _generate_new_seed_frame d ;; Ok {| _current_seed_frame := frame |}.

End FavoriteSeedGenerator.

(* ===================================================================== *)
(** * [wifi_analyzer.py]                                                  *)
(* ===================================================================== *)

Module WifiAnalyzer.

Record NetworkPacket : Type := {
  packet_timestamp : float;
  source_mac : pystr;
  destination_mac : pystr;
  protocol : pystr;
  payload_size_bytes : Z;
  sequence_number : Z;
  ttl_hops_remaining : Z
}.

Record NodeTrafficSnapshot : Type := {
  snapshot_node_address : pystr;
  snapshot_packets_in : list NetworkPacket;
  snapshot_packets_out : list NetworkPacket;
  snapshot_simulated_latency_ms : float;
  timestamp : float
}.

(** The property [total_packet_count]: [len(packets_in) + len(packets_out)] *)
Definition snapshot_total_packet_count (s : NodeTrafficSnapshot) : Z :=
Z.of_nat (length (snapshot_packets_in s)) + Z.of_nat (length (snapshot_packets_out s)).

(** [generate_data_proof_hash()] *)
Definition generate_data_proof_hash (s : NodeTrafficSnapshot) : result pystr :=
let data_string :=
  snapshot_node_address s ++ py "-" ++ PyFloat.repr (timestamp s) ++ py "-"
  ++ str_of_int (snapshot_total_packet_count s) in
let data_string' :=
  match snapshot_packets_in s with
  | [] => data_string
  | first :: _ =>
      data_string ++ py "-" ++ str_of_int (payload_size_bytes first)
      ++ py "-" ++ str_of_int (sequence_number first)
  end in
bytes <- encode_utf8 data_string' ;; Ok (Hashlib.sha256_hexdigest bytes).

(** What one simulated capture draws: the packets in and out (their numbers
    are the two [random.randint(100, 5000)]), the rounded latency and the
    clock at which the snapshot is created. *)
Record capture : Type := {
  captured_in : list NetworkPacket;
  captured_out : list NetworkPacket;
  captured_latency_ms : float;
  captured_at : float
}.

(** [get_node_traffic_snapshot(node_address)] *)
Definition get_node_traffic_snapshot (node_address : pystr) (c : capture) : NodeTrafficSnapshot :=
{| snapshot_node_address := node_address;
   snapshot_packets_in := captured_in c;
   snapshot_packets_out := captured_out c;
   snapshot_simulated_latency_ms := captured_latency_ms c;
   timestamp := captured_at c |}.

(** The entries of [aggregate_all_node_traffic]. *)
Record traffic_details : Type := {
  packets_in : Z;
  packets_out : Z;
  total_packet_count : Z;
  simulated_latency_ms : float
}.

Record node_data : Type := {
  node_address : pystr;
  data_proof_hash : pystr;
  io_traffic_details : traffic_details
}.

Definition node_entry (address : pystr) (c : capture) : result node_data :=
let snapshot := get_node_traffic_snapshot address c in
proof <- generate_data_proof_hash snapshot ;;
Ok {| node_address := address;
      data_proof_hash := proof;
      io_traffic_details :=
        {| packets_in := Z.of_nat (length (snapshot_packets_in snapshot));
           packets_out := Z.of_nat (length (snapshot_packets_out snapshot));
           total_packet_count := snapshot_total_packet_count snapshot;
           simulated_latency_ms := snapshot_simulated_latency_ms snapshot |} |}.

(** [aggregate_all_node_traffic(node_addresses)]: the [i]-th address gets the
    [i]-th capture of this call. *)
Fixpoint aggregate_from (i : nat) (node_addresses : list pystr) (captures : nat -> capture)
  : result (list node_data) :=
match node_addresses with
| [] => Ok []
| address :: rest =>
    entry <- node_entry address (captures i) ;;
    entries <- aggregate_from (S i) rest captures ;;
    Ok (entry :: entries)
end.

Definition aggregate_all_node_traffic (node_addresses : list pystr) (captures : nat -> capture)
  : result (list node_data) :=
aggregate_from 0 node_addresses captures.

End WifiAnalyzer.

(* ===================================================================== *)
(** * [sdb_reward_logic.py]                                               *)
(* ===================================================================== *)

Module SDBRewardLogic.
Import WifiAnalyzer.

Definition SDB_REWARD_AMOUNT : Z := 300.
Definition SDB_CYCLE_TIME_SECONDS : Z := 30 * 60.
Definition MATCH_DIFFICULTY_LENGTH : nat := 5.

(** The object: its seed generator and [self.last_reward_time]; the analyzer
    has no state. *)
Record logic : Type := {
  seed_generator : FavoriteSeedGenerator.generator;
  last_reward_time : float
}.

(** [SDBRewardLogic()] *)
Definition init (d : FavoriteSeedGenerator.draw) (now : float) : result logic :=
g <- FavoriteSeedGenerator.init d ;; Ok {| seed_generator := g; last_reward_time := now |}.

(** [_find_seed_match_winner(eligible_nodes_data, target_seed)] *)
Fixpoint first_match (match_prefix : pystr) (eligible_nodes_data : list node_data)
  : option node_data :=
match eligible_nodes_data with
| [] => None
| node :: rest =>
    let node_proof := data_proof_hash node in
    if startswith node_proof match_prefix then Some node else first_match match_prefix rest
end.

Definition _find_seed_match_winner (eligible_nodes_data : list node_data) (target_seed : pystr)
  : option node_data :=
let match_prefix := slice_to MATCH_DIFFICULTY_LENGTH target_seed in
first_match match_prefix eligible_nodes_data.

(** The dictionary a winning run returns. *)
Record reward : Type := {
  winner_address : pystr;
  reward_amount : Z;
  binary_transit_no : Z;
  seedframe : pystr;
  reward_type : pystr;
  proof_data : node_data
}.

(** What one run reads from its environment: the clock at the time gate,
    the captures of the analyzer, the clock when the timer is set. *)
Record io : Type := {
  gate_clock : float;
  captures : nat -> capture;
  win_clock : float
}.

(** [run_sdb_consensus(all_active_nodes)] *)
Definition run_sdb_consensus (self : logic) (all_active_nodes : list pystr) (w : io)
  : result (option reward) * logic :=
if PrimFloat.ltb (PrimFloat.sub (gate_clock w) (last_reward_time self))
                 (PyFloat.of_int SDB_CYCLE_TIME_SECONDS)
then (Ok None, self)
else match all_active_nodes with
| [] => (Ok None, self)
| _ :: _ =>
    let target_seed := FavoriteSeedGenerator.generate_favorite_seed (seed_generator self) in
    match aggregate_all_node_traffic all_active_nodes (captures w) with
    | Raise e => (Raise e, self)
    | Ok eligible_nodes_data =>
        match _find_seed_match_winner eligible_nodes_data target_seed with
        | None => (Ok None, self)
        | Some winner_data =>
            (Ok (Some {| winner_address := node_address winner_data;
                         reward_amount := SDB_REWARD_AMOUNT;
                         binary_transit_no := total_packet_count (io_traffic_details winner_data);
                         seedframe := target_seed;
                         reward_type := py "@SNIFFEE-DEBUGEE";
                         proof_data := winner_data |}),
             {| seed_generator := seed_generator self; last_reward_time := win_clock w |})
        end
    end
end.

End SDBRewardLogic.

(* ===================================================================== *)
(** * [ping_nmap_verifier.py]                                             *)
(* ===================================================================== *)

Module PingNmapVerifier.

Definition MINIMUM_VERIFICATION_HASH_DIFFICULTY : pystr := py "000".

(** The last nonce the search tries: the loop leaves once [nonce > 10000]. *)
Definition NONCE_CUTOFF : Z := 10000.

(** The object: [self.difficulty_target]. *)
Record verifier : Type := { difficulty_target : pystr }.

(** [PingNmapVerifier()] *)
Definition init : verifier := {| difficulty_target := MINIMUM_VERIFICATION_HASH_DIFFICULTY |}.

(** The body of the [while True] loop of [_generate_proof_of_verification_work],
    entered with the current [nonce].  [fuel] bounds the number of times the
    body runs; [None] means the loop is still running when the fuel is spent. *)
Fixpoint search (fuel : nat) (self : verifier) (raw_data : pystr) (nonce : Z)
  : option (result pystr) :=
match fuel with
| O => None
| S fuel' =>
    let attempt := raw_data ++ str_of_int nonce in
    match SecurityHasher.sha256_hash attempt with
    | Raise e => Some (Raise e)
    | Ok hash_result =>
        if startswith hash_result (difficulty_target self) then Some (Ok hash_result)
        else
          let nonce' := nonce + 1 in
          if nonce' >? NONCE_CUTOFF
          then Some (Ok (py "NonceExceeded-" ++ slice_to 10 hash_result))
          else search fuel' self raw_data nonce'
    end
end.

(** [_generate_proof_of_verification_work(raw_data)]: the loop starts at
    [nonce = 0]. *)
Definition _generate_proof_of_verification_work (fuel : nat) (self : verifier) (raw_data : pystr)
  : option (result pystr) :=
search fuel self raw_data 0.

(** The number of hash evaluations the loop makes before it returns. *)
Fixpoint attempts (fuel : nat) (self : verifier) (raw_data : pystr) (nonce : Z) : nat :=
match fuel with
| O => O
| S fuel' =>
    match SecurityHasher.sha256_hash (raw_data ++ str_of_int nonce) with
    | Raise _ => 1
    | Ok hash_result =>
        if startswith hash_result (difficulty_target self) then 1
        else if nonce + 1 >? NONCE_CUTOFF then 1
        else S (attempts fuel' self raw_data (nonce + 1))
    end
end.

(** The dictionaries of [_simulated_ping] and [_simulated_nmap_scan]; what
    they contain is drawn from the random generator. *)
Record ping_report : Type := {
  status : pystr;
  latency_avg_ms : float;
  packets_lost : Z;
  raw_latency_data : pystr
}.

Record nmap_report : Type := {
  service_status : pystr;
  verified_ports_hash : pystr;
  scan_timestamp : Z
}.

(** The dictionary [verify_node_integrity] returns. *)
Record report : Type := {
  address : pystr;
  verification_timestamp : Z;
  is_verified : bool;
  ping_results : ping_report;
  nmap_results : nmap_report;
  verification_hash_proof : pystr;
  report_difficulty_target : pystr
}.

(** [verify_node_integrity(node_address)], given the two simulated reports
    and the clock. *)
Definition verify_node_integrity (fuel : nat) (self : verifier) (node_address : pystr)
  (ping : ping_report) (nmap : nmap_report) (now : float) : option (result report) :=
let verified :=
  str_eqb (status ping) (py "SUCCESS") && str_eqb (service_status nmap) (py "RUNNING") in
let proof_input :=
  node_address ++ py "-" ++ raw_latency_data ping ++ py "-" ++ verified_ports_hash nmap
  ++ py "-" ++ str_of_bool verified in
match _generate_proof_of_verification_work fuel self proof_input with
| None => None
| Some r =>
    Some (verification_proof <- r ;;
          stamp <- PyFloat.int_of_float now ;;
          Ok {| address := node_address;
                verification_timestamp := stamp;
                is_verified := verified;
                ping_results := ping;
                nmap_results := nmap;
                verification_hash_proof := verification_proof;
                report_difficulty_target := difficulty_target self |})
end.

End PingNmapVerifier.

(* ===================================================================== *)
(** * [btz_reward_logic.py]                                               *)
(* ===================================================================== *)

Module BTZRewardLogic.
Import WifiAnalyzer.

Definition BTZ_REWARD_AMOUNT : Z := 150.
Definition BTZ_CYCLE_TIME_SECONDS : Z := 5 * 60.

(** The object: [self.last_reward_time]; analyzer and verifier are
    collaborators. *)
Record logic : Type := { last_reward_time : float }.

(** An entry of [eligible_nodes]: the copy of a traffic entry with the keys
    the loop of [run_btz_consensus] stamps onto it. *)
Record eligible : Type := {
  traffic : node_data;
  is_verified : bool;
  verification_hash_proof : pystr;
  address : pystr
}.

Definition packets (x : eligible) : Z := total_packet_count (io_traffic_details (traffic x)).

(** [sorted(verified_traffic_data, key=total_packet_count, reverse=True)]:
    the sort is stable, entries with equal counts keep their order. *)
Fixpoint insert_descending (x : eligible) (l : list eligible) : list eligible :=
match l with
| [] => [x]
| y :: l' => if packets y <=? packets x then x :: l else y :: insert_descending x l'
end.

Definition sorted_descending (l : list eligible) : list eligible :=
fold_right insert_descending [] l.

(** [_determine_highest_traffic_winner(verified_traffic_data)] *)
Definition _determine_highest_traffic_winner (verified_traffic_data : list eligible)
  : option eligible :=
match verified_traffic_data with
| [] => None
| _ :: _ =>
    match sorted_descending verified_traffic_data with
    | [] => None
    | winner :: _ => if is_verified winner then Some winner else None
    end
end.

(** The payload of the acceptance challenge. *)
Record challenge : Type := {
  challenge_id : pystr;
  expiry_timestamp : Z;
  reward_status : pystr;
  ethical_proof_hash : pystr
}.

(** What [_create_ethical_choice_challenge] reads: the clock inside the
    identifier, the clock of the expiry, 128 random bits. *)
Record challenge_draw : Type := {
  id_clock : float;
  expiry_clock : float;
  consent_bits : Z
}.

(** [_create_ethical_choice_challenge(winner_address, packet_count)] *)
Definition _create_ethical_choice_challenge (winner_address : pystr) (packet_count : Z)
  (d : challenge_draw) : result challenge :=
bytes <- encode_utf8 (winner_address ++ py "-" ++ str_of_int packet_count ++ py "-"
                      ++ PyFloat.repr (id_clock d)) ;;
now <- PyFloat.int_of_float (expiry_clock d) ;;
Ok {| challenge_id := Hashlib.sha256_hexdigest bytes;
      expiry_timestamp := now + BTZ_CYCLE_TIME_SECONDS;
      reward_status := py "PENDING_ACCEPTANCE";
      ethical_proof_hash := py "ETHICAL_CONSENT_0x" ++ hex_upper (consent_bits d) |}.

(** The dictionary a winning run returns. *)
Record reward : Type := {
  winner_address : pystr;
  reward_amount : Z;
  binary_transit_no : Z;
  seedframe : pystr;
  reward_type : pystr;
  proof_data : eligible;
  ethical_challenge : challenge
}.

(** [next((r for r in verified_reports if r['address'] == node_address), None)] *)
Definition report_for (verified_reports : list PingNmapVerifier.report) (node : pystr)
  : option PingNmapVerifier.report :=
find (fun r => str_eqb (PingNmapVerifier.address r) node) verified_reports.

(** The loop that joins the traffic entries with the verification reports. *)
Fixpoint join_verified (raw_traffic_data : list node_data)
  (verified_reports : list PingNmapVerifier.report) : list eligible :=
match raw_traffic_data with
| [] => []
| traffic :: rest =>
    match report_for verified_reports (node_address traffic) with
    | Some report =>
        if PingNmapVerifier.is_verified report
        then {| traffic := traffic;
                is_verified := PingNmapVerifier.is_verified report;
                verification_hash_proof := PingNmapVerifier.verification_hash_proof report;
                address := node_address traffic |}
             :: join_verified rest verified_reports
        else join_verified rest verified_reports
    | None => join_verified rest verified_reports
    end
end.

(** The two method names in play.  The class defines
    [_determine_highest_traffic_winner]; the call site in [run_btz_consensus]
    reads [self._determine_highest_traffic_node], an attribute that neither
    the class nor the instance has. *)
Inductive method_name : Type :=
| determine_highest_traffic_winner
| determine_highest_traffic_node.

(** Attribute lookup on the instance. *)
Definition getattr (name : method_name) : result (list eligible -> option eligible) :=
match name with
| determine_highest_traffic_winner => Ok _determine_highest_traffic_winner
| determine_highest_traffic_node => Raise AttributeError
end.

(** What one run reads from its environment: the clock at the time gate,
    the captures of the analyzer, the reports [bulk_verify_nodes] returns,
    the draws of the challenge, the clock when the timer is set. *)
Record io : Type := {
  gate_clock : float;
  captures : nat -> capture;
  verified_reports : list PingNmapVerifier.report;
  challenge_draws : challenge_draw;
  win_clock : float
}.

(** The body of [run_btz_consensus(all_active_nodes)], with the name its
    step 3 looks up on [self] as a parameter. *)
Definition run_btz_consensus_calling (callee : method_name) (self : logic)
  (all_active_nodes : list pystr) (w : io) : result (option reward) * logic :=
if PrimFloat.ltb (PrimFloat.sub (gate_clock w) (last_reward_time self))
                 (PyFloat.of_int BTZ_CYCLE_TIME_SECONDS)
then (Ok None, self)
else match all_active_nodes with
| [] => (Ok None, self)
| _ :: _ =>
    match aggregate_all_node_traffic all_active_nodes (captures w) with
    | Raise e => (Raise e, self)
    | Ok raw_traffic_data =>
        let eligible_nodes := join_verified raw_traffic_data (verified_reports w) in
        match getattr callee with
        | Raise e => (Raise e, self)
        | Ok select =>
            match select eligible_nodes with
            | None => (Ok None, self)
            | Some winner_data =>
                let winner_address := address winner_data in
                let packet_count := packets winner_data in
                match _create_ethical_choice_challenge winner_address packet_count
                        (challenge_draws w) with
                | Raise e => (Raise e, self)
                | Ok challenge_payload =>
                    (Ok (Some {| winner_address := winner_address;
                                 reward_amount := BTZ_REWARD_AMOUNT;
                                 binary_transit_no := packet_count;
                                 seedframe := challenge_id challenge_payload;
                                 reward_type := py "BTZCY-SYSTEM";
                                 proof_data := winner_data;
                                 ethical_challenge := challenge_payload |}),
                     {| last_reward_time := win_clock w |})
                end
            end
        end
    end
end.

(** [run_btz_consensus(all_active_nodes)] as the file has it. *)
Definition run_btz_consensus : logic -> list pystr -> io -> result (option reward) * logic :=
run_btz_consensus_calling determine_highest_traffic_node.

End BTZRewardLogic.

(* ===================================================================== *)
(** * [main_node_runner.py]                                               *)
(* ===================================================================== *)

Module NodeRunner.

Definition INITIAL_COMPLEXITY : float := 0.0000001%float.
Definition COMPLEXITY_GROWTH_INCREMENT : float := 0.0000001%float.
Definition SDB_REWARD_CYCLE : Z := 30 * 60.
Definition BTZ_REWARD_CYCLE : Z := 5 * 60.

(** The attributes of [BlockchainNodeRunner] that its methods assign:
    [blockchain], [current_complexity] and the two timers.  The stamping
    engine, the wallet handler, the data logger and the consensus manager
    are objects of their own, which the runner only calls; what the calls
    return or raise are the collaborators of [run_node].  [__init__] builds
    the engine as [BlockStampingEngine(chain=List, complexity=0.1)]: the
    chain of that engine is the [typing.List] object, not the runner's
    list, and its difficulty is [ENGINE_COMPLEXITY]. *)
Record runner : Type := {
  blockchain : list BlockStampingEngine.Block;
  current_complexity : float;
  last_sdb_reward_time : float;
  last_btz_reward_time : float
}.


(** [_update_complexity()]: [self.current_complexity += COMPLEXITY_GROWTH_INCREMENT] *)
Definition _update_complexity (self : runner) : runner :=
{| blockchain := blockchain self;
   current_complexity := PrimFloat.add (current_complexity self) COMPLEXITY_GROWTH_INCREMENT;
   last_sdb_reward_time := last_sdb_reward_time self;
   last_btz_reward_time := last_btz_reward_time self |}.

Definition set_last_sdb_reward_time (self : runner) (t : float) : runner :=
{| blockchain := blockchain self;
   current_complexity := current_complexity self;
   last_sdb_reward_time := t;
   last_btz_reward_time := last_btz_reward_time self |}.

Definition set_last_btz_reward_time (self : runner) (t : float) : runner :=
{| blockchain := blockchain self;
   current_complexity := current_complexity self;
   last_sdb_reward_time := last_sdb_reward_time self;
   last_btz_reward_time := t |}.

(** [self.blockchain.append(block)] *)
Definition append_block (self : runner) (block : BlockStampingEngine.Block) : runner :=
{| blockchain := blockchain self ++ [block];
   current_complexity := current_complexity self;
   last_sdb_reward_time := last_sdb_reward_time self;
   last_btz_reward_time := last_btz_reward_time self |}.

Inductive cycle : Type := SDB | BTZ.

(** What a tick of the loop does that is visible from outside. *)
Inductive event : Type :=
| Evaluated (c : cycle)
| Stamped (c : cycle)
| Slept (secs : Z)
| Caught (e : exn).

Section Loop.

(** The type of the reward dictionaries the consensus manager hands over. *)
Variable R : Type.

(** The calls one tick makes on its collaborators, each with what it
    returns or raises in that tick:
    [self.wallet_handler.get_all_active_addresses()],
    [self.consensus_manager.run_sdb_consensus(active_nodes)],
    [self.consensus_manager.run_btz_consensus(active_nodes)] and
    [self.stamping_engine.stamp_new_block(chain=..., reward_data=...,
    complexity=..., wallet_handler=...)], whose value is dropped.  None of
    the calls is handed the runner, so none can assign its attributes; what
    a callee might do to the list it is handed as [chain] is not followed
    (the engine of the repository rejects the keyword). *)
Record collaborators : Type := {
  get_all_active_addresses : result (list pystr);
  run_sdb_consensus : list pystr -> result (option R);
  run_btz_consensus : list pystr -> result (option R);
  stamp_new_block : cycle -> R -> float -> result unit
}.

(** A statement of the loop body: it runs on the runner and the events so
    far, and either completes or raises, keeping what it changed. *)
Definition stmt : Type := runner * list event -> result unit * (runner * list event).

Definition seq (a b : stmt) : stmt :=
fun s => match a s with
         | (Ok _, s') => b s'
         | (Raise e, s') => (Raise e, s')
         end.

Definition emit (ev : event) : stmt := fun s => (Ok tt, (fst s, snd s ++ [ev])).
Definition modify (f : runner -> runner) : stmt := fun s => (Ok tt, (f (fst s), snd s)).
Definition skip : stmt := fun s => (Ok tt, s).

(** [current_time - last >= CYCLE] *)
Definition due (current_time last : float) (cycle_seconds : Z) : bool :=
PrimFloat.leb (PyFloat.of_int cycle_seconds) (PrimFloat.sub current_time last).

(** One of the two [if] blocks of the loop body. *)
Definition reward_cycle (k : collaborators) (c : cycle) (current_time : float)
  (active_nodes : list pystr) : stmt :=
fun s =>
let self := fst s in
let last := match c with SDB => last_sdb_reward_time self | BTZ => last_btz_reward_time self end in
let period := match c with SDB => SDB_REWARD_CYCLE | BTZ => BTZ_REWARD_CYCLE end in
if due current_time last period then
  match emit (Evaluated c) s with
  | (_, s1) =>
      match (match c with SDB => run_sdb_consensus k | BTZ => run_btz_consensus k end)
              active_nodes with
      | Raise e => (Raise e, s1)
      | Ok None => (Ok tt, s1)
      | Ok (Some reward_data) =>
          match stamp_new_block k c reward_data (current_complexity (fst s1)) with
          | Raise e => (Raise e, s1)
          | Ok _ =>
              seq (emit (Stamped c))
                (seq (modify _update_complexity)
                     (modify (fun r => match c with
                                       | SDB => set_last_sdb_reward_time r current_time
                                       | BTZ => set_last_btz_reward_time r current_time
                                       end))) s1
          end
      end
  end
else (Ok tt, s).

(** The [try] block of one iteration. *)
Definition body (k : collaborators) (current_time : float) : stmt :=
fun s =>
match get_all_active_addresses k with
| Raise e => (Raise e, s)
| Ok active_nodes =>
    seq (reward_cycle k SDB current_time active_nodes)
      (seq (reward_cycle k BTZ current_time active_nodes)
           (emit (Slept 1))) s
end.

(** One iteration of [while True]: the [try] block and its
    [except Exception] handler, which prints and sleeps ten seconds. *)
Definition tick (k : collaborators) (current_time : float) (self : runner)
  : runner * list event :=
match body k current_time (self, []) with
| (Ok _, s) => s
| (Raise e, s) => (fst s, snd s ++ [Caught e; Slept 10])
end.

(** The iterations of [while True], as many as there are inputs: one clock
    reading and one set of collaborator outcomes per iteration. *)
Fixpoint iterations (inputs : list (float * collaborators)) (self : runner)
  : runner * list (list event) :=
match inputs with
| [] => (self, [])
| (current_time, k) :: rest =>
    let '(self1, events) := tick k current_time self in
    let '(self2, later) := iterations rest self1 in
    (self2, events :: later)
end.

(** The calls [_create_genesis_block] makes, each with what it returns or
    raises: [self.stamping_engine.stamp_new_block(miner_address=any)],
    [self.data_logger.log_block(genesis_block, self.blockchain)] and the
    two readings of the clock that start the timers. *)
Record genesis_calls : Type := {
  stamp_genesis_block : result BlockStampingEngine.Block;
  log_block : BlockStampingEngine.Block -> list BlockStampingEngine.Block -> result unit;
  sdb_start : float;
  btz_start : float
}.

(** [_create_genesis_block()]: the runner as the method leaves it, also
    when one of its calls raises. *)
Definition _create_genesis_block (g : genesis_calls) (self : runner) : result unit * runner :=
match stamp_genesis_block g with
| Raise e => (Raise e, self)
| Ok genesis_block =>
    let self1 := append_block self genesis_block in
    match log_block g genesis_block (blockchain self1) with
    | Raise e => (Raise e, self1)
    | Ok _ =>
        (Ok tt,
         set_last_btz_reward_time (set_last_sdb_reward_time self1 (sdb_start g)) (btz_start g))
    end
end.

(** [run_node()]: the genesis block when the chain is empty, then the
    loop.  The call of [_create_genesis_block] stands before the [try]: an
    exception it raises leaves [run_node] before the first iteration.  The
    loop itself never ends; [Ok] says that it is still running after the
    iterations given. *)
Definition run_node (g : genesis_calls) (inputs : list (float * collaborators)) (self : runner)
  : result unit * (runner * list (list event)) :=
match (match blockchain self with
       | [] => _create_genesis_block g self
       | _ :: _ => (Ok tt, self)
       end) with
| (Raise e, self1) => (Raise e, (self1, []))
| (Ok _, self1) => (Ok tt, iterations inputs self1)
end.

End Loop.

(** The collaborators as the repository binds them.  [ConsensusManager]
    declares [run_sdb_consensus(self)] and [run_btz_consensus(self)] without
    further parameters, and [BlockStampingEngine.stamp_new_block] has no
    keyword [chain]: each of the three calls of the loop raises [TypeError]
    when it is made.  The wallet handler returns its six registered
    addresses. *)
Definition registered_addresses : list pystr :=
[ py "0xBTCZCY_ETHICAL_COMPUTATION_ADDRESS_7E3F";
  py "0xSNIF_HIGH_VALUE_NODE_A1B2";
  py "0xPACKET_LOAD_MASTER_C3D4";
  py "0xCONSTELLATION_MINER_X9Y0";
  py "0xHIGH_IO_FLOW_NODE_F5G6";
  py "0xRANDOM_SEED_MATCH_H7I8" ].

Definition repository_collaborators : collaborators unit := {|
  get_all_active_addresses := Ok registered_addresses;
  run_sdb_consensus := fun _ => Raise TypeError;
  run_btz_consensus := fun _ => Raise TypeError;
  stamp_new_block := fun _ _ _ => Raise TypeError
|}.


End NodeRunner.

(* ===================================================================== *)
(** * Dictionaries with heterogeneous values                              *)
(* ===================================================================== *)

Module PyDict.

(** The values the ledger's dictionaries hold. *)
#[warnings="-register-all"]
Inductive value : Type :=
| VInt (n : Z)
| VFloat (x : float)
| VStr (s : pystr)
| VDict (entries : list (pystr * value)).

(** A [dict] with [str] keys, in insertion order; its keys are distinct. *)
Definition dict : Type := list (pystr * value).

Definition keys (d : dict) : list pystr := map fst d.

(** [d.get(key)] *)
Fixpoint get (d : dict) (key : pystr) : option value :=
match d with
| [] => None
| (k, v) :: d' => if str_eqb k key then Some v else get d' key
end.

(** [d.get(key, default)] *)
Definition get_default (d : dict) (key : pystr) (default : value) : value :=
match get d key with
| Some v => v
| None => default
end.

(** [d[key] = v]: a key the dictionary has keeps its place, a new key goes
    last. *)
Fixpoint set (d : dict) (key : pystr) (v : value) : dict :=
match d with
| [] => [(key, v)]
| (k, v') :: d' => if str_eqb k key then (k, v) :: d' else (k, v') :: set d' key v
end.

(** [d.pop(key, None)], for what it does to [d]. *)
Fixpoint pop (d : dict) (key : pystr) : dict :=
match d with
| [] => []
| (k, v) :: d' => if str_eqb k key then d' else (k, v) :: pop d' key
end.

(** [x.get(key, default)] on a value: only a dictionary has the method. *)
Definition value_get (x : value) (key : pystr) (default : value) : result value :=
match x with
| VDict d => Ok (get_default d key default)
| _ => Raise AttributeError
end.

(** [x == s] for a [str] [s] *)
Definition eq_str (x : value) (s : pystr) : bool :=
match x with
| VStr t => str_eqb t s
| _ => false
end.

(** What a subscript or a method call on a dictionary raises. *)
Inductive raised : Type :=
| KeyError (key : pystr)
| Raised (e : exn).

End PyDict.

(* ===================================================================== *)
(** * [data_logger_output.py]                                             *)
(* ===================================================================== *)

Module DataLoggerOutput.
Import PyDict.

Definition CSV_CORE_FIELDNAMES : list pystr :=
[ py "BLOCK_INDEX"; py "TIMESTAMP"; py "TIME"; py "REWARD_CHAIN"; py "REWARD_AMOUNT";
  py "WINNERS_ADDRESSES"; py "COMPLEXITY_LEVEL"; py "PREVIOUS_HASH"; py "HARDCOVER_CRYPTION";
  py "CONSTELLATION-SECURITY" ].

Definition CSV_FLATTENED_FIELDNAMES : list pystr :=
[ py "BINARY-TRANSIT-NO"; py "SDB_SEEDFRAME"; py "BTZ_CHALLENGE_ID"; py "BTZ_EXPIRY_TIMESTAMP";
  py "BTZ_PACKETS_TOTAL"; py "BTZ_LATENCY_AVG" ].

(** The object: [self.csv_fieldnames]. *)
Record logger : Type := { csv_fieldnames : list pystr }.

(** [DataLoggerOutput()] *)
Definition init : logger :=
{| csv_fieldnames := CSV_CORE_FIELDNAMES ++ CSV_FLATTENED_FIELDNAMES |}.

(** The keys the last loop of [_flatten_block_data] pops. *)
Definition NESTED_KEYS : list pystr :=
[ py "PROOF_DATA"; py "ETHICAL_CHALLENGE"; py "SOFT-ENCRYPTER"; py "SEEDFRAME" ].

(** The [if] / [elif] on [block["REWARD_CHAIN"]], applied to the copy
    [flat_data]. *)
Definition flatten_reward (block flat_data : dict) (reward_chain : value) : result dict :=
if eq_str reward_chain (py "BTZCY-SYSTEM") then
  let proof_data := get_default block (py "PROOF_DATA") (VDict []) in
  traffic <- value_get proof_data (py "traffic_data") (VDict []) ;;
  let challenge := get_default block (py "ETHICAL_CHALLENGE") (VDict []) in
  id <- value_get challenge (py "challenge_id") (VStr []) ;;
  let flat1 := set flat_data (py "BTZ_CHALLENGE_ID") id in
  expiry <- value_get challenge (py "expiry_timestamp") (VInt 0) ;;
  let flat2 := set flat1 (py "BTZ_EXPIRY_TIMESTAMP") expiry in
  total <- value_get traffic (py "total_packet_count") (VInt 0) ;;
  let flat3 := set flat2 (py "BTZ_PACKETS_TOTAL") total in
  latency <- value_get traffic (py "simulated_latency_ms") (VFloat 0%float) ;;
  Ok (set flat3 (py "BTZ_LATENCY_AVG") latency)
else if eq_str reward_chain (py "@SNIFFEE-DEBUGEE") then
  Ok (set flat_data (py "SDB_SEEDFRAME") (get_default block (py "SEEDFRAME") (VStr [])))
else Ok flat_data.

(** [_flatten_block_data(block)] *)
Definition _flatten_block_data (block : dict) : raised + dict :=
let flat_data := block in
match get block (py "REWARD_CHAIN") with
| None => inl (KeyError (py "REWARD_CHAIN"))
| Some reward_chain =>
    match flatten_reward block flat_data reward_chain with
    | Raise e => inl (Raised e)
    | Ok flat => inr (fold_left pop NESTED_KEYS flat)
    end
end.

(** [csv.DictWriter._dict_to_list(rowdict)] with the defaults, that is
    [extrasaction='raise'] and the empty string as [restval]: the cells of
    the row in the order of the field names, [ValueError] when the
    dictionary has a key that is not a field name. *)
Definition _dict_to_list (fieldnames : list pystr) (rowdict : dict) : result (list value) :=
if forallb (fun k => existsb (str_eqb k) fieldnames) (keys rowdict)
then Ok (map (fun key => get_default rowdict key (VStr [])) fieldnames)
else Raise ValueError.

(** [_log_to_csv(block)], for the rows it appends to the ledger file:
    [write_header] says whether the file is missing or empty.  The file can
    be opened and written; the [ValueError] of the writer is caught and
    printed, after the header has gone out. *)
Definition _log_to_csv (self : logger) (block : dict) (write_header : bool)
  : raised + list (list value) :=
match _flatten_block_data block with
| inl e => inl e
| inr flat_block =>
    let header := if write_header then [map VStr (csv_fieldnames self)] else [] in
    match _dict_to_list (csv_fieldnames self) flat_block with
    | Ok row => inr (header ++ [row])
    | Raise _ => inr header
    end
end.

(** The dictionary [stamp_new_block] returns: the assembled fields and the
    two keys added after them. *)
Definition of_json (v : Json.value) : value :=
match v with
| Json.JInt n => VInt n
| Json.JFloat x => VFloat x
| Json.JStr s => VStr s
end.

Definition block_dict (b : BlockStampingEngine.Block) : dict :=
map (fun kv => (fst kv, of_json (snd kv)))
    (BlockStampingEngine.items (BlockStampingEngine.fields b))
++ [ (py "HARDCOVER_CRYPTION", VStr (BlockStampingEngine.HARDCOVER_CRYPTION b));
     (py "CONSTELLATION-SECURITY", VStr (BlockStampingEngine.CONSTELLATION_SECURITY b)) ].

End DataLoggerOutput.

(* ===================================================================== *)
(** * [wallet_address_handler.py]                                         *)
(* ===================================================================== *)

Module WalletAddressHandler.

(** [_load_initial_nodes()]: address and public key, in insertion order. *)
Definition _load_initial_nodes : list (pystr * pystr) :=
[ (py "0xBTCZCY_ETHICAL_COMPUTATION_ADDRESS_7E3F", py "PUBKEY_MAIN_7E3F");
  (py "0xSNIF_HIGH_VALUE_NODE_A1B2", py "PUBKEY_SNIFF_A1B2");
  (py "0xPACKET_LOAD_MASTER_C3D4", py "PUBKEY_LOAD_C3D4");
  (py "0xCONSTELLATION_MINER_X9Y0", py "PUBKEY_LOCK_X9Y0");
  (py "0xHIGH_IO_FLOW_NODE_F5G6", py "PUBKEY_FLOW_F5G6");
  (py "0xRANDOM_SEED_MATCH_H7I8", py "PUBKEY_SEED_H7I8") ].

(** The object: [self.registered_nodes]. *)
Record handler : Type := { registered_nodes : list (pystr * pystr) }.

(** [WalletAddressHandler()] *)
Definition init : handler := {| registered_nodes := _load_initial_nodes |}.

(** [get_all_active_addresses()] *)
Definition get_all_active_addresses (self : handler) : list pystr :=
map fst (registered_nodes self).

(** [address in self.registered_nodes] *)
Definition registered (self : handler) (address : pystr) : bool :=
existsb (str_eqb address) (map fst (registered_nodes self)).

(** [verify_address_signature(address, payload, signature)] *)
Definition verify_address_signature (self : handler) (address payload signature : pystr)
  : result bool :=
if negb (registered self address) then Ok false
else
  bytes <- encode_utf8 payload ;;
  let expected_hash_prefix := slice_to 5 (Hashlib.sha256_hexdigest bytes) in
  Ok (startswith signature expected_hash_prefix && (10 <? Z.of_nat (length signature))).

(** The string [generate_reward_acceptance_signature] hashes:
    [f"{payload}-{private_key_sim}"] with
    [payload = f"ACCEPTANCE-{challenge_id}-{accepting_address}"]. *)
Definition acceptance_payload (challenge_id accepting_address : pystr) : pystr :=
py "ACCEPTANCE-" ++ challenge_id ++ py "-" ++ accepting_address.

(** [generate_reward_acceptance_signature(challenge_id, accepting_address,
    private_key_sim)] *)
Definition generate_reward_acceptance_signature (challenge_id accepting_address
  private_key_sim : pystr) : result pystr :=
let payload := acceptance_payload challenge_id accepting_address in
bytes <- encode_utf8 (payload ++ py "-" ++ private_key_sim) ;;
let signature_hash := Hashlib.sha256_hexdigest bytes in
Ok (slice_to 5 signature_hash ++ py "_" ++ signature_hash).

End WalletAddressHandler.

(* ===================================================================== *)
(** * [packet_io_logic.py]                                                *)
(* ===================================================================== *)

Module PacketIOMonitor.
Import WifiAnalyzer.

Definition BTZ_REWARD_AMOUNT : Z := 150.
Definition BTZ_CYCLE_TIME_SECONDS : Z := 300.

(** The object: [self.last_reward_time]; the analyzer has no state. *)
Record monitor : Type := { last_reward_time : float }.

(** An entry of [aggregate_all_node_traffic] as the dictionary it is: three
    keys, the traffic figures nested under the third. *)
Definition entry_dict (x : node_data) : PyDict.dict :=
[ (py "node_address", PyDict.VStr (node_address x));
  (py "data_proof_hash", PyDict.VStr (data_proof_hash x));
  (py "io_traffic_details",
   PyDict.VDict
     [ (py "packets_in", PyDict.VInt (packets_in (io_traffic_details x)));
       (py "packets_out", PyDict.VInt (packets_out (io_traffic_details x)));
       (py "total_packet_count", PyDict.VInt (total_packet_count (io_traffic_details x)));
       (py "simulated_latency_ms",
        PyDict.VFloat (simulated_latency_ms (io_traffic_details x))) ]) ].

(** The sort key [x.get('total_packet_count', 0)] of an entry: the number
    under that key, [0] without the key.  What an entry holds at its top
    level is two strings and a dictionary, never under that key. *)
Definition sort_key (x : node_data) : Z :=
match PyDict.get (entry_dict x) (py "total_packet_count") with
| Some (PyDict.VInt n) => n
| _ => 0
end.

(** [sorted(node_traffic_data, key=..., reverse=True)]: the sort is stable,
    entries with equal keys keep their order. *)
Fixpoint insert_descending (x : node_data) (l : list node_data) : list node_data :=
match l with
| [] => [x]
| y :: l' => if sort_key y <=? sort_key x then x :: l else y :: insert_descending x l'
end.

Definition sorted_descending (l : list node_data) : list node_data :=
fold_right insert_descending [] l.

(** [_select_highest_traffic_node(node_traffic_data)] *)
Definition _select_highest_traffic_node (node_traffic_data : list node_data)
  : option node_data :=
match node_traffic_data with
| [] => None
| _ :: _ => hd_error (sorted_descending node_traffic_data)
end.

(** The payload of the acceptance challenge. *)
Record challenge : Type := {
  challenge_id : pystr;
  expiry_timestamp : Z;
  reward_status : pystr;
  ethical_proof_hash : pystr
}.

(** What [_create_ethical_choice_challenge] reads, in the order it reads
    it: the clock inside the hashed text, the built-in [hash] of this
    process (salted per process), 32 random bits, the clock of the expiry,
    128 random bits. *)
Record challenge_draw : Type := {
  id_clock : float;
  builtin_hash : pystr -> Z;
  id_bits : Z;
  expiry_clock : float;
  proof_bits : Z
}.

(** [_create_ethical_choice_challenge(winner_address)] *)
Definition _create_ethical_choice_challenge (winner_address : pystr) (d : challenge_draw)
  : result challenge :=
let hashed := builtin_hash d (winner_address ++ py "-" ++ PyFloat.repr (id_clock d)) in
let challenge_id :=
  py "ETHICAL_CHOICE_" ++ str_of_int hashed ++ py "_" ++ str_of_int (id_bits d) in
now <- PyFloat.int_of_float (expiry_clock d) ;;
Ok {| challenge_id := challenge_id;
      expiry_timestamp := now + BTZ_CYCLE_TIME_SECONDS;
      reward_status := py "PENDING_ACCEPTANCE";
      ethical_proof_hash := py "COOKIES_INDEXED_0x" ++ hex_upper (proof_bits d) |}.

(** The dictionary a winning cycle returns. *)
Record reward : Type := {
  winner_address : pystr;
  reward_amount : Z;
  traffic_data : node_data;
  reward_type : pystr;
  ethical_choice_challenge : challenge
}.

(** What one cycle reads from its environment: the clock at the time check,
    the captures of the analyzer, the draws of the challenge, the clock when
    the timer is set. *)
Record io : Type := {
  gate_clock : float;
  captures : nat -> capture;
  challenge_draws : challenge_draw;
  win_clock : float
}.

(** [process_traffic_cycle(all_active_nodes)] *)
Definition process_traffic_cycle (self : monitor) (all_active_nodes : list pystr) (w : io)
  : result (option reward) * monitor :=
if PrimFloat.ltb (PrimFloat.sub (gate_clock w) (last_reward_time self))
                 (PyFloat.of_int BTZ_CYCLE_TIME_SECONDS)
then (Ok None, self)
else match all_active_nodes with
| [] => (Ok None, self)
| _ :: _ =>
    match aggregate_all_node_traffic all_active_nodes (captures w) with
    | Raise e => (Raise e, self)
    | Ok verified_traffic_data =>
        match _select_highest_traffic_node verified_traffic_data with
        | None => (Ok None, self)
        | Some winner_data =>
            match _create_ethical_choice_challenge (node_address winner_data)
                    (challenge_draws w) with
            | Raise e => (Raise e, self)
            | Ok challenge_payload =>
                (Ok (Some {| winner_address := node_address winner_data;
                             reward_amount := BTZ_REWARD_AMOUNT;
                             traffic_data := winner_data;
                             reward_type := py "BTZCY-SYSTEM";
                             ethical_choice_challenge := challenge_payload |}),
                 {| last_reward_time := win_clock w |})
            end
        end
    end
end.

End PacketIOMonitor.

(* ===================================================================== *)
(** * [ping_nmap_verifier.py]: verification of a whole roster             *)
(* ===================================================================== *)

Module BulkVerification.
Import PingNmapVerifier.

(** What the verification of one node draws: the dictionaries of
    [_simulated_ping] and [_simulated_nmap_scan] and the clock of
    ["verification_timestamp"]. *)
Record probe : Type := {
  probe_ping : ping_report;
  probe_nmap : nmap_report;
  probe_clock : float
}.

(** [bulk_verify_nodes(node_list)]: the [i]-th address gets the [i]-th probe
    of this call; the comprehension stops at the first address whose
    verification raises. *)
Fixpoint bulk_from (fuel : nat) (self : verifier) (i : nat) (node_list : list pystr)
  (probes : nat -> probe) : option (result (list report)) :=
match node_list with
| [] => Some (Ok [])
| address :: rest =>
    match verify_node_integrity fuel self address (probe_ping (probes i))
            (probe_nmap (probes i)) (probe_clock (probes i)) with
    | None => None
    | Some (Raise e) => Some (Raise e)
    | Some (Ok r) =>
        match bulk_from fuel self (S i) rest probes with
        | None => None
        | Some (Raise e) => Some (Raise e)
        | Some (Ok full_reports) => Some (Ok (r :: full_reports))
        end
    end
end.

Definition bulk_verify_nodes (fuel : nat) (self : verifier) (node_list : list pystr)
  (probes : nat -> probe) : option (result (list report)) :=
bulk_from fuel self 0 node_list probes.

End BulkVerification.

(* ===================================================================== *)
(** * What the specification states, in terms of the code                 *)
(* ===================================================================== *)

Module Ledger.
Import BlockStampingEngine.

(** The chains the ledger produces: starting from the empty chain, a block
    is stamped by an engine that holds the chain so far (at whatever
    difficulty the engine has then) and the caller appends it. *)
Inductive produced : list Block -> Prop :=
| produced_empty : produced []
| produced_stamp chain complexity a now t g b g' :
    produced chain ->
    stamp_new_block (init chain complexity) a now t g = (Ok b, g') ->
    produced (chain ++ [b]).

(** Every block names the integrity hash of the block before it. *)
Definition linked (chain : list Block) : Prop :=
forall i b b',
  nth_error chain i = Some b ->
  nth_error chain (S i) = Some b' ->
  PREVIOUS_HASH (fields b') = HARDCOVER_CRYPTION b.

Definition ZERO_HASH : pystr :=
py "0000000000000000000000000000000000000000000000000000000000000000".

(** The first block names the synthetic predecessor. *)
Definition rooted (chain : list Block) : Prop :=
forall b, nth_error chain 0 = Some b -> PREVIOUS_HASH (fields b) = ZERO_HASH.

(** Stamping on [chain] and appending, as a function: the chain is left as
    it is when the stamp raises. *)
Definition stamp_and_append (chain : list Block) (complexity : float) (a : stamp_args)
  (now : clock_reading) (t : SecurityHasher.time_binding) (g : Random.state)
  : list Block * Random.state :=
match stamp_new_block (init chain complexity) a now t g with
| (Ok b, g') => (chain ++ [b], g')
| (Raise _, g') => (chain, g')
end.

End Ledger.

(** Cycle A's selection rule in the specification's words. *)
Module SeedMatch.
Import WifiAnalyzer.

(** The proof hash of [node] starts with the first five characters of the
    target seed. *)
Definition matches (target_seed : pystr) (node : node_data) : bool :=
startswith (data_proof_hash node) (slice_to 5 target_seed).

(** [w] is the first participant, in list order, whose proof hash matches. *)
Definition first_in_scan_order (target_seed : pystr) (nodes : list node_data) (w : node_data)
  : Prop :=
exists before after,
  nodes = before ++ w :: after
  /\ matches target_seed w = true
  /\ forall x, In x before -> matches target_seed x = false.

Definition no_match (target_seed : pystr) (nodes : list node_data) : Prop :=
forall x, In x nodes -> matches target_seed x = false.

End SeedMatch.

(** The outcome of a consensus run is a winner when the run returns a
    reward dictionary; returning [None] and raising are not. *)
Definition is_winner (R : Type) (r : result (option R)) : bool :=
match r with
| Ok (Some _) => true
| _ => false
end.

(** Cycle B's selection rule in the specification's words. *)
Module TrafficVolume.
Import WifiAnalyzer.

(** The participant has a report, the first one under its address, and the
    report says verified. *)
Definition verified (reports : list PingNmapVerifier.report) (node : node_data) : bool :=
match BTZRewardLogic.report_for reports (node_address node) with
| Some r => PingNmapVerifier.is_verified r
| None => false
end.

(** [w] has the highest total packet count of [l], and is the first with
    that count. *)
Definition first_highest (l : list BTZRewardLogic.eligible) (w : BTZRewardLogic.eligible) : Prop :=
exists before after,
  l = before ++ w :: after
  /\ (forall x, In x before -> BTZRewardLogic.packets x < BTZRewardLogic.packets w)
  /\ (forall x, In x after -> BTZRewardLogic.packets x <= BTZRewardLogic.packets w).

End TrafficVolume.

(** The hash layers in the specification's words. *)
Module HashLayers.

(** The lock signature is pure and deterministic: two evaluations on the
    same integrity hash, complexity and reward type return equal strings,
    whatever the clock and the state of the random generator, and leave
    that state as it was. *)
Definition lock_signature_pure : Prop :=
forall hard_hash complexity reward_type t1 t2 g1 g2,
  exists lock,
    SecurityHasher.constellation_lock_key hard_hash complexity reward_type t1 g1 = (Ok lock, g1)
    /\ SecurityHasher.constellation_lock_key hard_hash complexity reward_type t2 g2 = (Ok lock, g2).

(** The integrity hash of a set of block fields. *)
Definition integrity_hash (d : BlockStampingEngine.BlockData) : result pystr :=
SecurityHasher.sha256_hash (Json.dumps_sorted (BlockStampingEngine.items d)).

End HashLayers.

(** The proof-of-work search in the specification's words. *)
Module ProofOfWork.
Import PingNmapVerifier.

(** The number of times the loop body can run: nonces 0 to [NONCE_CUTOFF]. *)
Definition MAX_ATTEMPTS : nat := Z.to_nat (NONCE_CUTOFF + 1).

(** The hash of the attempt at [nonce]. *)
Definition attempt_hash (raw_data : pystr) (nonce : Z) : result pystr :=
SecurityHasher.sha256_hash (raw_data ++ str_of_int nonce).

(** The attempt at [nonce] hashes and misses the difficulty target. *)
Definition misses (self : verifier) (raw_data : pystr) (nonce : Z) : Prop :=
exists h, attempt_hash raw_data nonce = Ok h /\ startswith h (difficulty_target self) = false.

(** What the search started at nonce [from] returns: the first hash that
    meets the target, the degraded string built from the hash at the cutoff
    when every nonce up to it misses, or the exception of the attempt that
    could not be hashed. *)
Definition outcome (self : verifier) (raw_data : pystr) (from : Z) (r : result pystr) : Prop :=
match r with
| Ok s =>
    (exists nonce,
       from <= nonce <= NONCE_CUTOFF
       /\ attempt_hash raw_data nonce = Ok s
       /\ startswith s (difficulty_target self) = true
       /\ forall m, from <= m < nonce -> misses self raw_data m)
    \/ (exists h,
          attempt_hash raw_data NONCE_CUTOFF = Ok h
          /\ s = py "NonceExceeded-" ++ slice_to 10 h
          /\ forall m, from <= m <= NONCE_CUTOFF -> misses self raw_data m)
| Raise e =>
    exists nonce,
      from <= nonce <= NONCE_CUTOFF
      /\ attempt_hash raw_data nonce = Raise e
      /\ forall m, from <= m < nonce -> misses self raw_data m
end.

End ProofOfWork.

(** The scheduler in the specification's words. *)
Module Scheduler.
Import NodeRunner.

(** Cycle A fails in this tick: its interval has elapsed and its consensus
    evaluation raises, or returns a winner whose stamping raises. *)
Definition sdb_fails (R : Type) (k : collaborators R) (current_time : float) (self : runner)
  (active_nodes : list pystr) (e : exn) : Prop :=
due current_time (last_sdb_reward_time self) SDB_REWARD_CYCLE = true
/\ (run_sdb_consensus k active_nodes = Raise e
    \/ exists reward_data,
         run_sdb_consensus k active_nodes = Ok (Some reward_data)
         /\ stamp_new_block k SDB reward_data (current_complexity self) = Raise e).

(** The statement of the specification: a failure of cycle A is turned into
    "no winner", so cycle B, when due, is still evaluated in the tick. *)
Definition failure_is_isolated : Prop :=
forall (R : Type) (k : collaborators R) current_time self active_nodes e,
  get_all_active_addresses k = Ok active_nodes ->
  sdb_fails k current_time self active_nodes e ->
  due current_time (last_btz_reward_time self) BTZ_REWARD_CYCLE = true ->
  In (Evaluated BTZ) (snd (tick k current_time self)).



End Scheduler.

(** ** Concrete runs *)

Module Scenario.

Definition SNIF_NODE : pystr := py "0xSNIF_HIGH_VALUE_NODE_A1B2".
Definition LOAD_NODE : pystr := py "0xPACKET_LOAD_MASTER_C3D4".

Definition sdb_args : BlockStampingEngine.stamp_args := {|
  BlockStampingEngine.miner_address := SNIF_NODE;
  BlockStampingEngine.reward_type := py "@SNIFFEE-DEBUGEE";
  BlockStampingEngine.reward_amount := 300;
  BlockStampingEngine.binary_transit_no := 5321;
  BlockStampingEngine.seedframe := py "abcde0123";
  BlockStampingEngine.is_genesis := false |}.

Definition btz_args : BlockStampingEngine.stamp_args := {|
  BlockStampingEngine.miner_address := LOAD_NODE;
  BlockStampingEngine.reward_type := py "BTZCY-SYSTEM";
  BlockStampingEngine.reward_amount := 150;
  BlockStampingEngine.binary_transit_no := 5000;
  BlockStampingEngine.seedframe := py "0";
  BlockStampingEngine.is_genesis := false |}.

Definition first_clock : BlockStampingEngine.clock_reading := {|
  BlockStampingEngine.seconds := 1700000000.25%float;
  BlockStampingEngine.ctime := py "Tue Nov 14 22:13:20 2023" |}.

Definition second_clock : BlockStampingEngine.clock_reading := {|
  BlockStampingEngine.seconds := 1700000300.5%float;
  BlockStampingEngine.ctime := py "Tue Nov 14 22:18:20 2023" |}.

(** The clock as [security_hasher.py] would read it with [time] imported. *)
Definition hasher_clock_1 : SecurityHasher.time_binding := SecurityHasher.Bound 1700000000.377%float.
Definition hasher_clock_2 : SecurityHasher.time_binding := SecurityHasher.Bound 1700000300.612%float.

Definition generator_0 : Random.state := Eval vm_compute in Random.seed 0.

(** Two blocks stamped one after the other at difficulty [0.1]. *)
Definition chain_1 : list BlockStampingEngine.Block * Random.state :=
Eval vm_compute in
  Ledger.stamp_and_append [] 0.1%float sdb_args first_clock hasher_clock_1 generator_0.

Definition chain_2 : list BlockStampingEngine.Block * Random.state :=
Eval vm_compute in
  Ledger.stamp_and_append (fst chain_1) 0.1%float btz_args second_clock hasher_clock_2 (snd chain_1).

(** Two traffic entries whose proof hashes both start with ["95810"], and
    one that does not. *)
Definition details (n_in n_out : Z) : WifiAnalyzer.traffic_details := {|
  WifiAnalyzer.packets_in := n_in;
  WifiAnalyzer.packets_out := n_out;
  WifiAnalyzer.total_packet_count := n_in + n_out;
  WifiAnalyzer.simulated_latency_ms := 42.5%float |}.

Definition entry_miss : WifiAnalyzer.node_data := {|
  WifiAnalyzer.node_address := SNIF_NODE;
  WifiAnalyzer.data_proof_hash :=
    py "ec9509f953fbec1a7b31c4fbd8d9c70fbb4b8ffdaaef15091fe87f626dac6381";
  WifiAnalyzer.io_traffic_details := details 4000 4100 |}.

Definition entry_hit : WifiAnalyzer.node_data := {|
  WifiAnalyzer.node_address := LOAD_NODE;
  WifiAnalyzer.data_proof_hash :=
    py "95810080c7004cee1b9d024de77c506585307ffdb319c3e650132dcf4bf19194";
  WifiAnalyzer.io_traffic_details := details 120 4880 |}.

Definition entry_late_hit : WifiAnalyzer.node_data := {|
  WifiAnalyzer.node_address := py "0xRANDOM_SEED_MATCH_H7I8";
  WifiAnalyzer.data_proof_hash :=
    py "958100e44a6d280cada558a7b6764aeed6fd8f97446c447ddcf351cc4c9b6090";
  WifiAnalyzer.io_traffic_details := details 5000 5000 |}.

Definition target_seed : pystr :=
py "958100e44a6d280cada558a7b6764aeed6fd8f97446c447ddcf351cc4c9b6090".

(** The roster of the runs below, in join order. *)
Definition roster : list pystr := [SNIF_NODE; LOAD_NODE].

Definition packet (payload seq : Z) : WifiAnalyzer.NetworkPacket := {|
  WifiAnalyzer.packet_timestamp := 1700001899.5%float;
  WifiAnalyzer.source_mac := py "00:1A:2B:0A:0B:0C";
  WifiAnalyzer.destination_mac := py "AA:BB:CC:01:02:03";
  WifiAnalyzer.protocol := py "TCP";
  WifiAnalyzer.payload_size_bytes := payload;
  WifiAnalyzer.sequence_number := seq;
  WifiAnalyzer.ttl_hops_remaining := 64 |}.

(** The captures of the two nodes: 8100 packets for the first, 5000 for the
    second. *)
Definition capture_snif : WifiAnalyzer.capture := {|
  WifiAnalyzer.captured_in := repeat (packet 512 12345) 4000;
  WifiAnalyzer.captured_out := repeat (packet 512 12345) 4100;
  WifiAnalyzer.captured_latency_ms := 42.5%float;
  WifiAnalyzer.captured_at := 1700001900.125%float |}.

Definition capture_load : WifiAnalyzer.capture := {|
  WifiAnalyzer.captured_in := repeat (packet 95 80184) 120;
  WifiAnalyzer.captured_out := repeat (packet 95 80184) 4880;
  WifiAnalyzer.captured_latency_ms := 42.5%float;
  WifiAnalyzer.captured_at := 1700001900.25%float |}.

Definition captures (i : nat) : WifiAnalyzer.capture :=
match i with
| O => capture_snif
| S _ => capture_load
end.

(** Cycle A: the logic as [SDBRewardLogic()] builds it from [seed_draw] at
    clock [1700000000.5], and a run 1899.5 seconds later. *)
Definition seed_draw : FavoriteSeedGenerator.draw := {|
  FavoriteSeedGenerator.choice := 1;
  FavoriteSeedGenerator.seed_clock := 1700000000.5%float;
  FavoriteSeedGenerator.seed_bits := 0x0123456789abcdef0123456789abcdef;
  FavoriteSeedGenerator.stamp_clock := 1700000000.5%float;
  FavoriteSeedGenerator.lock_clock := 1700000000.5%float |}.

Definition seed_frame : FavoriteSeedGenerator.SeedFrame := {|
  FavoriteSeedGenerator.seed_timestamp := 1700000000;
  FavoriteSeedGenerator.seed_frame_id := py "526bf601f06dc52a";
  FavoriteSeedGenerator.favorite_algorithm := py "LowLatency_SHA256";
  FavoriteSeedGenerator.complexity_factor := 1.25%float;
  FavoriteSeedGenerator.target_seed_transaction := target_seed;
  FavoriteSeedGenerator.constellation_lock_signature :=
    py "64651f4a195267a56cd7492e7236c7a3a7f9785c8c2a39ffebc49245473da57e" |}.

Definition sdb_logic : SDBRewardLogic.logic := {|
  SDBRewardLogic.seed_generator := {| FavoriteSeedGenerator._current_seed_frame := seed_frame |};
  SDBRewardLogic.last_reward_time := 1700000000.5%float |}.

Definition sdb_io : SDBRewardLogic.io := {|
  SDBRewardLogic.gate_clock := 1700001900%float;
  SDBRewardLogic.captures := captures;
  SDBRewardLogic.win_clock := 1700001900.5%float |}.

Definition sdb_reward : SDBRewardLogic.reward := {|
  SDBRewardLogic.winner_address := LOAD_NODE;
  SDBRewardLogic.reward_amount := 300;
  SDBRewardLogic.binary_transit_no := 5000;
  SDBRewardLogic.seedframe := target_seed;
  SDBRewardLogic.reward_type := py "@SNIFFEE-DEBUGEE";
  SDBRewardLogic.proof_data := entry_hit |}.

(** Cycle B: the node with the most traffic fails verification (its service
    is blocked), the other one passes. *)
Definition report_snif : PingNmapVerifier.report := {|
  PingNmapVerifier.address := SNIF_NODE;
  PingNmapVerifier.verification_timestamp := 1700001900;
  PingNmapVerifier.is_verified := false;
  PingNmapVerifier.ping_results :=
    {| PingNmapVerifier.status := py "SUCCESS";
       PingNmapVerifier.latency_avg_ms := 71.206%float;
       PingNmapVerifier.packets_lost := 0;
       PingNmapVerifier.raw_latency_data := py "30.447,45.125,88.500,120.750" |};
  PingNmapVerifier.nmap_results :=
    {| PingNmapVerifier.service_status := py "BLOCKED";
       PingNmapVerifier.verified_ports_hash := py "a46f74254e";
       PingNmapVerifier.scan_timestamp := 1700001900 |};
  PingNmapVerifier.verification_hash_proof :=
    py "0009a896aed751224cb043efba85b580d9738818cf8ad4d401ac4c498b0ddf41";
  PingNmapVerifier.report_difficulty_target := py "000" |}.

Definition report_load : PingNmapVerifier.report := {|
  PingNmapVerifier.address := LOAD_NODE;
  PingNmapVerifier.verification_timestamp := 1700001900;
  PingNmapVerifier.is_verified := true;
  PingNmapVerifier.ping_results :=
    {| PingNmapVerifier.status := py "SUCCESS";
       PingNmapVerifier.latency_avg_ms := 65.891%float;
       PingNmapVerifier.packets_lost := 0;
       PingNmapVerifier.raw_latency_data := py "20.813,101.250,77.001,64.500" |};
  PingNmapVerifier.nmap_results :=
    {| PingNmapVerifier.service_status := py "RUNNING";
       PingNmapVerifier.verified_ports_hash := py "9c3b478bc5";
       PingNmapVerifier.scan_timestamp := 1700001900 |};
  PingNmapVerifier.verification_hash_proof :=
    py "0003d5116865a6750aecdd07fb02c61f37dd0a385f736a641bbdd91cad710293";
  PingNmapVerifier.report_difficulty_target := py "000" |}.

Definition btz_logic : BTZRewardLogic.logic :=
{| BTZRewardLogic.last_reward_time := 1700000000.5%float |}.

Definition btz_io : BTZRewardLogic.io := {|
  BTZRewardLogic.gate_clock := 1700001900%float;
  BTZRewardLogic.captures := captures;
  BTZRewardLogic.verified_reports := [report_snif; report_load];
  BTZRewardLogic.challenge_draws :=
    {| BTZRewardLogic.id_clock := 1700001900.75%float;
       BTZRewardLogic.expiry_clock := 1700001900.875%float;
       BTZRewardLogic.consent_bits := 0xfeedfacecafebeef0123456789abcdef |};
  BTZRewardLogic.win_clock := 1700001901%float |}.

Definition eligible_load : BTZRewardLogic.eligible := {|
  BTZRewardLogic.traffic := entry_hit;
  BTZRewardLogic.is_verified := true;
  BTZRewardLogic.verification_hash_proof :=
    py "0003d5116865a6750aecdd07fb02c61f37dd0a385f736a641bbdd91cad710293";
  BTZRewardLogic.address := LOAD_NODE |}.

Definition btz_reward : BTZRewardLogic.reward := {|
  BTZRewardLogic.winner_address := LOAD_NODE;
  BTZRewardLogic.reward_amount := 150;
  BTZRewardLogic.binary_transit_no := 5000;
  BTZRewardLogic.seedframe :=
    py "9f4fa114c28ee162b1d59aca2609caa51f7f77f2bbd8d142405818a9746174ff";
  BTZRewardLogic.reward_type := py "BTZCY-SYSTEM";
  BTZRewardLogic.proof_data := eligible_load;
  BTZRewardLogic.ethical_challenge :=
    {| BTZRewardLogic.challenge_id :=
         py "9f4fa114c28ee162b1d59aca2609caa51f7f77f2bbd8d142405818a9746174ff";
       BTZRewardLogic.expiry_timestamp := 1700002200;
       BTZRewardLogic.reward_status := py "PENDING_ACCEPTANCE";
       BTZRewardLogic.ethical_proof_hash := py "ETHICAL_CONSENT_0xFEEDFACECAFEBEEF0123456789ABCDEF" |} |}.

(** The integrity hash of the first block of [chain_1], and a clock that
    differs from [hasher_clock_1] by one millisecond, another by ten
    seconds. *)
Definition first_hash : pystr :=
py "901ce9d6606f4bfd700441b17bd9b22dc703bc6373eeca7fb35113e30e22a587".

Definition hasher_clock_1_later : SecurityHasher.time_binding :=
SecurityHasher.Bound 1700000000.378%float.

Definition hasher_clock_1_next_cycle : SecurityHasher.time_binding :=
SecurityHasher.Bound 1700000010.377%float.

Definition lock_at (t : SecurityHasher.time_binding) : result pystr * Random.state :=
SecurityHasher.constellation_lock_key first_hash 0.1%float (py "@SNIFFEE-DEBUGEE") t generator_0.

(** A runner with the chain and the difficulty [__init__] assigns and both
    timers at [1700000000], and a tick half an hour later, when both cycles
    are due. *)
Definition runner_0 : NodeRunner.runner := {|
  NodeRunner.blockchain := [];
  NodeRunner.current_complexity := NodeRunner.INITIAL_COMPLEXITY;
  NodeRunner.last_sdb_reward_time := 1700000000%float;
  NodeRunner.last_btz_reward_time := 1700000000%float |}.




Definition tick_time : float := 1700001800%float.

(** Collaborators whose cycle A returns a winner that cannot be stamped,
    and collaborators whose cycle A finds no winner while cycle B fails. *)
Definition stamp_fails : NodeRunner.collaborators unit := {|
  NodeRunner.get_all_active_addresses := Ok roster;
  NodeRunner.run_sdb_consensus := fun _ => Ok (Some tt);
  NodeRunner.run_btz_consensus := fun _ => Ok (Some tt);
  NodeRunner.stamp_new_block := fun _ _ _ => Raise TypeError |}.

Definition no_sdb_winner : NodeRunner.collaborators unit := {|
  NodeRunner.get_all_active_addresses := Ok roster;
  NodeRunner.run_sdb_consensus := fun _ => Ok None;
  NodeRunner.run_btz_consensus := fun _ => Raise AttributeError;
  NodeRunner.stamp_new_block := fun _ _ _ => Ok tt |}.

End Scenario.

(** ** Shapes of text *)

Module Text.

(** Every character is below 128: the string is its own UTF-8 encoding. *)
Definition low (s : pystr) : Prop := Forall (fun c => c < 128) s.

(** A surrogate code point, which UTF-8 cannot encode. *)
Definition surrogate (c : Z) : Prop := 0xD800 <= c <= 0xDFFF.

Definition encodable (s : pystr) : Prop := Forall (fun c => ~ surrogate c) s.

Definition lower_hex_digit (c : Z) : Prop := 48 <= c <= 57 \/ 97 <= c <= 102.
Definition upper_hex_digit (c : Z) : Prop := 48 <= c <= 57 \/ 65 <= c <= 70.

(** [n] hexadecimal digits, in lower or in upper case. *)
Definition lower_hex (n : nat) (s : pystr) : Prop := length s = n /\ Forall lower_hex_digit s.
Definition upper_hex (n : nat) (s : pystr) : Prop := length s = n /\ Forall upper_hex_digit s.

(** No string occurs twice in the list. *)
Fixpoint distinctb (l : list pystr) : bool :=
match l with
| [] => true
| k :: l' => negb (existsb (str_eqb k) l') && distinctb l'
end.

End Text.

(** ** Shapes of a stamped block *)

Module BlockShape.
Import BlockStampingEngine.

(** The lock string: the tag and 128 hexadecimal digits in upper case. *)
Definition lock_text (s : pystr) : Prop :=
exists h, s = py "CONSTELLATION_LOCK:" ++ h /\ Text.upper_hex 128 h.

(** Both hashes of the block are 64 hexadecimal digits, its lock is a lock
    string. *)
Definition well_shaped (b : Block) : Prop :=
Text.lower_hex 64 (PREVIOUS_HASH (fields b))
/\ Text.lower_hex 64 (HARDCOVER_CRYPTION b)
/\ lock_text (CONSTELLATION_SECURITY b).

End BlockShape.

(** ** What an aggregated traffic entry says about its capture *)

Module Traffic.
Import WifiAnalyzer.

(** The figures of the entry are those of the capture: the two packet
    counts, their sum as the total, the latency. *)
Definition counted (c : capture) (x : node_data) : Prop :=
packets_in (io_traffic_details x) = Z.of_nat (length (captured_in c))
/\ packets_out (io_traffic_details x) = Z.of_nat (length (captured_out c))
/\ total_packet_count (io_traffic_details x)
   = packets_in (io_traffic_details x) + packets_out (io_traffic_details x)
/\ simulated_latency_ms (io_traffic_details x) = captured_latency_ms c.

(** What [generate_data_proof_hash] reads of the first inbound packet. *)
Definition first_inbound (s : NodeTrafficSnapshot) : option (Z * Z) :=
match snapshot_packets_in s with
| [] => None
| first :: _ => Some (payload_size_bytes first, sequence_number first)
end.

End Traffic.

(** ** Further concrete cases *)

Module Cases.
Import WifiAnalyzer.

(** The snapshot of the second node of the scenario, and one that shares
    with it the address, the timestamp, the number of packets and the first
    inbound packet, and differs in every other packet and in the latency. *)
Definition snapshot_a : NodeTrafficSnapshot :=
get_node_traffic_snapshot Scenario.LOAD_NODE Scenario.capture_load.

Definition snapshot_b : NodeTrafficSnapshot := {|
  snapshot_node_address := Scenario.LOAD_NODE;
  snapshot_packets_in := Scenario.packet 95 80184 :: repeat (Scenario.packet 1500 99999) 3000;
  snapshot_packets_out := repeat (Scenario.packet 64 10000) 1999;
  snapshot_simulated_latency_ms := 119.99%float;
  timestamp := 1700001900.25%float |}.

(** The fields of the first block of the scenario, as [_prepare_block_data]
    assembles them. *)
Definition sample_fields : result BlockStampingEngine.BlockData :=
BlockStampingEngine._prepare_block_data (BlockStampingEngine.init [] 0.1%float) 1
  SecurityHasher.placeholder_hash Scenario.SNIF_NODE (py "@SNIFFEE-DEBUGEE") 300 5321
  (py "abcde0123") Scenario.first_clock.

(** A block of cycle B as an audit log would hold it, with the nested
    proof and challenge that [_flatten_block_data] looks for. *)
Definition audit_block : PyDict.dict :=
[ (py "BLOCK_INDEX", PyDict.VInt 7);
  (py "REWARD_CHAIN", PyDict.VStr (py "BTZCY-SYSTEM"));
  (py "SEEDFRAME", PyDict.VStr (py "9f4fa114c28ee162"));
  (py "SOFT-ENCRYPTER", PyDict.VStr (py "hidden"));
  (py "PROOF_DATA",
   PyDict.VDict
     [ (py "traffic_data",
        PyDict.VDict [ (py "total_packet_count", PyDict.VInt 5000);
                       (py "simulated_latency_ms", PyDict.VFloat 42.5%float) ]) ]);
  (py "ETHICAL_CHALLENGE",
   PyDict.VDict [ (py "challenge_id", PyDict.VStr (py "9f4fa114c28ee162"));
                  (py "expiry_timestamp", PyDict.VInt 1700002200) ]) ].

Definition audit_block_flat : PyDict.dict :=
[ (py "BLOCK_INDEX", PyDict.VInt 7);
  (py "REWARD_CHAIN", PyDict.VStr (py "BTZCY-SYSTEM"));
  (py "BTZ_CHALLENGE_ID", PyDict.VStr (py "9f4fa114c28ee162"));
  (py "BTZ_EXPIRY_TIMESTAMP", PyDict.VInt 1700002200);
  (py "BTZ_PACKETS_TOTAL", PyDict.VInt 5000);
  (py "BTZ_LATENCY_AVG", PyDict.VFloat 42.5%float) ].

End Cases.

(** ** The ledger row of a block *)

Module Flatten.
Import PyDict DataLoggerOutput.

(** The columns [_flatten_block_data] writes. *)
Definition COLUMN_KEYS : list pystr :=
[ py "BTZ_CHALLENGE_ID"; py "BTZ_EXPIRY_TIMESTAMP"; py "BTZ_PACKETS_TOTAL";
  py "BTZ_LATENCY_AVG"; py "SDB_SEEDFRAME" ].

Definition dict_or_missing (o : option value) : Prop :=
match o with
| None | Some (VDict _) => True
| Some _ => False
end.

(** The nested fields of a block of cycle B can be read: what is under
    PROOF_DATA and ETHICAL_CHALLENGE, and under [traffic_data] inside the
    former, is a dictionary or missing. *)
Definition nested_readable (block : dict) : Prop :=
dict_or_missing (get block (py "PROOF_DATA"))
/\ dict_or_missing (get block (py "ETHICAL_CHALLENGE"))
/\ match get block (py "PROOF_DATA") with
   | Some (VDict proof_data) => dict_or_missing (get proof_data (py "traffic_data"))
   | _ => True
   end.

(** The sixteen cells of the ledger row of a block the engine stamped, in
    the order of the header; the empty string is the writer's filler for a
    column the flattened block does not have. *)
Definition ledger_row (b : BlockStampingEngine.Block) : list value :=
let d := BlockStampingEngine.fields b in
let btz := str_eqb (BlockStampingEngine.REWARD_CHAIN d) (py "BTZCY-SYSTEM") in
let sdb := str_eqb (BlockStampingEngine.REWARD_CHAIN d) (py "@SNIFFEE-DEBUGEE") in
[ VInt (BlockStampingEngine.BLOCK_INDEX d);
  VFloat (BlockStampingEngine.TIMESTAMP d);
  VStr (BlockStampingEngine.TIME d);
  VStr (BlockStampingEngine.REWARD_CHAIN d);
  VInt (BlockStampingEngine.REWARD_AMOUNT d);
  VStr (BlockStampingEngine.WINNERS_ADDRESSES d);
  VFloat (BlockStampingEngine.COMPLEXITY_LEVEL d);
  VStr (BlockStampingEngine.PREVIOUS_HASH d);
  VStr (BlockStampingEngine.HARDCOVER_CRYPTION b);
  VStr (BlockStampingEngine.CONSTELLATION_SECURITY b);
  VInt (BlockStampingEngine.BINARY_TRANSIT_NO d);
  if btz then VStr [] else if sdb then VStr (BlockStampingEngine.SEEDFRAME d) else VStr [];
  VStr [];
  if btz then VInt 0 else VStr [];
  if btz then VInt 0 else VStr [];
  if btz then VFloat 0%float else VStr [] ].

End Flatten.

(** ** The demonstration at the end of [wallet_address_handler.py] *)

Module Demonstration.

Definition test_address : pystr := py "0xBTCZCY_ETHICAL_COMPUTATION_ADDRESS_7E3F".
Definition test_challenge_id : pystr := py "ETHICAL_CHOICE_12345".
Definition simulated_private_key : pystr := py "SIM_PRIV_KEY_7E3F".

(** [f"ACCEPTANCE-{test_challenge_id}-{test_address}"] *)
Definition payload_to_verify : pystr :=
WalletAddressHandler.acceptance_payload test_challenge_id test_address.

Definition acceptance_sig : pystr :=
py "7f962_7f96235ced8d4e5bda5aa2f30d7bbb82254e7de2c7ed3e15cc63a9d845cbf2e9".

End Demonstration.

(** ** What the main loop does to the runner *)

Module Loop.
Import NodeRunner.

Definition is_stamp (ev : event) : bool :=
match ev with
| Stamped _ => true
| _ => false
end.

(** The number of blocks stamped among the events. *)
Definition stamps (evs : list event) : nat := length (filter is_stamp evs).

(** The difficulty after [n] applications of [_update_complexity]. *)
Definition grown (n : nat) (c : float) : float :=
Nat.iter n (fun x => PrimFloat.add x COMPLEXITY_GROWTH_INCREMENT) c.

(** From [s] to [s'] events were added, and the difficulty of the runner
    grew once per block stamped among them. *)
Definition effect (s s' : runner * list event) : Prop :=
exists evs,
  snd s' = snd s ++ evs
  /\ current_complexity (fst s') = grown (stamps evs) (current_complexity (fst s)).



End Loop.

(** ** Verification of a roster *)

Module Verification.
Import PingNmapVerifier BulkVerification.

(** What a probe says about its node: the ping succeeded and the service
    runs. *)
Definition verdict (p : probe) : bool :=
str_eqb (status (probe_ping p)) (py "SUCCESS")
&& str_eqb (service_status (probe_nmap p)) (py "RUNNING").

(** The probes of the two nodes of the scenario. *)
Definition probes (i : nat) : probe :=
match i with
| O => {| probe_ping := ping_results Scenario.report_snif;
          probe_nmap := nmap_results Scenario.report_snif;
          probe_clock := 1700001900.3%float |}
| S _ => {| probe_ping := ping_results Scenario.report_load;
            probe_nmap := nmap_results Scenario.report_load;
            probe_clock := 1700001900.3%float |}
end.

End Verification.

(** ** The timers of the runner *)

Module Timers.
Import NodeRunner.

Definition cycle_eqb (a b : cycle) : bool :=
match a, b with
| SDB, SDB | BTZ, BTZ => true
| _, _ => false
end.

(** A block of cycle [c] was stamped among the events. *)
Definition stamped (c : cycle) (evs : list event) : bool :=
existsb (fun ev => match ev with Stamped c' => cycle_eqb c c' | _ => false end) evs.

(** From [s] to [s'] events were added, and each timer was set to
    [current_time] if a block of its cycle was stamped among them, and left
    alone otherwise. *)
Definition effect (current_time : float) (s s' : runner * list event) : Prop :=
exists evs,
  snd s' = snd s ++ evs
  /\ last_sdb_reward_time (fst s')
     = (if stamped SDB evs then current_time else last_sdb_reward_time (fst s))
  /\ last_btz_reward_time (fst s')
     = (if stamped BTZ evs then current_time else last_btz_reward_time (fst s)).

End Timers.

(** ** Arguments of a stamp *)

Module StampArgs.
Import BlockStampingEngine.

(** An integer that [str] and [json.dumps] convert under the limit that
    Python sets from version 3.11 on: at most 4300 digits. *)
Definition MAX_STR_DIGITS : Z := 4300.

Definition converts (n : Z) : Prop := Z.abs n < 10 ^ MAX_STR_DIGITS.

(** The integers of the block that [self] stamps on the arguments [a]. *)
Definition integers_convert (self : engine) (a : stamp_args) : Prop :=
converts (last_BLOCK_INDEX (_get_last_block self) + 1)
/\ converts (reward_amount a)
/\ converts (binary_transit_no a).

(** A reading of the clock that [time.ctime] renders on every platform:
    at least a day after the epoch and less than [2**31] seconds after
    it. *)
Definition renders (now : clock_reading) : Prop :=
PrimFloat.leb 86400%float (seconds now) = true
/\ PrimFloat.ltb (seconds now) 2147483648%float = true.

(** The same call with another value for [is_genesis]. *)
Definition with_is_genesis (a : stamp_args) (flag : bool) : stamp_args :=
{| miner_address := miner_address a;
   reward_type := reward_type a;
   reward_amount := reward_amount a;
   binary_transit_no := binary_transit_no a;
   seedframe := seedframe a;
   is_genesis := flag |}.

End StampArgs.

(** ** The order of the items of a dictionary *)

Module SortedItems.

(** The key of [x] comes before the key of [y]. *)
Definition key_lt (x y : pystr * Json.value) : Prop := str_ltb (fst x) (fst y) = true.

End SortedItems.

(* ===================================================================== *)
(** * Theorems                                                            *)
(* ===================================================================== *)

(** ** Reference values

    The library models against the values CPython computes. *)

Example sha256_abc :
  Hashlib.sha256_hexdigest (py "abc")
  = py "ba7816bf8f01cfea414140de5dae2223b00361a396177a9cb410ff61f20015ad".
Proof. vm_compute. reflexivity. Qed.

Example sha512_abc :
  slice_to 32 (Hashlib.sha512_hexdigest (py "abc")) = py "ddaf35a193617abacc417349ae204131".
Proof. vm_compute. reflexivity. Qed.

Example random_seed_0 : fst (Random.getrandbits 64 Scenario.generator_0) = Ok 7106521602475165645.
Proof. vm_compute. reflexivity. Qed.

Example float_texts :
  PyFloat.repr 0.1%float = py "0.1"
  /\ PyFloat.repr 0.0000001%float = py "1e-07"
  /\ PyFloat.repr (PrimFloat.add 0.1%float 0.0000001%float) = py "0.10000010000000001"
  /\ PyFloat.repr 1700000000.25%float = py "1700000000.25"
  /\ PyFloat.format_fixed 7 0.1%float = py "0.1000000"
  /\ PyFloat.int_of_float (PrimFloat.mul 1700000000.377%float 1000%float) = Ok 1700000000377.
Proof. repeat split; vm_compute; reflexivity. Qed.

Example first_block_integrity :
  map (fun b => (BlockStampingEngine.BLOCK_INDEX (BlockStampingEngine.fields b),
                 BlockStampingEngine.HARDCOVER_CRYPTION b))
      (fst Scenario.chain_2)
  = [ (1, Scenario.first_hash);
      (2, py "0f86fc330b34299b24a6bbc0c1be0590cab373944600e647a718374b6dfd45fe") ].
Proof. vm_compute. reflexivity. Qed.

Example verified_report :
  PingNmapVerifier.verify_node_integrity ProofOfWork.MAX_ATTEMPTS PingNmapVerifier.init
    Scenario.LOAD_NODE (PingNmapVerifier.ping_results Scenario.report_load)
    (PingNmapVerifier.nmap_results Scenario.report_load) 1700001900.3%float
  = Some (Ok Scenario.report_load).
Proof. vm_compute. reflexivity. Qed.

Section StampFacts.
Import BlockStampingEngine.

(** What a returned block says about the call that stamped it. *)
Lemma stamp_new_block_inv (self : engine) (a : stamp_args) (now : clock_reading)
  (t : SecurityHasher.time_binding) (g g' : Random.state) (b : Block) :
  stamp_new_block self a now t g = (Ok b, g') ->
  _prepare_block_data self (last_BLOCK_INDEX (_get_last_block self) + 1)
    (last_HARDCOVER_CRYPTION (_get_last_block self)) (miner_address a) (reward_type a)
    (reward_amount a) (binary_transit_no a) (seedframe a) now = Ok (fields b)
  /\ SecurityHasher.sha256_hash (Json.dumps_sorted (items (fields b))) = Ok (HARDCOVER_CRYPTION b)
  /\ SecurityHasher.constellation_lock_key (HARDCOVER_CRYPTION b) (current_complexity self)
       (reward_type a) t g = (Ok (CONSTELLATION_SECURITY b), g').
Proof.
  unfold stamp_new_block. intros H.
  destruct (_prepare_block_data _ _ _ _ _ _ _ _ _) as [new_block | e] eqn:Eprep;
    [| discriminate H].
  destruct (SecurityHasher.sha256_hash _) as [hard_hash | e] eqn:Ehash; [| discriminate H].
  destruct (SecurityHasher.constellation_lock_key _ _ _ _ _) as [lock g''] eqn:Elock.
  destruct lock as [constellation_lock | e]; cbn [bind] in H; [| discriminate H].
  injection H as Hb Hg. subst b g''. cbn [fields HARDCOVER_CRYPTION CONSTELLATION_SECURITY].
  auto.
Qed.

Lemma prepare_block_data_inv (self : engine) (index : Z) (previous_hash miner reward : pystr)
  (amount transit : Z) (seed : pystr) (now : clock_reading) (d : BlockData) :
  _prepare_block_data self index previous_hash miner reward amount transit seed now = Ok d ->
  BLOCK_INDEX d = index /\ PREVIOUS_HASH d = previous_hash
  /\ COMPLEXITY_LEVEL d = current_complexity self
  /\ WINNERS_ADDRESSES d = miner /\ REWARD_CHAIN d = reward
  /\ SecurityHasher.soft_encrypt (miner ++ reward) = Ok (SOFT_ENCRYPTER d).
Proof.
  unfold _prepare_block_data. intros H.
  destruct (SecurityHasher.soft_encrypt _) as [soft | e]; cbn [bind] in H; [| discriminate H].
  injection H as Hd. subst d. cbn. auto 10.
Qed.

(** The block a stamp returns names the integrity hash of the last block of
    the engine's chain, or the placeholder when the chain is empty. *)
Lemma stamp_previous_hash (chain : list Block) (c : float) (a : stamp_args)
  (now : clock_reading) (t : SecurityHasher.time_binding) (g g' : Random.state) (b : Block) :
  stamp_new_block (init chain c) a now t g = (Ok b, g') ->
  PREVIOUS_HASH (fields b) =
    match chain with
    | [] => SecurityHasher.placeholder_hash
    | first :: rest => HARDCOVER_CRYPTION (last rest first)
    end.
Proof.
  intros H. apply stamp_new_block_inv in H. destruct H as [Hprep _].
  apply prepare_block_data_inv in Hprep. destruct Hprep as (_ & Hprev & _).
  rewrite Hprev. unfold _get_last_block, init. cbn [blockchain].
  destruct chain; reflexivity.
Qed.

End StampFacts.

Lemma last_default (A : Type) (l : list A) (a d d' : A) :
  last (a :: l) d = last (a :: l) d'.
Proof.
  revert a. induction l as [| y l IH]; intros a; [reflexivity |].
  change (last (y :: l) d = last (y :: l) d'). apply IH.
Qed.

Lemma last_nth_error (A : Type) (l : list A) (x : A) :
  nth_error (x :: l) (length l) = Some (last l x).
Proof.
  revert x. induction l as [| y l IH]; intros x; [reflexivity |].
  cbn [length nth_error]. rewrite IH. f_equal.
  destruct l as [| z l]; [reflexivity |].
  change (last (z :: l) y = last (z :: l) x). apply last_default.
Qed.

Lemma stamp_and_append_produced (chain : list BlockStampingEngine.Block) (c : float)
  (a : BlockStampingEngine.stamp_args) (now : BlockStampingEngine.clock_reading)
  (t : SecurityHasher.time_binding) (g : Random.state) :
  Ledger.produced chain -> Ledger.produced (fst (Ledger.stamp_and_append chain c a now t g)).
Proof.
  intros H. unfold Ledger.stamp_and_append.
  destruct (BlockStampingEngine.stamp_new_block _ _ _ _ _) as [[b | e] g'] eqn:E; cbn [fst].
  - eapply Ledger.produced_stamp; eassumption.
  - exact H.
Qed.

(** C1. Every chain the ledger produces is linked: for all i > 0 block i
    carries as PREVIOUS_HASH the HARDCOVER_CRYPTION of block i-1, and the
    first block stamped on the empty chain carries 64 zero characters. *)
Theorem C1_chain_linkage (chain : list BlockStampingEngine.Block) :
  Ledger.produced chain -> Ledger.linked chain /\ Ledger.rooted chain.
Proof.
  induction 1 as [| chain c a now t g b g' Hprod [IHlinked IHrooted] Hstamp].
  - split.
    + intros i b b' Hb. destruct i; discriminate Hb.
    + intros b Hb. discriminate Hb.
  - apply stamp_previous_hash in Hstamp. split.
    + intros i x x' Hx Hx'.
      destruct (Nat.lt_ge_cases (S i) (length chain)) as [Hlt | Hge].
      * rewrite nth_error_app1 in Hx by lia. rewrite nth_error_app1 in Hx' by lia.
        eapply IHlinked; eassumption.
      * assert (Hlen : S i = length chain).
        { assert (S i < length (chain ++ [b]))%nat
            by (apply nth_error_Some; rewrite Hx'; discriminate).
          rewrite length_app in H. cbn in H. lia. }
        rewrite nth_error_app2 in Hx' by lia.
        rewrite Hlen, Nat.sub_diag in Hx'. injection Hx' as <-.
        rewrite nth_error_app1 in Hx by lia.
        destruct chain as [| first rest]; [discriminate Hlen |].
        cbn [length] in Hlen. injection Hlen as Hi. subst i.
        rewrite (last_nth_error rest first) in Hx. injection Hx as <-.
        exact Hstamp.
    + intros x Hx. destruct chain as [| first rest].
      * cbn in Hx. injection Hx as <-. rewrite Hstamp. reflexivity.
      * cbn in Hx. injection Hx as <-. apply IHrooted. reflexivity.
Qed.

(** The two blocks of [Scenario.chain_2] are produced by the ledger and are
    linked. *)
Lemma C1_chain_linkage_witness :
  length (fst Scenario.chain_2) = 2%nat
  /\ Ledger.linked (fst Scenario.chain_2) /\ Ledger.rooted (fst Scenario.chain_2).
Proof.
  split; [reflexivity |].
  apply (C1_chain_linkage (chain := fst Scenario.chain_2)).
  change Scenario.chain_2 with
    (Ledger.stamp_and_append (fst Scenario.chain_1) 0.1%float Scenario.btz_args
       Scenario.second_clock Scenario.hasher_clock_2 (snd Scenario.chain_1)).
  apply stamp_and_append_produced.
  change Scenario.chain_1 with
    (Ledger.stamp_and_append [] 0.1%float Scenario.sdb_args
       Scenario.first_clock Scenario.hasher_clock_1 Scenario.generator_0).
  apply stamp_and_append_produced.
  apply Ledger.produced_empty.
Defined.

Lemma valid_strb_sound (s : pystr) : valid_strb s = true -> valid_str s.
Proof.
  unfold valid_strb, valid_str. rewrite forallb_forall, Forall_forall.
  intros H c Hc. specialize (H c Hc). unfold code_point. lia.
Qed.

(** ** The soft encryption layer *)

Lemma lxor_key_twice (c : Z) :
  Z.lxor (Z.lxor c SecurityHasher.soft_encrypt_key) SecurityHasher.soft_encrypt_key = c.
Proof. rewrite Z.lxor_assoc, Z.lxor_nilpotent. apply Z.lxor_0_r. Qed.

(** XOR with 42 touches the six low bits only, so it stays below
    [0x110000 = 64 * 17408]. *)
Lemma lxor_key_code_point (c : Z) :
  code_point c -> code_point (Z.lxor c SecurityHasher.soft_encrypt_key).
Proof.
  unfold code_point, CODE_POINTS, SecurityHasher.soft_encrypt_key. intros [Hlo Hhi].
  assert (Hnn : 0 <= Z.lxor c 42) by (apply Z.lxor_nonneg; lia).
  split; [exact Hnn |].
  assert (Hhigh : Z.shiftr (Z.lxor c 42) 6 = Z.shiftr c 6).
  { rewrite Z.shiftr_lxor. change (Z.shiftr 42 6) with 0. apply Z.lxor_0_r. }
  rewrite !Z.shiftr_div_pow2 in Hhigh by lia. change (2 ^ 6) with 64 in Hhigh.
  Z.div_mod_to_equations. lia.
Qed.

Lemma chr_ok (i : Z) : code_point i -> chr i = Ok i.
Proof.
  unfold chr, code_point. intros [Hlo Hhi].
  destruct (Z.leb_spec 0 i) as [_ | Hneg]; [| lia].
  destruct (Z.ltb_spec i CODE_POINTS) as [_ | Hbig]; [| lia].
  reflexivity.
Qed.

Lemma chr_inv (i j : Z) : chr i = Ok j -> j = i /\ code_point i.
Proof.
  unfold chr, code_point.
  destruct (Z.leb_spec 0 i) as [Hlo | Hlo];
    destruct (Z.ltb_spec i CODE_POINTS) as [Hhi | Hhi]; cbn [andb];
    intros H; try discriminate H.
  injection H as <-. auto.
Qed.

(** A string that encrypts is decrypted by encrypting again. *)
Lemma soft_encrypt_back (s e : pystr) :
  SecurityHasher.soft_encrypt s = Ok e -> SecurityHasher.soft_encrypt e = Ok s.
Proof.
  unfold SecurityHasher.soft_encrypt. revert e.
  induction s as [| c s IH]; intros e H.
  - injection H as <-. reflexivity.
  - cbn [mapM] in H. change (ord c) with c in H.
    destruct (chr (Z.lxor c SecurityHasher.soft_encrypt_key)) as [c' |] eqn:Ec;
      cbn [bind] in H; [| discriminate H].
    destruct (mapM _ s) as [s' |] eqn:Es; cbn [bind] in H; [| discriminate H].
    injection H as <-. apply chr_inv in Ec. destruct Ec as [-> Hc'].
    cbn [mapM]. change (ord (Z.lxor c SecurityHasher.soft_encrypt_key))
      with (Z.lxor c SecurityHasher.soft_encrypt_key).
    rewrite lxor_key_twice.
    apply lxor_key_code_point in Hc'. rewrite lxor_key_twice in Hc'.
    rewrite (chr_ok Hc'). cbn [bind].
    rewrite (IH s' eq_refl). reflexivity.
Qed.

Lemma soft_encrypt_returns (s : pystr) :
  valid_str s -> returns (SecurityHasher.soft_encrypt s).
Proof.
  unfold SecurityHasher.soft_encrypt, returns.
  induction 1 as [| c s Hc Hs [e IH]].
  - exists []. reflexivity.
  - exists (Z.lxor c SecurityHasher.soft_encrypt_key :: e).
    cbn [mapM]. change (ord c) with c.
    rewrite (chr_ok (lxor_key_code_point Hc)). cbn [bind].
    rewrite IH. reflexivity.
Qed.

(** C10. The soft encryption layer is an involution: every string [s]
    encrypts, and encrypting the result gives [s] back; so the
    SOFT-ENCRYPTER field of a stamped block decrypts to the winner's address
    followed by the reward chain. *)
Theorem C10_soft_encrypt_involution :
  (forall s : pystr,
     valid_str s ->
     exists e, SecurityHasher.soft_encrypt s = Ok e /\ SecurityHasher.soft_encrypt e = Ok s)
  /\ (forall self a now t g g' b,
        BlockStampingEngine.stamp_new_block self a now t g = (Ok b, g') ->
        SecurityHasher.soft_encrypt (BlockStampingEngine.SOFT_ENCRYPTER (BlockStampingEngine.fields b))
        = Ok (BlockStampingEngine.WINNERS_ADDRESSES (BlockStampingEngine.fields b)
              ++ BlockStampingEngine.REWARD_CHAIN (BlockStampingEngine.fields b))).
Proof.
  split.
  - intros s Hs. destruct (soft_encrypt_returns Hs) as [e He].
    exists e. split; [exact He | apply soft_encrypt_back; exact He].
  - intros self a now t g g' b H.
    apply stamp_new_block_inv in H. destruct H as [Hprep _].
    apply prepare_block_data_inv in Hprep.
    destruct Hprep as (_ & _ & _ & -> & -> & Hsoft).
    apply soft_encrypt_back. exact Hsoft.
Qed.

(** The address of a node followed by the reward chain, as
    [_prepare_block_data] encrypts it, is recovered by a second encryption. *)
Lemma C10_soft_encrypt_involution_witness :
  valid_str (Scenario.SNIF_NODE ++ py "@SNIFFEE-DEBUGEE")
  /\ exists e,
       SecurityHasher.soft_encrypt (Scenario.SNIF_NODE ++ py "@SNIFFEE-DEBUGEE") = Ok e
       /\ SecurityHasher.soft_encrypt e = Ok (Scenario.SNIF_NODE ++ py "@SNIFFEE-DEBUGEE").
Proof.
  assert (Hv : valid_str (Scenario.SNIF_NODE ++ py "@SNIFFEE-DEBUGEE"))
    by (apply valid_strb_sound; reflexivity).
  split; [exact Hv |].
  exact (proj1 C10_soft_encrypt_involution _ Hv).
Defined.

(** ** Cycle A: first match in scan order *)

Lemma first_match_some (prefix : pystr) (nodes : list WifiAnalyzer.node_data)
  (w : WifiAnalyzer.node_data) :
  SDBRewardLogic.first_match prefix nodes = Some w <->
  exists before after,
    nodes = before ++ w :: after
    /\ startswith (WifiAnalyzer.data_proof_hash w) prefix = true
    /\ forall x, In x before -> startswith (WifiAnalyzer.data_proof_hash x) prefix = false.
Proof.
  induction nodes as [| node rest IH]; cbn [SDBRewardLogic.first_match].
  - split; [discriminate |]. intros (before & after & Heq & _).
    destruct before; discriminate Heq.
  - destruct (startswith (WifiAnalyzer.data_proof_hash node) prefix) eqn:Enode.
    + split.
      * intros H. injection H as <-. exists [], rest. repeat split; [exact Enode |].
        intros x [].
      * intros (before & after & Heq & Hw & Hbefore).
        destruct before as [| first before].
        -- injection Heq as -> _. reflexivity.
        -- injection Heq as -> _.
           rewrite (Hbefore first (or_introl eq_refl)) in Enode. discriminate Enode.
    + rewrite IH. split.
      * intros (before & after & -> & Hw & Hbefore).
        exists (node :: before), after. repeat split; [exact Hw |].
        intros x [<- | Hx]; [exact Enode | apply Hbefore; exact Hx].
      * intros (before & after & Heq & Hw & Hbefore).
        destruct before as [| first before].
        -- injection Heq as -> _. rewrite Hw in Enode. discriminate Enode.
        -- injection Heq as -> ->. exists before, after. repeat split; [exact Hw |].
           intros x Hx. apply Hbefore. right. exact Hx.
Qed.

Lemma first_match_none (prefix : pystr) (nodes : list WifiAnalyzer.node_data) :
  SDBRewardLogic.first_match prefix nodes = None <->
  forall x, In x nodes -> startswith (WifiAnalyzer.data_proof_hash x) prefix = false.
Proof.
  induction nodes as [| node rest IH]; cbn [SDBRewardLogic.first_match].
  - split; [intros _ x [] | reflexivity].
  - destruct (startswith (WifiAnalyzer.data_proof_hash node) prefix) eqn:Enode.
    + split; [discriminate |]. intros H.
      rewrite (H node (or_introl eq_refl)) in Enode. discriminate Enode.
    + rewrite IH. split.
      * intros H x [<- | Hx]; [exact Enode | apply H; exact Hx].
      * intros H x Hx. apply H. right. exact Hx.
Qed.

(** C5. For every participant list and every target seed, the winner
    selection of cycle A returns the first participant in list order whose
    data_proof_hash starts with the first 5 characters of the target seed,
    and no winner exactly when no participant's proof hash has that prefix:
    a later match never beats an earlier one. *)
Theorem C5_first_match_wins (nodes : list WifiAnalyzer.node_data) (target_seed : pystr) :
  (forall w,
     SDBRewardLogic._find_seed_match_winner nodes target_seed = Some w
     <-> SeedMatch.first_in_scan_order target_seed nodes w)
  /\ (SDBRewardLogic._find_seed_match_winner nodes target_seed = None
      <-> SeedMatch.no_match target_seed nodes).
Proof.
  unfold SDBRewardLogic._find_seed_match_winner, SeedMatch.first_in_scan_order,
    SeedMatch.no_match, SeedMatch.matches, SDBRewardLogic.MATCH_DIFFICULTY_LENGTH.
  split; [intros w; apply first_match_some | apply first_match_none].
Qed.

(** Of two matching participants the earlier one wins, whatever follows. *)
Lemma C5_first_match_wins_witness :
  SeedMatch.first_in_scan_order Scenario.target_seed
    [Scenario.entry_miss; Scenario.entry_hit; Scenario.entry_late_hit] Scenario.entry_hit
  /\ SDBRewardLogic._find_seed_match_winner
       [Scenario.entry_miss; Scenario.entry_hit; Scenario.entry_late_hit] Scenario.target_seed
     = Some Scenario.entry_hit.
Proof.
  assert (H : SeedMatch.first_in_scan_order Scenario.target_seed
                [Scenario.entry_miss; Scenario.entry_hit; Scenario.entry_late_hit]
                Scenario.entry_hit).
  { exists [Scenario.entry_miss], [Scenario.entry_late_hit].
    split; [reflexivity |]. split; [reflexivity |].
    intros x [<- | []]. reflexivity. }
  split; [exact H |].
  exact (proj2 (proj1 (C5_first_match_wins _ _) Scenario.entry_hit) H).
Defined.

(** ** Cycle A and cycle B: what a run does to the state *)

(** A run of cycle A writes nothing but the timer, and writes it only
    together with a reward. *)
Lemma run_sdb_consensus_state (self : SDBRewardLogic.logic) (nodes : list pystr)
  (w : SDBRewardLogic.io) :
  snd (SDBRewardLogic.run_sdb_consensus self nodes w) =
    if is_winner (fst (SDBRewardLogic.run_sdb_consensus self nodes w))
    then {| SDBRewardLogic.seed_generator := SDBRewardLogic.seed_generator self;
            SDBRewardLogic.last_reward_time := SDBRewardLogic.win_clock w |}
    else self.
Proof.
  unfold SDBRewardLogic.run_sdb_consensus.
  destruct (PrimFloat.ltb _ _); [reflexivity |].
  destruct nodes as [| node rest]; [reflexivity |].
  destruct (WifiAnalyzer.aggregate_all_node_traffic _ _) as [data | e]; [| reflexivity].
  destruct (SDBRewardLogic._find_seed_match_winner _ _); reflexivity.
Qed.

Lemma run_btz_consensus_state (callee : BTZRewardLogic.method_name)
  (self : BTZRewardLogic.logic) (nodes : list pystr) (w : BTZRewardLogic.io) :
  snd (BTZRewardLogic.run_btz_consensus_calling callee self nodes w) =
    if is_winner (fst (BTZRewardLogic.run_btz_consensus_calling callee self nodes w))
    then {| BTZRewardLogic.last_reward_time := BTZRewardLogic.win_clock w |}
    else self.
Proof.
  unfold BTZRewardLogic.run_btz_consensus_calling.
  destruct (PrimFloat.ltb _ _); [reflexivity |].
  destruct nodes as [| node rest]; [reflexivity |].
  destruct (WifiAnalyzer.aggregate_all_node_traffic _ _) as [data | e]; [| reflexivity].
  destruct (BTZRewardLogic.getattr callee) as [select | e]; [| reflexivity].
  destruct (select _) as [winner |]; [| reflexivity].
  destruct (BTZRewardLogic._create_ethical_choice_challenge _ _ _); reflexivity.
Qed.

(** The run of [Scenario.sdb_io] returns a winner: the second node, whose
    proof hash starts with the five characters ["95810"] of the target. *)
Lemma sdb_scenario_wins :
  SDBRewardLogic.run_sdb_consensus Scenario.sdb_logic Scenario.roster Scenario.sdb_io
  = (Ok (Some Scenario.sdb_reward),
     {| SDBRewardLogic.seed_generator := SDBRewardLogic.seed_generator Scenario.sdb_logic;
        SDBRewardLogic.last_reward_time := 1700001900.5%float |}).
Proof. vm_compute. reflexivity. Qed.

(** The logic of the scenario is the one the constructor builds. *)
Lemma sdb_scenario_init :
  SDBRewardLogic.init Scenario.seed_draw 1700000000.5%float = Ok Scenario.sdb_logic.
Proof. vm_compute. reflexivity. Qed.

(** C3 (the code departs from the specification). A run of cycle A never touches
    the seed frame: whatever the run returns, the generator holds the frame
    it held before, and the run of [Scenario.sdb_io] does return a winner.
    The frame is created once, by the constructor, and nothing in a run
    replaces it. *)
Theorem C3_winning_run_keeps_seed_frame :
  (forall self nodes w,
     SDBRewardLogic.seed_generator (snd (SDBRewardLogic.run_sdb_consensus self nodes w))
     = SDBRewardLogic.seed_generator self)
  /\ is_winner (fst (SDBRewardLogic.run_sdb_consensus
                       Scenario.sdb_logic Scenario.roster Scenario.sdb_io)) = true
  /\ FavoriteSeedGenerator.generate_favorite_seed
       (SDBRewardLogic.seed_generator
          (snd (SDBRewardLogic.run_sdb_consensus
                  Scenario.sdb_logic Scenario.roster Scenario.sdb_io)))
     = FavoriteSeedGenerator.generate_favorite_seed
         (SDBRewardLogic.seed_generator Scenario.sdb_logic).
Proof.
  assert (H : forall self nodes w,
             SDBRewardLogic.seed_generator (snd (SDBRewardLogic.run_sdb_consensus self nodes w))
             = SDBRewardLogic.seed_generator self).
  { intros self nodes w. rewrite run_sdb_consensus_state.
    destruct (is_winner _); reflexivity. }
  split; [exact H |]. split.
  - rewrite sdb_scenario_wins. reflexivity.
  - rewrite H. reflexivity.
Qed.

(** C4. In both cycles the timer is written if and only if the run
    produces a winner: a winning run sets [last_reward_time] to the clock
    read at that point, every other outcome (interval not elapsed, empty
    roster, no match, no eligible node, an exception) leaves the whole
    object as it was.  For cycle B this holds whichever method name the run
    looks up, the one in the file included. *)
Theorem C4_timer_written_iff_winner :
  (forall self nodes w,
     (if is_winner (fst (SDBRewardLogic.run_sdb_consensus self nodes w))
      then SDBRewardLogic.last_reward_time (snd (SDBRewardLogic.run_sdb_consensus self nodes w))
           = SDBRewardLogic.win_clock w
      else snd (SDBRewardLogic.run_sdb_consensus self nodes w) = self)
     /\ (SDBRewardLogic.win_clock w <> SDBRewardLogic.last_reward_time self ->
         (SDBRewardLogic.last_reward_time (snd (SDBRewardLogic.run_sdb_consensus self nodes w))
          <> SDBRewardLogic.last_reward_time self
          <-> is_winner (fst (SDBRewardLogic.run_sdb_consensus self nodes w)) = true)))
  /\ (forall callee self nodes w,
        (if is_winner (fst (BTZRewardLogic.run_btz_consensus_calling callee self nodes w))
         then BTZRewardLogic.last_reward_time
                (snd (BTZRewardLogic.run_btz_consensus_calling callee self nodes w))
              = BTZRewardLogic.win_clock w
         else snd (BTZRewardLogic.run_btz_consensus_calling callee self nodes w) = self)
        /\ (BTZRewardLogic.win_clock w <> BTZRewardLogic.last_reward_time self ->
            (BTZRewardLogic.last_reward_time
               (snd (BTZRewardLogic.run_btz_consensus_calling callee self nodes w))
             <> BTZRewardLogic.last_reward_time self
             <-> is_winner (fst (BTZRewardLogic.run_btz_consensus_calling callee self nodes w))
                 = true))).
Proof.
  split.
  - intros self nodes w. rewrite run_sdb_consensus_state.
    destruct (is_winner _); cbn [SDBRewardLogic.last_reward_time].
    + split; [reflexivity |]. intros Hclock. split; [reflexivity | intros _; exact Hclock].
    + split; [reflexivity |]. intros _.
      split; [intros H; contradiction H; reflexivity | discriminate].
  - intros callee self nodes w. rewrite run_btz_consensus_state.
    destruct (is_winner _); cbn [BTZRewardLogic.last_reward_time].
    + split; [reflexivity |]. intros Hclock. split; [reflexivity | intros _; exact Hclock].
    + split; [reflexivity |]. intros _.
      split; [intros H; contradiction H; reflexivity | discriminate].
Qed.

(** Two floats with different decodings are different. *)
Lemma float_neq (x y : float) : Prim2SF x <> Prim2SF y -> x <> y.
Proof. intros H E. apply H. rewrite E. reflexivity. Qed.

(** The winning run of cycle A moves the timer; the run of cycle B in the
    file returns no winner and leaves its object alone. *)
Lemma C4_timer_written_iff_winner_witness :
  SDBRewardLogic.win_clock Scenario.sdb_io <> SDBRewardLogic.last_reward_time Scenario.sdb_logic
  /\ (SDBRewardLogic.last_reward_time
        (snd (SDBRewardLogic.run_sdb_consensus Scenario.sdb_logic Scenario.roster Scenario.sdb_io))
      <> SDBRewardLogic.last_reward_time Scenario.sdb_logic
      <-> is_winner (fst (SDBRewardLogic.run_sdb_consensus
                            Scenario.sdb_logic Scenario.roster Scenario.sdb_io)) = true)
  /\ snd (BTZRewardLogic.run_btz_consensus Scenario.btz_logic Scenario.roster Scenario.btz_io)
     = Scenario.btz_logic.
Proof.
  assert (Hclock : SDBRewardLogic.win_clock Scenario.sdb_io
                   <> SDBRewardLogic.last_reward_time Scenario.sdb_logic)
    by (apply float_neq; vm_compute; discriminate).
  destruct C4_timer_written_iff_winner as [Hsdb Hbtz].
  specialize (Hsdb Scenario.sdb_logic Scenario.roster Scenario.sdb_io).
  specialize (Hbtz BTZRewardLogic.determine_highest_traffic_node
                Scenario.btz_logic Scenario.roster Scenario.btz_io).
  destruct Hsdb as [_ Hsdb]. destruct Hbtz as [Hbtz _].
  split; [exact Hclock |]. split; [exact (Hsdb Hclock) |].
  assert (E : is_winner (fst (BTZRewardLogic.run_btz_consensus_calling
                                BTZRewardLogic.determine_highest_traffic_node
                                Scenario.btz_logic Scenario.roster Scenario.btz_io)) = false)
    by (vm_compute; reflexivity).
  rewrite E in Hbtz. exact Hbtz.
Defined.

(** ** Cycle B: the selection rule and the call that never reaches it *)

Section TrafficSelection.
Import BTZRewardLogic.

Lemma first_highest_bound (l : list eligible) (w x : eligible) :
  TrafficVolume.first_highest l w -> In x l -> packets x <= packets w.
Proof.
  intros (before & after & -> & Hbefore & Hafter) Hx.
  apply in_app_or in Hx. destruct Hx as [Hx | [<- | Hx]].
  - specialize (Hbefore x Hx). lia.
  - lia.
  - apply Hafter. exact Hx.
Qed.

(** The head of the stable descending sort is the first entry with the
    highest count. *)
Lemma sorted_descending_head (l : list eligible) :
  match sorted_descending l with
  | [] => l = []
  | w :: _ => TrafficVolume.first_highest l w
  end.
Proof.
  induction l as [| x l IH]; [reflexivity |].
  unfold sorted_descending in *. cbn [fold_right].
  destruct (fold_right insert_descending [] l) as [| h t] eqn:Esorted.
  - subst l. cbn [insert_descending]. exists [], []. repeat split; intros y [].
  - cbn [insert_descending]. destruct (Z.leb_spec (packets h) (packets x)) as [Hle | Hlt].
    + exists [], l. split; [reflexivity |]. split; [intros y [] |].
      intros y Hy. pose proof (@first_highest_bound l h y IH Hy). lia.
    + destruct IH as (before & after & -> & Hbefore & Hafter).
      exists (x :: before), after. split; [reflexivity |]. split; [| exact Hafter].
      intros y [<- | Hy]; [exact Hlt | apply Hbefore; exact Hy].
Qed.

(** On pre-verified data the helper returns the first entry with the
    highest total packet count, and nothing only on an empty list. *)
Lemma determine_highest_traffic_winner_spec (l : list eligible) :
  (forall x, In x l -> is_verified x = true) ->
  match _determine_highest_traffic_winner l with
  | Some w => TrafficVolume.first_highest l w
  | None => l = []
  end.
Proof.
  intros Hverified. unfold _determine_highest_traffic_winner.
  destruct l as [| x l]; [reflexivity |].
  pose proof (sorted_descending_head (x :: l)) as Hhead.
  destruct (sorted_descending (x :: l)) as [| w rest]; [exact Hhead |].
  assert (Hw : In w (x :: l)).
  { destruct Hhead as (before & after & -> & _). apply in_or_app. right. left. reflexivity. }
  rewrite (Hverified w Hw). exact Hhead.
Qed.

(** The join keeps, in order, the traffic entries whose first report under
    their address says verified, and marks each of them verified. *)
Lemma join_verified_traffic (data : list WifiAnalyzer.node_data)
  (reports : list PingNmapVerifier.report) :
  map traffic (join_verified data reports) = filter (TrafficVolume.verified reports) data.
Proof.
  induction data as [| t rest IH]; [reflexivity |].
  cbn [join_verified filter]. unfold TrafficVolume.verified at 1.
  destruct (report_for reports (WifiAnalyzer.node_address t)) as [r |]; [| exact IH].
  destruct (PingNmapVerifier.is_verified r); [| exact IH].
  cbn [map traffic]. rewrite IH. reflexivity.
Qed.

Lemma join_verified_marks (data : list WifiAnalyzer.node_data)
  (reports : list PingNmapVerifier.report) (x : eligible) :
  In x (join_verified data reports) ->
  is_verified x = true /\ address x = WifiAnalyzer.node_address (traffic x)
  /\ TrafficVolume.verified reports (traffic x) = true.
Proof.
  induction data as [| t rest IH]; [intros [] |].
  cbn [join_verified].
  destruct (report_for reports (WifiAnalyzer.node_address t)) as [r |] eqn:Er; [| exact IH].
  destruct (PingNmapVerifier.is_verified r) eqn:Ev; [| exact IH].
  intros [<- | Hx]; [| apply IH; exact Hx].
  cbn [is_verified address traffic]. unfold TrafficVolume.verified. rewrite Er.
  auto.
Qed.

(** With the name the class defines, a winning run returns the first
    verified participant with the highest total packet count. *)
Lemma run_with_defined_name_selects (self : logic) (nodes : list pystr) (w : io) (rw : reward) :
  fst (run_btz_consensus_calling determine_highest_traffic_winner self nodes w) = Ok (Some rw) ->
  exists data,
    WifiAnalyzer.aggregate_all_node_traffic nodes (captures w) = Ok data
    /\ TrafficVolume.first_highest (join_verified data (verified_reports w)) (proof_data rw)
    /\ TrafficVolume.verified (verified_reports w) (traffic (proof_data rw)) = true
    /\ winner_address rw = WifiAnalyzer.node_address (traffic (proof_data rw))
    /\ binary_transit_no rw = packets (proof_data rw).
Proof.
  unfold run_btz_consensus_calling.
  destruct (PrimFloat.ltb _ _); [discriminate |].
  destruct nodes as [| node rest]; [discriminate |].
  destruct (WifiAnalyzer.aggregate_all_node_traffic _ _) as [data | e]; [| discriminate].
  cbn [getattr].
  pose proof (determine_highest_traffic_winner_spec (join_verified data (verified_reports w))
                (fun x Hx => proj1 (join_verified_marks _ _ _ Hx))) as Hspec.
  destruct (_determine_highest_traffic_winner _) as [winner |]; [| discriminate].
  destruct (_create_ethical_choice_challenge _ _ _) as [payload | e]; [| discriminate].
  cbn [fst]. intros H. injection H as <-. cbn [proof_data winner_address binary_transit_no].
  exists data. split; [reflexivity |]. split; [exact Hspec |].
  assert (Hin : In winner (join_verified data (verified_reports w))).
  { destruct Hspec as (before & after & -> & _). apply in_or_app. right. left. reflexivity. }
  destruct (join_verified_marks _ _ _ Hin) as (_ & Haddr & Hver). auto.
Qed.

(** As the file has it, every run that passes the time gate with a
    non-empty roster and gets its traffic data raises [AttributeError]. *)
Lemma run_btz_consensus_raises (self : logic) (nodes : list pystr) (w : io) :
  PrimFloat.ltb (PrimFloat.sub (gate_clock w) (last_reward_time self))
                (PyFloat.of_int BTZ_CYCLE_TIME_SECONDS) = false ->
  nodes <> [] ->
  returns (WifiAnalyzer.aggregate_all_node_traffic nodes (captures w)) ->
  run_btz_consensus self nodes w = (Raise AttributeError, self).
Proof.
  intros Hgate Hnodes [data Hdata].
  unfold run_btz_consensus, run_btz_consensus_calling. rewrite Hgate.
  destruct nodes as [| node rest]; [contradiction Hnodes; reflexivity |].
  rewrite Hdata. reflexivity.
Qed.

End TrafficSelection.

(** C6 (the code departs from the specification). On the roster of the scenario --
    the node with 8100 packets unverified, the node with 5000 packets
    verified -- the run of cycle B raises [AttributeError] and selects
    nobody; with the method name the class defines, the same run returns
    the verified node with its 5000 packets. *)
Theorem C6_cycle_b_selects_nobody :
  BTZRewardLogic.run_btz_consensus Scenario.btz_logic Scenario.roster Scenario.btz_io
  = (Raise AttributeError, Scenario.btz_logic)
  /\ BTZRewardLogic.run_btz_consensus_calling BTZRewardLogic.determine_highest_traffic_winner
       Scenario.btz_logic Scenario.roster Scenario.btz_io
     = (Ok (Some Scenario.btz_reward), {| BTZRewardLogic.last_reward_time := 1700001901%float |}).
Proof.
  split.
  - vm_compute. reflexivity.
  - vm_compute. reflexivity.
Qed.

(** ** The two hash layers *)

(** The lock signature is determined by its three arguments and the seed
    derived from the clock. *)
Lemma lock_key_seed (hard_hash : pystr) (complexity : float) (reward_type : pystr)
  (t1 t2 : SecurityHasher.time_binding) (g1 g2 : Random.state) :
  SecurityHasher.clock_seed t1 = SecurityHasher.clock_seed t2 ->
  fst (SecurityHasher.constellation_lock_key hard_hash complexity reward_type t1 g1)
  = fst (SecurityHasher.constellation_lock_key hard_hash complexity reward_type t2 g2).
Proof.
  intros Hseed.
  unfold SecurityHasher.constellation_lock_key, SecurityHasher._fictional_sha4091_logic.
  destruct (encode_utf8 _) as [seed_bytes | e]; [| reflexivity].
  rewrite Hseed.
  destruct (SecurityHasher.clock_seed t2) as [s | e]; [| reflexivity].
  destruct (Random.getrandbits 64 (Random.seed s)) as [[bits | e] g]; reflexivity.
Qed.

(** A call that returns has reseeded the generator and drawn 64 bits. *)
Lemma lock_key_reseeds (hard_hash : pystr) (complexity : float) (reward_type : pystr)
  (t : SecurityHasher.time_binding) (g g' : Random.state) (lock : pystr) :
  SecurityHasher.constellation_lock_key hard_hash complexity reward_type t g = (Ok lock, g') ->
  exists s,
    SecurityHasher.clock_seed t = Ok s
    /\ g' = snd (Random.getrandbits 64 (Random.seed s)).
Proof.
  unfold SecurityHasher.constellation_lock_key, SecurityHasher._fictional_sha4091_logic.
  destruct (encode_utf8 _) as [seed_bytes | e]; [| discriminate].
  destruct (SecurityHasher.clock_seed t) as [s | e]; [| discriminate].
  destruct (Random.getrandbits 64 (Random.seed s)) as [[bits | e] g2] eqn:Ebits; [| discriminate].
  intros H. injection H as _ <-. exists s. rewrite Ebits. split; reflexivity.
Qed.

(** C2, as the specification states it, fails on the lock signature.
    With the clock available to the module, two evaluations on the same
    arguments one millisecond apart return different strings, and the
    generator is left reseeded (its position is 2, it was 624); in the
    module as shipped the evaluation raises [NameError] and returns no
    string. *)
Lemma C2_lock_signature_not_pure :
  fst (Scenario.lock_at Scenario.hasher_clock_1)
  <> fst (Scenario.lock_at Scenario.hasher_clock_1_later)
  /\ returns (fst (Scenario.lock_at Scenario.hasher_clock_1))
  /\ returns (fst (Scenario.lock_at Scenario.hasher_clock_1_later))
  /\ snd (Scenario.lock_at Scenario.hasher_clock_1) <> Scenario.generator_0
  /\ Scenario.lock_at SecurityHasher.shipped_binding = (Raise NameError, Scenario.generator_0)
  /\ ~ HashLayers.lock_signature_pure.
Proof.
  assert (E1 : exists s g, Scenario.lock_at Scenario.hasher_clock_1 = (Ok s, g)
                           /\ Random.index g = 2%nat /\ nth 19 s 0 = 68)
    by (do 2 eexists; split; [vm_compute; reflexivity | split; reflexivity]).
  assert (E2 : exists s g, Scenario.lock_at Scenario.hasher_clock_1_later = (Ok s, g)
                           /\ nth 19 s 0 = 49)
    by (do 2 eexists; split; [vm_compute; reflexivity | reflexivity]).
  destruct E1 as (s1 & g1 & E1 & Hindex & Hs1). destruct E2 as (s2 & g2 & E2 & Hs2).
  assert (Hdiff : fst (Scenario.lock_at Scenario.hasher_clock_1)
                  <> fst (Scenario.lock_at Scenario.hasher_clock_1_later)).
  { rewrite E1, E2. cbn [fst]. intros H. injection H as ->. rewrite Hs1 in Hs2. discriminate Hs2. }
  split; [exact Hdiff |].
  split; [rewrite E1; exists s1; reflexivity |].
  split; [rewrite E2; exists s2; reflexivity |].
  split.
  { rewrite E1. cbn [snd]. intros ->. discriminate Hindex. }
  split; [reflexivity |].
  intros Hpure.
  destruct (Hpure Scenario.first_hash 0.1%float (py "@SNIFFEE-DEBUGEE")
              Scenario.hasher_clock_1 Scenario.hasher_clock_1_later
              Scenario.generator_0 Scenario.generator_0) as (lock & H1 & H2).
  apply Hdiff. unfold Scenario.lock_at. rewrite H1, H2. reflexivity.
Qed.

(** C2, as the code has it. The integrity hash is pure and deterministic:
    it is the SHA-256 digest of the key-sorted serialization of the block
    fields, so two stamped blocks with equal fields carry equal digests,
    whatever engine, clock or generator stamped them.  The lock signature
    depends, besides its three arguments, on the clock, through the seed
    [int(time.time() * 1000) % 10000] with which it reseeds the process-wide
    random generator: two evaluations with equal arguments and equal seeds
    return equal results whatever the generator held before, and a call
    that returns leaves the generator as that seed and one draw of 64 bits
    determine it. *)
Theorem C2_hash_layers :
  (forall self1 self2 a1 a2 now1 now2 t1 t2 g1 g2 g1' g2' b1 b2,
     BlockStampingEngine.stamp_new_block self1 a1 now1 t1 g1 = (Ok b1, g1') ->
     BlockStampingEngine.stamp_new_block self2 a2 now2 t2 g2 = (Ok b2, g2') ->
     HashLayers.integrity_hash (BlockStampingEngine.fields b1)
       = Ok (BlockStampingEngine.HARDCOVER_CRYPTION b1)
     /\ (BlockStampingEngine.fields b1 = BlockStampingEngine.fields b2 ->
         BlockStampingEngine.HARDCOVER_CRYPTION b1 = BlockStampingEngine.HARDCOVER_CRYPTION b2))
  /\ (forall hard_hash complexity reward_type t1 t2 g1 g2,
        SecurityHasher.clock_seed t1 = SecurityHasher.clock_seed t2 ->
        fst (SecurityHasher.constellation_lock_key hard_hash complexity reward_type t1 g1)
        = fst (SecurityHasher.constellation_lock_key hard_hash complexity reward_type t2 g2))
  /\ (forall hard_hash complexity reward_type t g g' lock,
        SecurityHasher.constellation_lock_key hard_hash complexity reward_type t g = (Ok lock, g') ->
        exists s,
          SecurityHasher.clock_seed t = Ok s
          /\ g' = snd (Random.getrandbits 64 (Random.seed s))).
Proof.
  split; [| split].
  - intros self1 self2 a1 a2 now1 now2 t1 t2 g1 g2 g1' g2' b1 b2 H1 H2.
    apply stamp_new_block_inv in H1. apply stamp_new_block_inv in H2.
    destruct H1 as (_ & Hh1 & _). destruct H2 as (_ & Hh2 & _).
    split; [exact Hh1 |]. intros Hfields. rewrite Hfields in Hh1.
    rewrite Hh1 in Hh2. injection Hh2 as Heq. exact Heq.
  - exact lock_key_seed.
  - exact lock_key_reseeds.
Qed.

(** Ten seconds apart the clock gives the same seed 377, and the lock
    signature of the first block comes out the same, from a fresh generator
    and from the one the first evaluation left behind. *)
Lemma C2_hash_layers_witness :
  SecurityHasher.clock_seed Scenario.hasher_clock_1
  = SecurityHasher.clock_seed Scenario.hasher_clock_1_next_cycle
  /\ fst (SecurityHasher.constellation_lock_key Scenario.first_hash 0.1%float
            (py "@SNIFFEE-DEBUGEE") Scenario.hasher_clock_1 Scenario.generator_0)
     = fst (SecurityHasher.constellation_lock_key Scenario.first_hash 0.1%float
              (py "@SNIFFEE-DEBUGEE") Scenario.hasher_clock_1_next_cycle
              (snd (Scenario.lock_at Scenario.hasher_clock_1))).
Proof.
  assert (Hseed : SecurityHasher.clock_seed Scenario.hasher_clock_1
                  = SecurityHasher.clock_seed Scenario.hasher_clock_1_next_cycle)
    by (vm_compute; reflexivity).
  split; [exact Hseed |].
  destruct C2_hash_layers as (_ & Hlock & _).
  apply Hlock. exact Hseed.
Defined.

(** ** The proof-of-work search of the verifier *)

Section Search.
Import PingNmapVerifier ProofOfWork.
Variable self : verifier.
Variable raw_data : pystr.

(** With fuel for every remaining nonce the loop returns, after at most
    that many attempts, with the outcome the specification describes. *)
Lemma search_returns (fuel : nat) (nonce : Z) :
  0 <= nonce <= NONCE_CUTOFF ->
  (Z.to_nat (NONCE_CUTOFF + 1 - nonce) <= fuel)%nat ->
  exists r,
    search fuel self raw_data nonce = Some r
    /\ (1 <= attempts fuel self raw_data nonce <= Z.to_nat (NONCE_CUTOFF + 1 - nonce))%nat
    /\ outcome self raw_data nonce r.
Proof.
  revert nonce. induction fuel as [| fuel IH]; intros nonce Hnonce Hfuel.
  - unfold NONCE_CUTOFF in *. lia.
  - cbn [search attempts]. fold (attempt_hash raw_data nonce).
    destruct (attempt_hash raw_data nonce) as [h | e] eqn:Ehash.
    + destruct (startswith h (difficulty_target self)) eqn:Ehit.
      * exists (Ok h). split; [reflexivity |]. split; [unfold NONCE_CUTOFF in *; lia |].
        left. exists nonce. repeat split; try lia; try assumption.
      * destruct (Z.gtb_spec (nonce + 1) NONCE_CUTOFF) as [Hcut | Hmore].
        -- assert (nonce = NONCE_CUTOFF) by lia. subst nonce.
           exists (Ok (py "NonceExceeded-" ++ slice_to 10 h)).
           split; [reflexivity |]. split; [unfold NONCE_CUTOFF in *; lia |].
           right. exists h. repeat split; try assumption.
           intros m Hm. assert (m = NONCE_CUTOFF) by lia. subst m.
           exists h. split; assumption.
        -- destruct (IH (nonce + 1)) as (r & Hr & Hcount & Hout);
             [lia | unfold NONCE_CUTOFF in *; lia |].
           exists r. split; [exact Hr |]. split; [unfold NONCE_CUTOFF in *; lia |].
           assert (Hmiss : forall m, nonce <= m < nonce + 1 -> misses self raw_data m).
           { intros m Hm. assert (m = nonce) by lia. subst m. exists h. split; assumption. }
           destruct r as [s | e]; cbn [outcome] in *.
           ++ destruct Hout as [(n & Hn & Hhash & Hhit & Hbefore) | (h' & Hhash & Hs & Hall)].
              ** left. exists n. repeat split; try lia; try assumption.
                 intros m Hm. destruct (Z.eq_dec m nonce) as [-> | Hne];
                   [apply Hmiss; lia | apply Hbefore; lia].
              ** right. exists h'. repeat split; try assumption.
                 intros m Hm. destruct (Z.eq_dec m nonce) as [-> | Hne];
                   [apply Hmiss; lia | apply Hall; lia].
           ++ destruct Hout as (n & Hn & Hhash & Hbefore).
              exists n. repeat split; try lia; try assumption.
              intros m Hm. destruct (Z.eq_dec m nonce) as [-> | Hne];
                [apply Hmiss; lia | apply Hbefore; lia].
    + exists (Raise e). split; [reflexivity |]. split; [unfold NONCE_CUTOFF in *; lia |].
      exists nonce. repeat split; try lia; try assumption.
Qed.

(** More fuel than the loop uses changes nothing. *)
Lemma search_fuel_irrelevant (fuel fuel' : nat) (nonce : Z) (r : result pystr) :
  search fuel self raw_data nonce = Some r ->
  (fuel <= fuel')%nat ->
  search fuel' self raw_data nonce = Some r.
Proof.
  revert fuel' nonce. induction fuel as [| fuel IH]; intros fuel' nonce Hr Hle;
    [discriminate Hr |].
  destruct fuel' as [| fuel']; [lia |].
  cbn [search] in *.
  destruct (SecurityHasher.sha256_hash _) as [h | e]; [| exact Hr].
  destruct (startswith h (difficulty_target self)); [exact Hr |].
  destruct (nonce + 1 >? NONCE_CUTOFF); [exact Hr |].
  apply IH; [exact Hr | lia].
Qed.

End Search.

(** C8. The proof-of-work search terminates for every input: given fuel
    for 10001 iterations (nonces 0 to the cutoff 10000) or more, the loop
    returns; it evaluates the hash at most 10001 times; and what it returns
    is the first hash that meets the difficulty target, or, when no nonce up
    to the cutoff meets it, the string "NonceExceeded-" followed by the
    first ten characters of the last hash -- or the encoding error of an
    input that cannot be hashed.  More fuel does not change the result. *)
Theorem C8_proof_of_work_terminates (self : PingNmapVerifier.verifier) (raw_data : pystr)
  (fuel : nat) :
  (ProofOfWork.MAX_ATTEMPTS <= fuel)%nat ->
  exists r,
    PingNmapVerifier._generate_proof_of_verification_work fuel self raw_data = Some r
    /\ PingNmapVerifier._generate_proof_of_verification_work ProofOfWork.MAX_ATTEMPTS self raw_data
       = Some r
    /\ (PingNmapVerifier.attempts fuel self raw_data 0 <= ProofOfWork.MAX_ATTEMPTS)%nat
    /\ ProofOfWork.outcome self raw_data 0 r.
Proof.
  intros Hfuel. unfold PingNmapVerifier._generate_proof_of_verification_work.
  destruct (@search_returns self raw_data ProofOfWork.MAX_ATTEMPTS 0) as (r & Hr & _ & _);
    [unfold PingNmapVerifier.NONCE_CUTOFF; lia | unfold ProofOfWork.MAX_ATTEMPTS; lia |].
  destruct (@search_returns self raw_data fuel 0) as (r' & Hr' & Hcount & Hout);
    [unfold PingNmapVerifier.NONCE_CUTOFF; lia
    | unfold ProofOfWork.MAX_ATTEMPTS in Hfuel; lia |].
  exists r'. split; [exact Hr' |].
  pose proof (@search_fuel_irrelevant self raw_data _ _ _ _ Hr Hfuel) as Hsame.
  rewrite Hsame in Hr'. injection Hr' as <-.
  split; [exact Hr |]. split; [| exact Hout].
  unfold ProofOfWork.MAX_ATTEMPTS. lia.
Qed.

(** The search on the proof input of the verified node of the scenario
    returns at its second attempt. *)
Lemma C8_proof_of_work_terminates_witness :
  (ProofOfWork.MAX_ATTEMPTS <= ProofOfWork.MAX_ATTEMPTS)%nat
  /\ exists r,
       PingNmapVerifier._generate_proof_of_verification_work ProofOfWork.MAX_ATTEMPTS
         PingNmapVerifier.init
         (py "0xPACKET_LOAD_MASTER_C3D4-20.813,101.250,77.001,64.500-9c3b478bc5-True") = Some r
       /\ ProofOfWork.outcome PingNmapVerifier.init
            (py "0xPACKET_LOAD_MASTER_C3D4-20.813,101.250,77.001,64.500-9c3b478bc5-True") 0 r.
Proof.
  split; [apply le_n |].
  destruct (C8_proof_of_work_terminates PingNmapVerifier.init
              (py "0xPACKET_LOAD_MASTER_C3D4-20.813,101.250,77.001,64.500-9c3b478bc5-True")
              (le_n ProofOfWork.MAX_ATTEMPTS)) as (r & Hr & _ & _ & Hout).
  exists r. split; [exact Hr | exact Hout].
Defined.

(** Both ways out of the loop are taken: a hash that meets the target at
    nonce 1, and the degraded string after all 10001 nonces have missed. *)
Lemma proof_of_work_found :
  PingNmapVerifier._generate_proof_of_verification_work ProofOfWork.MAX_ATTEMPTS
    PingNmapVerifier.init
    (py "0xPACKET_LOAD_MASTER_C3D4-20.813,101.250,77.001,64.500-9c3b478bc5-True")
  = Some (Ok (py "0003d5116865a6750aecdd07fb02c61f37dd0a385f736a641bbdd91cad710293"))
  /\ PingNmapVerifier.attempts ProofOfWork.MAX_ATTEMPTS PingNmapVerifier.init
       (py "0xPACKET_LOAD_MASTER_C3D4-20.813,101.250,77.001,64.500-9c3b478bc5-True") 0 = 2%nat.
Proof. split; vm_compute; reflexivity. Qed.

Lemma proof_of_work_cutoff :
  PingNmapVerifier._generate_proof_of_verification_work ProofOfWork.MAX_ATTEMPTS
    PingNmapVerifier.init (py "node-22")
  = Some (Ok (py "NonceExceeded-03a3fd9860")).
Proof. vm_compute. reflexivity. Qed.

(** ** The scheduler: what a failure in one cycle does to the tick *)

Section Tick.
Import NodeRunner Scheduler.
Variable R : Type.
Variable k : collaborators R.
Variable current_time : float.
Variable self : runner.
Variable active_nodes : list pystr.
Hypothesis Hroster : get_all_active_addresses k = Ok active_nodes.

Ltac step := cbv beta iota zeta delta [seq reward_cycle emit modify fst snd app].

Ltac run_tick := unfold tick, body; rewrite Hroster; step.

(** A failure of cycle A ends the tick: the handler logs it and backs off,
    nothing of the runner has changed, cycle B has not been looked at. *)
Lemma tick_sdb_fails (e : exn) :
  sdb_fails k current_time self active_nodes e ->
  tick k current_time self = (self, [Evaluated SDB; Caught e; Slept 10]).
Proof.
  intros [Hdue [Hraise | (reward_data & Hwin & Hstamp)]];
    unfold tick, body; rewrite Hroster; unfold seq at 1, reward_cycle at 1;
    cbn [fst snd]; rewrite Hdue; unfold emit; cbn [fst snd app].
  - rewrite Hraise. reflexivity.
  - rewrite Hwin, Hstamp. reflexivity.
Qed.

(** The second half of the tick, from the state cycle A leaves behind with
    its events so far: the timer of cycle B is checked, and cycle B is
    evaluated exactly when it is due. *)
Lemma rest_of_tick (s : runner * list event) :
  ~ In (Evaluated BTZ) (snd s) ->
  let out := seq (reward_cycle k BTZ current_time active_nodes) (emit (Slept 1)) s in
  In (Evaluated BTZ)
     (snd (match fst out with
           | Ok _ => snd out
           | Raise e => (fst (snd out), snd (snd out) ++ [Caught e; Slept 10])
           end))
  <-> due current_time (last_btz_reward_time (fst s)) BTZ_REWARD_CYCLE = true.
Proof.
  intros Hfresh out. subst out. destruct s as [r events]. cbn [fst snd] in *.
  unfold reward_cycle. cbv beta iota zeta delta [seq emit modify fst snd].
  destruct (due current_time (last_btz_reward_time r) BTZ_REWARD_CYCLE).
  - split; [reflexivity |]. intros _.
    destruct (run_btz_consensus k active_nodes) as [[reward_data |] | e].
    + destruct (stamp_new_block k BTZ reward_data (current_complexity r));
        rewrite ?in_app_iff; cbn [In]; auto 10.
    + rewrite ?in_app_iff; cbn [In]; auto 10.
    + rewrite ?in_app_iff; cbn [In]; auto 10.
  - split; [| discriminate]. rewrite in_app_iff. cbn [In].
    intros [H | [H | []]]; [contradiction | discriminate H].
Qed.

(** When cycle A does not fail, the timer of cycle B is checked in the same
    tick and cycle B is evaluated exactly when it is due. *)
Lemma tick_sdb_passes :
  (forall e, ~ sdb_fails k current_time self active_nodes e) ->
  (In (Evaluated BTZ) (snd (tick k current_time self))
   <-> due current_time (last_btz_reward_time self) BTZ_REWARD_CYCLE = true).
Proof.
  intros Hpass. unfold tick, body. rewrite Hroster. unfold seq at 1.
  assert (Hphase : exists s,
             reward_cycle k SDB current_time active_nodes (self, []) = (Ok tt, s)
             /\ last_btz_reward_time (fst s) = last_btz_reward_time self
             /\ ~ In (Evaluated BTZ) (snd s)).
  { unfold reward_cycle, sdb_fails in *. cbn [fst snd].
    destruct (due current_time (last_sdb_reward_time self) SDB_REWARD_CYCLE) eqn:Hsdb.
    - unfold emit at 1. cbn [fst snd app].
      destruct (run_sdb_consensus k active_nodes) as [[reward_data |] | e] eqn:Hrun.
      + destruct (stamp_new_block k SDB reward_data (current_complexity self))
          as [[] | e] eqn:Hstamp.
        * eexists. split; [reflexivity |]. cbn. split; [reflexivity |].
          intros [H | [H | []]]; discriminate H.
        * exfalso. apply (Hpass e). split; [reflexivity |]. right.
          exists reward_data. split; [reflexivity | exact Hstamp].
      + eexists. split; [reflexivity |]. cbn. split; [reflexivity |].
        intros [H | []]; discriminate H.
      + exfalso. apply (Hpass e). split; [reflexivity |]. left. reflexivity.
    - eexists. split; [reflexivity |]. cbn. split; [reflexivity |]. intros []. }
  destruct Hphase as (s & -> & Htimer & Hfresh).
  pose proof (rest_of_tick s Hfresh) as Hrest. cbv zeta in Hrest.
  rewrite Htimer in Hrest. rewrite <- Hrest.
  destruct (seq (reward_cycle k BTZ current_time active_nodes) (emit (Slept 1)) s)
    as [[u | e] s']; reflexivity.
Qed.

(** A failure of cycle B comes after cycle A has completed: what cycle A
    changed stays. *)
Lemma tick_btz_fails_after_stamp (reward_data : R) (e : exn) :
  due current_time (last_sdb_reward_time self) SDB_REWARD_CYCLE = true ->
  run_sdb_consensus k active_nodes = Ok (Some reward_data) ->
  stamp_new_block k SDB reward_data (current_complexity self) = Ok tt ->
  due current_time (last_btz_reward_time self) BTZ_REWARD_CYCLE = true ->
  run_btz_consensus k active_nodes = Raise e ->
  tick k current_time self
  = (set_last_sdb_reward_time (_update_complexity self) current_time,
     [Evaluated SDB; Stamped SDB; Evaluated BTZ; Caught e; Slept 10]).
Proof.
  intros Hsdb Hwin Hstamp Hbtz Hraise. run_tick.
  rewrite Hsdb, Hwin, Hstamp. step.
  cbn [last_btz_reward_time set_last_sdb_reward_time _update_complexity].
  rewrite Hbtz, Hraise. reflexivity.
Qed.

End Tick.

(** C7, as the specification states it, fails.  With both cycles due
    and the collaborators bound as the repository binds them, the call of
    cycle A raises [TypeError]; the tick ends in the handler, and cycle B is
    not evaluated in it.  The same happens when cycle A returns a winner
    whose stamping raises. *)
Lemma C7_failure_skips_cycle_b :
  NodeRunner.due Scenario.tick_time (NodeRunner.last_btz_reward_time Scenario.runner_0)
    NodeRunner.BTZ_REWARD_CYCLE = true
  /\ NodeRunner.tick NodeRunner.repository_collaborators Scenario.tick_time Scenario.runner_0
     = (Scenario.runner_0,
        [NodeRunner.Evaluated NodeRunner.SDB; NodeRunner.Caught TypeError; NodeRunner.Slept 10])
  /\ NodeRunner.tick Scenario.stamp_fails Scenario.tick_time Scenario.runner_0
     = (Scenario.runner_0,
        [NodeRunner.Evaluated NodeRunner.SDB; NodeRunner.Caught TypeError; NodeRunner.Slept 10])
  /\ ~ Scheduler.failure_is_isolated.
Proof.
  split; [reflexivity |]. split; [reflexivity |]. split; [reflexivity |].
  intros Hclaim.
  specialize (Hclaim unit NodeRunner.repository_collaborators Scenario.tick_time
                Scenario.runner_0 NodeRunner.registered_addresses TypeError eq_refl).
  assert (Hfails : Scheduler.sdb_fails NodeRunner.repository_collaborators Scenario.tick_time
                     Scenario.runner_0 NodeRunner.registered_addresses TypeError)
    by (split; [reflexivity | left; reflexivity]).
  specialize (Hclaim Hfails eq_refl).
  cbn in Hclaim. destruct Hclaim as [H | [H | [H | []]]]; discriminate H.
Qed.

(** C7, as the code has it. One handler surrounds the whole tick.  A
    failure in cycle A -- its consensus evaluation raising, or the stamping
    of its winner raising -- ends the tick there: the runner is unchanged,
    the handler logs and sleeps ten seconds, and the timer of cycle B is not
    checked in that tick.  When cycle A does not fail (not due, no winner,
    or a winner stamped), the timer of cycle B is checked in the same tick
    and cycle B is evaluated exactly when due.  A failure in cycle B after
    cycle A has stamped leaves the difficulty increment and the timer of
    cycle A in place. *)
Theorem C7_one_handler_per_tick (R : Type) (k : NodeRunner.collaborators R)
  (current_time : float) (self : NodeRunner.runner) (active_nodes : list pystr) :
  NodeRunner.get_all_active_addresses k = Ok active_nodes ->
  (forall e,
     Scheduler.sdb_fails k current_time self active_nodes e ->
     NodeRunner.tick k current_time self
     = (self, [NodeRunner.Evaluated NodeRunner.SDB; NodeRunner.Caught e; NodeRunner.Slept 10]))
  /\ ((forall e, ~ Scheduler.sdb_fails k current_time self active_nodes e) ->
      (In (NodeRunner.Evaluated NodeRunner.BTZ) (snd (NodeRunner.tick k current_time self))
       <-> NodeRunner.due current_time (NodeRunner.last_btz_reward_time self)
             NodeRunner.BTZ_REWARD_CYCLE = true))
  /\ (forall reward_data e,
        NodeRunner.due current_time (NodeRunner.last_sdb_reward_time self)
          NodeRunner.SDB_REWARD_CYCLE = true ->
        NodeRunner.run_sdb_consensus k active_nodes = Ok (Some reward_data) ->
        NodeRunner.stamp_new_block k NodeRunner.SDB reward_data
          (NodeRunner.current_complexity self) = Ok tt ->
        NodeRunner.due current_time (NodeRunner.last_btz_reward_time self)
          NodeRunner.BTZ_REWARD_CYCLE = true ->
        NodeRunner.run_btz_consensus k active_nodes = Raise e ->
        NodeRunner.tick k current_time self
        = (NodeRunner.set_last_sdb_reward_time (NodeRunner._update_complexity self) current_time,
           [NodeRunner.Evaluated NodeRunner.SDB; NodeRunner.Stamped NodeRunner.SDB;
            NodeRunner.Evaluated NodeRunner.BTZ; NodeRunner.Caught e; NodeRunner.Slept 10])).
Proof.
  intros Hroster. split; [| split].
  - intros e. apply tick_sdb_fails. exact Hroster.
  - apply tick_sdb_passes. exact Hroster.
  - intros reward_data e. apply tick_btz_fails_after_stamp. exact Hroster.
Qed.

(** The tick of the scenario in which cycle A finds no winner: cycle B is
    due and is evaluated (and its own failure is caught). *)
Lemma C7_one_handler_per_tick_witness :
  NodeRunner.get_all_active_addresses Scenario.no_sdb_winner = Ok Scenario.roster
  /\ (forall e, ~ Scheduler.sdb_fails Scenario.no_sdb_winner Scenario.tick_time
                   Scenario.runner_0 Scenario.roster e)
  /\ (In (NodeRunner.Evaluated NodeRunner.BTZ)
         (snd (NodeRunner.tick Scenario.no_sdb_winner Scenario.tick_time Scenario.runner_0))
      <-> NodeRunner.due Scenario.tick_time (NodeRunner.last_btz_reward_time Scenario.runner_0)
            NodeRunner.BTZ_REWARD_CYCLE = true)
  /\ NodeRunner.tick NodeRunner.repository_collaborators Scenario.tick_time Scenario.runner_0
     = (Scenario.runner_0,
        [NodeRunner.Evaluated NodeRunner.SDB; NodeRunner.Caught TypeError; NodeRunner.Slept 10]).
Proof.
  assert (Hpass : forall e, ~ Scheduler.sdb_fails Scenario.no_sdb_winner Scenario.tick_time
                                Scenario.runner_0 Scenario.roster e).
  { intros e [_ [H | (reward_data & H & _)]]; discriminate H. }
  split; [reflexivity |]. split; [exact Hpass |].
  destruct (C7_one_handler_per_tick Scenario.no_sdb_winner Scenario.tick_time
              Scenario.runner_0 (active_nodes := Scenario.roster) eq_refl)
    as (_ & Hcheck & _).
  split; [exact (Hcheck Hpass) |].
  destruct (C7_one_handler_per_tick NodeRunner.repository_collaborators Scenario.tick_time
              Scenario.runner_0 (active_nodes := NodeRunner.registered_addresses) eq_refl)
    as (Hfail & _ & _).
  apply Hfail. split; [reflexivity | left; reflexivity].
Defined.

(** ** The difficulty a block records *)



(* ===================================================================== *)
(** * Further properties of the code                                      *)
(* ===================================================================== *)

(** ** Text: encodings and digits *)

Section TextFacts.
Import Text.

Lemma str_eqb_eq (a b : pystr) : str_eqb a b = true <-> a = b.
Proof.
  revert b. induction a as [| x a IH]; intros [| y b]; cbn [str_eqb];
    try (split; [discriminate | discriminate]); try tauto.
  rewrite andb_true_iff, Z.eqb_eq, IH. split.
  - intros [-> ->]. reflexivity.
  - intros H. injection H as -> ->. auto.
Qed.

Lemma str_eqb_refl (a : pystr) : str_eqb a a = true.
Proof. apply str_eqb_eq. reflexivity. Qed.

Lemma startswith_prefix (p s : pystr) : startswith (p ++ s) p = true.
Proof.
  induction p as [| c p IH]; [destruct s; reflexivity |].
  cbn [app startswith]. rewrite Z.eqb_refl. exact IH.
Qed.

(** [s.startswith(p)] says that [p] is the beginning of [s]. *)
Lemma startswith_firstn (s p : pystr) :
  startswith s p = true <-> firstn (length p) s = p.
Proof.
  revert s. induction p as [| c p IH]; intros s; cbn [length firstn].
  - destruct s; cbn [startswith]; tauto.
  - destruct s as [| d s]; cbn [startswith]; [split; discriminate |].
    rewrite andb_true_iff, Z.eqb_eq, IH. split.
    + intros [-> ->]. reflexivity.
    + intros H. injection H as -> H. auto.
Qed.

Lemma low_app (a b : pystr) : low (a ++ b) <-> low a /\ low b.
Proof. apply Forall_app. Qed.

Lemma lowb_sound (s : pystr) : forallb (fun c => c <? 128) s = true -> low s.
Proof.
  intros H. apply Forall_forall. intros c Hc.
  rewrite forallb_forall in H. apply Z.ltb_lt. apply H. exact Hc.
Qed.

Lemma mapM_ok_inv (A B : Type) (f : A -> result B) (l : list A) (r : list B) :
  mapM f l = Ok r -> Forall2 (fun a b => f a = Ok b) l r.
Proof.
  revert r. induction l as [| a l IH]; intros r H; cbn [mapM] in H.
  - injection H as <-. constructor.
  - destruct (f a) as [b | e] eqn:Ea; cbn [bind] in H; [| discriminate H].
    destruct (mapM f l) as [bs | e]; cbn [bind] in H; [| discriminate H].
    injection H as <-. constructor; [exact Ea | apply IH; reflexivity].
Qed.

Lemma mapM_returns (A B : Type) (f : A -> result B) (l : list A) :
  returns (mapM f l) <-> Forall (fun a => returns (f a)) l.
Proof.
  induction l as [| a l IH]; cbn [mapM].
  - split; [constructor | exists []; reflexivity].
  - split.
    + intros [r Hr]. destruct (f a) as [b | e] eqn:Ea; cbn [bind] in Hr; [| discriminate Hr].
      destruct (mapM f l) as [bs | e]; cbn [bind] in Hr; [| discriminate Hr].
      constructor; [exists b; exact Ea | apply IH; exists bs; reflexivity].
    + intros H. inversion H as [| ? ? [b Hb] Hl]; subst.
      apply IH in Hl. destruct Hl as [bs Hbs]. rewrite Hb, Hbs. exists (b :: bs). reflexivity.
Qed.

(** Only a surrogate stops the UTF-8 encoder. *)
Lemma utf8_char_returns (c : Z) : returns (utf8_char c) <-> ~ surrogate c.
Proof.
  unfold utf8_char, surrogate.
  destruct (Z.ltb_spec c 0x80); [split; [lia | eexists; reflexivity] |].
  destruct (Z.ltb_spec c 0x800); [split; [lia | eexists; reflexivity] |].
  destruct (Z.leb_spec 0xD800 c); destruct (Z.leb_spec c 0xDFFF); cbn [andb].
  - split; [intros [r Hr]; discriminate Hr | lia].
  - destruct (c <? 0x10000); (split; [lia | eexists; reflexivity]).
  - destruct (c <? 0x10000); (split; [lia | eexists; reflexivity]).
  - destruct (c <? 0x10000); (split; [lia | eexists; reflexivity]).
Qed.

Lemma encode_utf8_returns (s : pystr) : returns (encode_utf8 s) <-> encodable s.
Proof.
  unfold encode_utf8, encodable. split.
  - intros [r Hr]. destruct (mapM utf8_char s) as [chunks |] eqn:E; [| discriminate Hr].
    assert (Hm : returns (mapM utf8_char s)) by (exists chunks; exact E).
    apply mapM_returns in Hm. revert Hm. apply Forall_impl. intros c. apply utf8_char_returns.
  - intros H.
    assert (Hm : returns (mapM utf8_char s)).
    { apply mapM_returns. revert H. apply Forall_impl. intros c. apply utf8_char_returns. }
    destruct Hm as [chunks ->]. eexists. reflexivity.
Qed.

Lemma encodable_app (a b : pystr) : encodable (a ++ b) <-> encodable a /\ encodable b.
Proof. apply Forall_app. Qed.

Lemma low_encodable (s : pystr) : low s -> encodable s.
Proof. apply Forall_impl. unfold surrogate. intros c Hc. lia. Qed.

(** A string of characters below 128 is its own UTF-8 encoding. *)
Lemma encode_utf8_low (s : pystr) : low s -> encode_utf8 s = Ok s.
Proof.
  unfold encode_utf8. induction 1 as [| c s Hc Hs IH]; [reflexivity |].
  cbn [mapM]. unfold utf8_char at 1.
  destruct (Z.ltb_spec c 0x80) as [_ | Hge]; [| lia].
  cbn [bind]. destruct (mapM utf8_char s) as [chunks | e]; cbn [bind] in *; [| discriminate IH].
  injection IH as IH. cbn [concat app]. rewrite IH. reflexivity.
Qed.

Lemma digits_fuel_below (fuel : nat) (base n : Z) (acc : list Z) :
  0 < base ->
  Forall (fun d => d < base) acc ->
  Forall (fun d => d < base) (digits_fuel fuel base n acc).
Proof.
  intros Hbase. revert n acc. induction fuel as [| fuel IH]; intros n acc Hacc; cbn [digits_fuel].
  - exact Hacc.
  - destruct (Z.ltb_spec n base).
    + constructor; assumption.
    + apply IH. constructor; [| exact Hacc]. apply Z.mod_pos_bound. exact Hbase.
Qed.

Lemma digits_below (base n : Z) : 0 < base -> Forall (fun d => d < base) (digits base n).
Proof. intros H. apply digits_fuel_below; [exact H | constructor]. Qed.

Lemma digit_char_low (upper : bool) (d : Z) : d < 16 -> digit_char upper d < 128.
Proof. unfold digit_char. intros H. destruct (d <? 10), upper; lia. Qed.

Lemma digit_text_low (upper : bool) (base n : Z) :
  0 < base <= 16 -> low (map (digit_char upper) (digits base n)).
Proof.
  intros Hbase. apply Forall_map.
  pose proof (@digits_below base n (proj1 Hbase)) as H. revert H.
  apply Forall_impl. intros d Hd. apply digit_char_low. lia.
Qed.

Lemma str_of_int_low (n : Z) : low (str_of_int n).
Proof.
  unfold str_of_int. destruct (n <? 0).
  - constructor; [lia | apply digit_text_low; lia].
  - apply digit_text_low; lia.
Qed.

Lemma hex_lower_low (n : Z) : low (hex_lower n).
Proof. apply digit_text_low; lia. Qed.

Lemma hex_upper_low (n : Z) : low (hex_upper n).
Proof. apply digit_text_low; lia. Qed.

Lemma repeat_low (c : Z) (n : nat) : c < 128 -> low (repeat c n).
Proof. intros H. induction n; cbn [repeat]; constructor; assumption. Qed.

Lemma zero_padded_low (base : Z) (width : nat) (n : Z) :
  0 < base <= 16 -> low (zero_padded base width n).
Proof.
  intros H. unfold zero_padded. apply low_app. split.
  - apply repeat_low. lia.
  - apply digit_text_low. exact H.
Qed.

Lemma firstn_low (n : nat) (s : pystr) : low s -> low (firstn n s).
Proof.
  unfold low. intros H. revert n.
  induction H as [| c s Hc Hs IH]; intros [| n]; cbn [firstn]; constructor; auto.
Qed.

Lemma skipn_low (n : nat) (s : pystr) : low s -> low (skipn n s).
Proof.
  unfold low. intros H. revert n.
  induction H as [| c s Hc Hs IH]; intros [| n]; cbn [skipn]; try constructor; auto.
Qed.

End TextFacts.

Section LowText.
Import Text.

Ltac low_step :=
  first
    [ apply low_app; split
    | apply str_of_int_low
    | apply hex_lower_low
    | apply hex_upper_low
    | apply zero_padded_low; lia
    | apply repeat_low; lia
    | apply firstn_low
    | apply skipn_low
    | apply digit_text_low; lia
    | apply lowb_sound; reflexivity
    | constructor ].

Ltac low_text :=
  repeat match goal with
         | |- low (if ?b then _ else _) => destruct b
         | |- low (match ?x with _ => _ end) => destruct x
         | |- _ => low_step
         end.

Lemma format_fixed_low (places : nat) (x : float) : low (PyFloat.format_fixed places x).
Proof. unfold PyFloat.format_fixed. destruct (Prim2SF x); low_text. Qed.

Lemma repr_finite_low (m e : Z) : low (PyFloat.repr_finite m e).
Proof.
  unfold PyFloat.repr_finite.
  destruct (PyFloat.shortest_from _ _ _ _ _) as [d0 q0].
  destruct (PyFloat.strip_zeros _ _ _) as [d q].
  cbv zeta. low_text.
Qed.

Lemma repr_low (x : float) : low (PyFloat.repr x).
Proof.
  unfold PyFloat.repr. destruct (Prim2SF x); low_text; apply repr_finite_low.
Qed.

Lemma escape_char_low (c : Z) : low (Json.escape_char c).
Proof.
  unfold Json.escape_char, Json.u_escape.
  repeat match goal with
         | |- low (if ?b then _ else _) => destruct b eqn:?
         end; try (low_text; fail).
  match goal with
  | H : (_ && (c <=? 126)) = true |- _ =>
      apply andb_true_iff in H; destruct H as [_ H]; apply Z.leb_le in H
  end.
  constructor; [lia | constructor].
Qed.

Lemma encode_str_low (s : pystr) : low (Json.encode_str s).
Proof.
  unfold Json.encode_str. apply low_app. split; [low_text |]. apply low_app. split; [| low_text].
  induction s as [| c s IH]; cbn [flat_map]; [constructor |].
  apply low_app. split; [apply escape_char_low | exact IH].
Qed.

Lemma json_encode_low (v : Json.value) : low (Json.encode v).
Proof.
  destruct v as [n | x | s]; cbn [Json.encode].
  - apply str_of_int_low.
  - unfold Json.encode_float. destruct (Prim2SF x); try apply repr_low; low_text.
  - apply encode_str_low.
Qed.

Lemma join_low (sep : pystr) (parts : list pystr) :
  low sep -> Forall low parts -> low (Json.join sep parts).
Proof.
  intros Hsep H. induction H as [| p rest Hp Hrest IH]; cbn [Json.join]; [constructor |].
  destruct rest as [| p' rest']; [exact Hp |].
  apply low_app. split; [exact Hp |]. apply low_app. split; [exact Hsep | exact IH].
Qed.

(** The JSON text of a dictionary is plain ASCII, whatever its strings
    hold: [ensure_ascii] escapes the rest. *)
Lemma dumps_sorted_low (d : Json.dict) : low (Json.dumps_sorted d).
Proof.
  unfold Json.dumps_sorted. apply low_app. split; [low_text |].
  apply low_app. split; [| low_text].
  apply join_low; [low_text |].
  apply Forall_map. apply Forall_forall. intros kv _.
  apply low_app. split; [apply encode_str_low |].
  apply low_app. split; [low_text | apply json_encode_low].
Qed.

End LowText.
Section DigestShape.
Import Text Hashlib.

Section Generic.
Variable W : Type.
Variable ops : word_ops W.
Variable word_bytes : nat.
Variable H0 K : list W.

Lemma round_length (st : list W * list W) (k : W) : length (fst (round ops st k)) = 8%nat.
Proof. unfold round. destruct st as [v win]. reflexivity. Qed.

Lemma rounds_length (ks : list W) (st : list W * list W) :
  length (fst st) = 8%nat -> length (fst (fold_left (round ops) ks st)) = 8%nat.
Proof.
  revert st. induction ks as [| k ks IH]; intros st H; cbn [fold_left]; [exact H |].
  apply IH. apply round_length.
Qed.

Lemma compress_length (h block : list W) :
  length h = 8%nat -> length (compress ops K h block) = 8%nat.
Proof.
  intros H. unfold compress. rewrite length_map, length_combine, H.
  rewrite rounds_length; [reflexivity | exact H].
Qed.

Lemma absorb_length (n : nat) (h : list W) (bytes : list Z) :
  length h = 8%nat -> length (absorb ops word_bytes K n h bytes) = 8%nat.
Proof.
  revert h bytes. induction n as [| n IH]; intros h bytes H; cbn [absorb]; [exact H |].
  apply IH. apply compress_length. exact H.
Qed.

Lemma be_bytes_length (n : nat) (x : Z) : length (be_bytes n x) = n.
Proof. induction n as [| n IH]; cbn [be_bytes length]; [reflexivity | rewrite IH; reflexivity]. Qed.

Lemma be_bytes_range (n : nat) (x : Z) : Forall (fun b => 0 <= b < 256) (be_bytes n x).
Proof.
  induction n as [| n IH]; cbn [be_bytes]; constructor; [| exact IH].
  change 255 with (Z.ones 8). rewrite Z.land_ones by lia. apply Z.mod_pos_bound. lia.
Qed.

Lemma digest_length (msg : list Z) :
  length H0 = 8%nat -> length (digest ops word_bytes H0 K msg) = (8 * word_bytes)%nat.
Proof.
  intros H. unfold digest.
  rewrite (@flat_map_constant_length _ _ word_bytes).
  - rewrite absorb_length by exact H. reflexivity.
  - intros w _. apply be_bytes_length.
Qed.

Lemma digest_range (msg : list Z) :
  Forall (fun b => 0 <= b < 256) (digest ops word_bytes H0 K msg).
Proof.
  unfold digest. induction (absorb _ _ _ _ _ _) as [| w ws IH]; cbn [flat_map]; [constructor |].
  apply Forall_app. split; [apply be_bytes_range | exact IH].
Qed.

End Generic.

Lemma hex_of_bytes_shape (bs : list Z) :
  Forall (fun b => 0 <= b < 256) bs -> lower_hex (2 * length bs) (hex_of_bytes bs).
Proof.
  unfold lower_hex, hex_of_bytes.
  induction 1 as [| b bs Hb Hbs [IHlen IHdig]]; cbn [flat_map length].
  - split; [reflexivity | constructor].
  - cbn [app length]. split; [rewrite IHlen; lia |].
    assert (Hhi : 0 <= Z.shiftr b 4 < 16).
    { rewrite Z.shiftr_div_pow2 by lia. change (2 ^ 4) with 16.
      split; [apply Z.div_pos; lia | apply Z.div_lt_upper_bound; lia]. }
    assert (Hlo : 0 <= Z.land b 15 < 16).
    { change 15 with (Z.ones 4). rewrite Z.land_ones by lia. apply Z.mod_pos_bound. lia. }
    assert (Hdigit : forall d, 0 <= d < 16 -> lower_hex_digit (digit_char false d)).
    { intros d Hd. unfold lower_hex_digit, digit_char. destruct (Z.ltb_spec d 10); lia. }
    constructor; [apply Hdigit; exact Hhi |]. constructor; [apply Hdigit; exact Hlo | exact IHdig].
Qed.

(** A SHA-256 digest reads as 64 hexadecimal digits in lower case, a
    SHA-512 digest as 128. *)
Lemma sha256_hexdigest_shape (data : list Z) : lower_hex 64 (sha256_hexdigest data).
Proof.
  unfold sha256_hexdigest.
  pose proof (@hex_of_bytes_shape (digest int_words32 4 H256 K256 data)
                (digest_range _ _ _ _ _)) as H.
  rewrite digest_length in H by reflexivity. exact H.
Qed.

Lemma sha512_hexdigest_shape (data : list Z) : lower_hex 128 (sha512_hexdigest data).
Proof.
  unfold sha512_hexdigest.
  pose proof (@hex_of_bytes_shape (digest Z_words64 8 H512 K512 data)
                (digest_range _ _ _ _ _)) as H.
  rewrite digest_length in H by reflexivity. exact H.
Qed.

Lemma lower_hex_low (n : nat) (s : pystr) : lower_hex n s -> low s.
Proof. intros [_ H]. revert H. apply Forall_impl. unfold lower_hex_digit. intros c Hc. lia. Qed.

Lemma upper_hex_low (n : nat) (s : pystr) : upper_hex n s -> low s.
Proof. intros [_ H]. revert H. apply Forall_impl. unfold upper_hex_digit. intros c Hc. lia. Qed.

Lemma lower_hex_valid (n : nat) (s : pystr) : lower_hex n s -> valid_str s.
Proof.
  intros [_ H]. revert H. apply Forall_impl. unfold lower_hex_digit, code_point, CODE_POINTS.
  intros c Hc. lia.
Qed.

Lemma ascii_upper_hex (n : nat) (s : pystr) : lower_hex n s -> upper_hex n (ascii_upper s).
Proof.
  unfold lower_hex, upper_hex, ascii_upper. intros [Hlen H].
  split; [rewrite length_map; exact Hlen |].
  apply Forall_map. revert H. apply Forall_impl. intros c Hc.
  unfold lower_hex_digit in Hc. unfold upper_hex_digit.
  destruct (Z.leb_spec 97 c); destruct (Z.leb_spec c 122); cbn [andb]; lia.
Qed.

Lemma slice_lower_hex (n k : nat) (s : pystr) :
  lower_hex n s -> (k <= n)%nat -> lower_hex k (slice_to k s).
Proof.
  unfold lower_hex, slice_to. intros [Hlen H] Hk. split.
  - rewrite length_firstn. lia.
  - revert k Hk. clear Hlen. revert n. induction H as [| c s Hc Hs IH]; intros n [| k] Hk;
      cbn [firstn]; constructor; eauto with arith.
Qed.

End DigestShape.
(** ** Stamping: numbering, failure and the shape of the hashes *)

Section Stamping.
Import Text BlockStampingEngine.

Lemma sha256_hash_low (data : pystr) :
  low data -> SecurityHasher.sha256_hash data = Ok (Hashlib.sha256_hexdigest data).
Proof. intros H. unfold SecurityHasher.sha256_hash. rewrite (encode_utf8_low H). reflexivity. Qed.

Lemma sha256_hash_shape (data h : pystr) :
  SecurityHasher.sha256_hash data = Ok h -> lower_hex 64 h.
Proof.
  unfold SecurityHasher.sha256_hash. destruct (encode_utf8 data) as [bytes | e]; [| discriminate].
  cbn [bind]. intros H. injection H as <-. apply sha256_hexdigest_shape.
Qed.

Lemma getrandbits_64 (g : Random.state) : exists bits g', Random.getrandbits 64 g = (Ok bits, g').
Proof.
  unfold Random.getrandbits.
  change (64 <? 0) with false. change (64 =? 0) with false. change (64 <=? 32) with false.
  cbv iota. destruct (Random.getrandbits_words _ _ _ _) as [v g']. exists v, g'. reflexivity.
Qed.

Lemma returns_ok (A : Type) (a : A) : returns (Ok a).
Proof. exists a. reflexivity. Qed.

Lemma returns_raise (A : Type) (e : exn) : ~ returns (@Raise A e).
Proof. intros [a H]. discriminate H. Qed.

(** The lock is produced exactly when the reward type can be encoded and
    the clock can be read. *)
Lemma lock_key_returns (hard_hash : pystr) (complexity : float) (reward_type : pystr)
  (t : SecurityHasher.time_binding) (g : Random.state) :
  low hard_hash ->
  returns (fst (SecurityHasher.constellation_lock_key hard_hash complexity reward_type t g))
  <-> encodable reward_type /\ returns (SecurityHasher.clock_seed t).
Proof.
  intros Hhard.
  unfold SecurityHasher.constellation_lock_key, SecurityHasher._fictional_sha4091_logic.
  set (lock_seed := hard_hash ++ py "-" ++ PyFloat.format_fixed 7 complexity ++ py "-"
                    ++ reward_type).
  assert (Hseed : returns (encode_utf8 lock_seed) <-> encodable reward_type).
  { rewrite encode_utf8_returns. unfold lock_seed. rewrite !encodable_app.
    pose proof (low_encodable Hhard).
    pose proof (low_encodable (format_fixed_low 7 complexity)).
    assert (encodable (py "-")) by (apply low_encodable, lowb_sound; reflexivity).
    tauto. }
  destruct (encode_utf8 lock_seed) as [seed_bytes | e].
  - destruct (SecurityHasher.clock_seed t) as [s | e].
    + destruct (getrandbits_64 (Random.seed s)) as (bits & g2 & ->).
      rewrite encode_utf8_low.
      * cbn [bind fst]. split; [intros _ | intros _; apply returns_ok].
        split; [apply Hseed; apply returns_ok | apply returns_ok].
      * apply low_app. split; [| apply hex_lower_low].
        eapply lower_hex_low. apply sha512_hexdigest_shape.
    + cbn [bind fst]. split; [intros H; contradiction (returns_raise H) |].
      intros [_ H]. contradiction (returns_raise H).
  - cbn [bind fst]. split; [intros H; contradiction (returns_raise H) |].
    intros [H _]. apply Hseed in H. contradiction (returns_raise H).
Qed.

Lemma lock_key_shape (hard_hash : pystr) (complexity : float) (reward_type : pystr)
  (t : SecurityHasher.time_binding) (g g' : Random.state) (lock : pystr) :
  SecurityHasher.constellation_lock_key hard_hash complexity reward_type t g = (Ok lock, g') ->
  BlockShape.lock_text lock.
Proof.
  unfold SecurityHasher.constellation_lock_key, SecurityHasher._fictional_sha4091_logic.
  destruct (encode_utf8 _) as [seed_bytes | e]; [| discriminate].
  destruct (SecurityHasher.clock_seed t) as [s | e]; [| discriminate].
  destruct (Random.getrandbits 64 (Random.seed s)) as [[bits | e] g2]; [| discriminate].
  destruct (encode_utf8 _) as [final_bytes | e]; cbn [bind]; [| discriminate].
  assert (Hh : lower_hex 128 (slice_to SecurityHasher.CONSTELLATION_HASH_LENGTH
                                (Hashlib.sha512_hexdigest final_bytes))).
  { eapply slice_lower_hex; [apply sha512_hexdigest_shape | apply le_n]. }
  revert Hh. generalize (slice_to SecurityHasher.CONSTELLATION_HASH_LENGTH
                           (Hashlib.sha512_hexdigest final_bytes)).
  intros h Hh H. injection H as <- _. exists (ascii_upper h). split; [reflexivity |].
  apply ascii_upper_hex. exact Hh.
Qed.

Lemma chain_2_produced : Ledger.produced (fst Scenario.chain_2).
Proof.
  change Scenario.chain_2 with
    (Ledger.stamp_and_append (fst Scenario.chain_1) 0.1%float Scenario.btz_args
       Scenario.second_clock Scenario.hasher_clock_2 (snd Scenario.chain_1)).
  apply stamp_and_append_produced.
  change Scenario.chain_1 with
    (Ledger.stamp_and_append [] 0.1%float Scenario.sdb_args
       Scenario.first_clock Scenario.hasher_clock_1 Scenario.generator_0).
  apply stamp_and_append_produced. apply Ledger.produced_empty.
Qed.

End Stamping.

(** X1. The blocks of a chain the ledger produces are numbered from 1 in
    steps of 1: the block at position [i] (counted from 0) has
    BLOCK_INDEX [i + 1]. *)
Theorem X1_blocks_numbered_from_one (chain : list BlockStampingEngine.Block) (i : nat)
  (b : BlockStampingEngine.Block) :
  Ledger.produced chain ->
  nth_error chain i = Some b ->
  BlockStampingEngine.BLOCK_INDEX (BlockStampingEngine.fields b) = Z.of_nat i + 1.
Proof.
  intros Hprod. revert i b.
  induction Hprod as [| chain c a now t g x g' Hprod IH Hstamp]; intros i b Hb.
  - destruct i; discriminate Hb.
  - destruct (Nat.lt_ge_cases i (length chain)) as [Hlt | Hge].
    + rewrite nth_error_app1 in Hb by exact Hlt. apply IH. exact Hb.
    + assert (Hi : i = length chain).
      { assert (i < length (chain ++ [x]))%nat by (apply nth_error_Some; rewrite Hb; discriminate).
        rewrite length_app in H. cbn [length] in H. lia. }
      subst i. rewrite nth_error_app2, Nat.sub_diag in Hb by lia. injection Hb as <-.
      apply stamp_new_block_inv in Hstamp. destruct Hstamp as [Hprep _].
      apply prepare_block_data_inv in Hprep. destruct Hprep as [Hindex _].
      rewrite Hindex. unfold BlockStampingEngine._get_last_block, BlockStampingEngine.init.
      cbn [BlockStampingEngine.blockchain].
      destruct chain as [| first rest]; [reflexivity |].
      cbn [BlockStampingEngine.view BlockStampingEngine.last_BLOCK_INDEX].
      rewrite (IH (length rest) (last rest first) (last_nth_error rest first)).
      cbn [length]. lia.
Qed.

(** The second block of the chain of the scenario has index 2. *)
Lemma X1_blocks_numbered_from_one_witness :
  exists b,
    nth_error (fst Scenario.chain_2) 1 = Some b
    /\ BlockStampingEngine.BLOCK_INDEX (BlockStampingEngine.fields b) = 2.
Proof.
  destruct (nth_error (fst Scenario.chain_2) 1) as [b |] eqn:E; [| discriminate E].
  exists b. split; [reflexivity |].
  exact (X1_blocks_numbered_from_one 1 chain_2_produced E).
Defined.
(** X2. Given arguments that are Python strings, [stamp_new_block] returns
    a block only when the reward type has no surrogate character and the
    hasher can read the clock ([time] bound, the reading in milliseconds a
    finite number).  Where the integers of the block stay within the 4300
    digits that [json.dumps] converts and [time.ctime] renders the reading
    of the clock, the two conditions are also enough: the miner's address,
    the seed frame, the chain and the state of the random generator never
    make the stamp fail.  The line the stamp prints is taken to be
    written. *)
Theorem X2_stamp_returns (self : BlockStampingEngine.engine) (a : BlockStampingEngine.stamp_args)
  (now : BlockStampingEngine.clock_reading) (t : SecurityHasher.time_binding) (g : Random.state) :
  valid_str (BlockStampingEngine.miner_address a ++ BlockStampingEngine.reward_type a) ->
  (returns (fst (BlockStampingEngine.stamp_new_block self a now t g)) ->
   Text.encodable (BlockStampingEngine.reward_type a)
   /\ returns (SecurityHasher.clock_seed t))
  /\ (StampArgs.integers_convert self a -> StampArgs.renders now ->
      Text.encodable (BlockStampingEngine.reward_type a) ->
      returns (SecurityHasher.clock_seed t) ->
      returns (fst (BlockStampingEngine.stamp_new_block self a now t g))).
Proof.
  intros Hvalid.
  assert (Hiff : returns (fst (BlockStampingEngine.stamp_new_block self a now t g))
                 <-> Text.encodable (BlockStampingEngine.reward_type a)
                     /\ returns (SecurityHasher.clock_seed t)).
  { unfold BlockStampingEngine.stamp_new_block, BlockStampingEngine._prepare_block_data.
    destruct (soft_encrypt_returns Hvalid) as [soft Hsoft]. rewrite Hsoft. cbn [bind].
    rewrite sha256_hash_low by apply dumps_sorted_low.
    match goal with
    | |- context [SecurityHasher.constellation_lock_key ?h ?c ?r t g] =>
        pose proof (@lock_key_returns h c r t g
                      (lower_hex_low (sha256_hexdigest_shape _))) as Hlock;
        destruct (SecurityHasher.constellation_lock_key h c r t g) as [lock g']
    end.
    cbn [fst] in Hlock. rewrite <- Hlock.
    destruct lock as [constellation_lock | e]; cbn [bind fst].
    - split; intros _; apply returns_ok.
    - split; intros H; contradiction (returns_raise H). }
  split.
  - apply Hiff.
  - intros _ _ Henc Hclock. apply Hiff. split; assumption.
Qed.

(** The stamp of the scenario meets the conditions and returns its block. *)
Lemma X2_stamp_returns_witness :
  valid_str (Scenario.SNIF_NODE ++ py "@SNIFFEE-DEBUGEE")
  /\ StampArgs.integers_convert (BlockStampingEngine.init [] 0.1%float) Scenario.sdb_args
  /\ StampArgs.renders Scenario.first_clock
  /\ Text.encodable (py "@SNIFFEE-DEBUGEE")
  /\ returns (SecurityHasher.clock_seed Scenario.hasher_clock_1)
  /\ returns (fst (BlockStampingEngine.stamp_new_block (BlockStampingEngine.init [] 0.1%float)
                     Scenario.sdb_args Scenario.first_clock Scenario.hasher_clock_1
                     Scenario.generator_0)).
Proof.
  assert (Hv : valid_str (Scenario.SNIF_NODE ++ py "@SNIFFEE-DEBUGEE"))
    by (apply valid_strb_sound; reflexivity).
  assert (Hints : StampArgs.integers_convert (BlockStampingEngine.init [] 0.1%float)
                    Scenario.sdb_args)
    by (repeat split; vm_compute; reflexivity).
  assert (Hrend : StampArgs.renders Scenario.first_clock)
    by (split; vm_compute; reflexivity).
  assert (Henc : Text.encodable (py "@SNIFFEE-DEBUGEE"))
    by (apply low_encodable, lowb_sound; reflexivity).
  assert (Hclock : returns (SecurityHasher.clock_seed Scenario.hasher_clock_1))
    by (eexists; vm_compute; reflexivity).
  split; [exact Hv |]. split; [exact Hints |]. split; [exact Hrend |].
  split; [exact Henc |]. split; [exact Hclock |].
  exact (proj2 (X2_stamp_returns (BlockStampingEngine.init [] 0.1%float) Scenario.sdb_args
                  Scenario.first_clock Scenario.hasher_clock_1 Scenario.generator_0 Hv)
           Hints Hrend Henc Hclock).
Defined.

Lemma placeholder_shape : Text.lower_hex 64 SecurityHasher.placeholder_hash.
Proof.
  split; [reflexivity |]. unfold SecurityHasher.placeholder_hash.
  apply Forall_forall. intros c Hc. apply repeat_spec in Hc. subst c.
  unfold Text.lower_hex_digit. lia.
Qed.

Lemma last_in (A : Type) (rest : list A) (first : A) : In (last rest first) (first :: rest).
Proof. eapply nth_error_In. apply last_nth_error. Qed.

(** X3. In a chain the ledger produces every block carries two hashes of
    64 hexadecimal digits in lower case (PREVIOUS_HASH and
    HARDCOVER_CRYPTION) and a lock that reads CONSTELLATION_LOCK: followed
    by 128 hexadecimal digits in upper case. *)
Theorem X3_produced_blocks_well_shaped (chain : list BlockStampingEngine.Block) :
  Ledger.produced chain -> Forall BlockShape.well_shaped chain.
Proof.
  induction 1 as [| chain c a now t g b g' Hprod IH Hstamp]; [constructor |].
  apply Forall_app. split; [exact IH |]. constructor; [| constructor].
  pose proof (stamp_previous_hash _ _ _ _ _ _ Hstamp) as Hprev.
  apply stamp_new_block_inv in Hstamp. destruct Hstamp as (_ & Hhash & Hlock).
  split; [| split].
  - rewrite Hprev. destruct chain as [| first rest]; [apply placeholder_shape |].
    rewrite Forall_forall in IH. apply (IH _ (last_in rest first)).
  - eapply sha256_hash_shape. exact Hhash.
  - eapply lock_key_shape. exact Hlock.
Qed.

Lemma X3_produced_blocks_well_shaped_witness :
  length (fst Scenario.chain_2) = 2%nat /\ Forall BlockShape.well_shaped (fst Scenario.chain_2).
Proof.
  split; [reflexivity |].
  exact (X3_produced_blocks_well_shaped chain_2_produced).
Defined.

Lemma mapM_utf8_raises (s : pystr) (e : exn) :
  mapM utf8_char s = Raise e -> e = UnicodeEncodeError /\ exists c, In c s /\ Text.surrogate c.
Proof.
  induction s as [| c s IH]; cbn [mapM]; [discriminate |].
  destruct (utf8_char c) as [bs | e'] eqn:Ec; cbn [bind].
  - destruct (mapM utf8_char s) as [chunks | e'']; cbn [bind]; [discriminate |].
    intros H. injection H as ->. destruct (IH eq_refl) as (He & c' & Hin & Hc').
    split; [exact He |]. exists c'. split; [right; exact Hin | exact Hc'].
  - intros H. injection H as ->. unfold utf8_char in Ec.
    destruct (c <? 0x80); [discriminate Ec |]. destruct (c <? 0x800); [discriminate Ec |].
    destruct ((0xD800 <=? c) && (c <=? 0xDFFF)) eqn:Hs;
      [| destruct (c <? 0x10000); discriminate Ec].
    injection Ec as <-. split; [reflexivity |].
    exists c. split; [left; reflexivity |].
    apply andb_true_iff in Hs. destruct Hs as [Hlo Hhi].
    apply Z.leb_le in Hlo. apply Z.leb_le in Hhi. split; assumption.
Qed.
(** X4. [sha256_hash] returns for every string without a surrogate
    character, and then 64 hexadecimal digits in lower case; on a string
    with a surrogate it raises UnicodeEncodeError, and nothing else. *)
Theorem X4_sha256_hash_outcome (data : pystr) :
  match SecurityHasher.sha256_hash data with
  | Ok h => Text.encodable data /\ Text.lower_hex 64 h
  | Raise e => e = UnicodeEncodeError /\ exists c, In c data /\ Text.surrogate c
  end.
Proof.
  destruct (SecurityHasher.sha256_hash data) as [h | e] eqn:E.
  - split; [| eapply sha256_hash_shape; exact E].
    apply encode_utf8_returns. unfold SecurityHasher.sha256_hash in E.
    destruct (encode_utf8 data) as [bytes | e]; [apply returns_ok | discriminate E].
  - unfold SecurityHasher.sha256_hash, encode_utf8 in E.
    destruct (mapM utf8_char data) as [chunks | e'] eqn:Em; [discriminate E |].
    cbn [bind] in E. injection E as <-. apply mapM_utf8_raises. exact Em.
Qed.

(** ** The traffic analyzer *)

Section Analyzer.
Import Text WifiAnalyzer.

Lemma encode_utf8_raises (s : pystr) (e : exn) :
  encode_utf8 s = Raise e -> e = UnicodeEncodeError /\ ~ encodable s.
Proof.
  intros H. split.
  - unfold encode_utf8 in H. destruct (mapM utf8_char s) as [chunks | e'] eqn:Em;
      [discriminate H |].
    cbn [bind] in H. injection H as <-. apply (mapM_utf8_raises _ Em).
  - intros Henc. apply encode_utf8_returns in Henc. destruct Henc as [r Hr].
    rewrite Hr in H. discriminate H.
Qed.

(** The text that is hashed is the address followed by plain ASCII. *)
Lemma proof_text_encodable (s : NodeTrafficSnapshot) :
  exists tail,
    low tail
    /\ generate_data_proof_hash s
       = (bytes <- encode_utf8 (snapshot_node_address s ++ tail) ;;
          Ok (Hashlib.sha256_hexdigest bytes)).
Proof.
  unfold generate_data_proof_hash.
  destruct (snapshot_packets_in s) as [| first rest].
  - eexists. split; [| reflexivity].
    repeat (apply low_app; split); first [apply str_of_int_low | apply repr_low
                                         | apply lowb_sound; reflexivity].
  - eexists. split; [| rewrite <- !app_assoc; reflexivity].
    repeat (apply low_app; split); first [apply str_of_int_low | apply repr_low
                                         | apply lowb_sound; reflexivity].
Qed.

Lemma node_entry_outcome (address : pystr) (c : capture) :
  match node_entry address c with
  | Ok x =>
      encodable address /\ node_address x = address /\ Traffic.counted c x
      /\ lower_hex 64 (data_proof_hash x)
  | Raise e => e = UnicodeEncodeError /\ ~ encodable address
  end.
Proof.
  unfold node_entry.
  destruct (proof_text_encodable (get_node_traffic_snapshot address c)) as (tail & Htail & ->).
  cbn [get_node_traffic_snapshot snapshot_node_address].
  destruct (encode_utf8 (address ++ tail)) as [bytes | e] eqn:E; cbn [bind].
  - cbn [node_address data_proof_hash]. split.
    + assert (H : returns (encode_utf8 (address ++ tail))) by (exists bytes; exact E).
      apply encode_utf8_returns, encodable_app in H. tauto.
    + split; [reflexivity |]. split; [| apply sha256_hexdigest_shape].
      unfold Traffic.counted, snapshot_total_packet_count.
      cbn [io_traffic_details packets_in packets_out total_packet_count simulated_latency_ms
           snapshot_packets_in snapshot_packets_out snapshot_simulated_latency_ms].
      auto.
  - apply encode_utf8_raises in E. destruct E as [-> Hno]. split; [reflexivity |].
    intros H. apply Hno. apply encodable_app. split; [exact H | apply low_encodable, Htail].
Qed.

Lemma aggregate_from_outcome (i : nat) (nodes : list pystr) (captures : nat -> capture) :
  match aggregate_from i nodes captures with
  | Ok data =>
      map node_address data = nodes
      /\ Forall encodable nodes
      /\ forall j x, nth_error data j = Some x ->
           Traffic.counted (captures (i + j)%nat) x /\ lower_hex 64 (data_proof_hash x)
  | Raise e => e = UnicodeEncodeError /\ Exists (fun a => ~ encodable a) nodes
  end.
Proof.
  revert i. induction nodes as [| address rest IH]; intros i; cbn [aggregate_from].
  - split; [reflexivity |]. split; [constructor |]. intros [| j] x H; discriminate H.
  - pose proof (node_entry_outcome address (captures i)) as Hentry.
    destruct (node_entry address (captures i)) as [entry | e]; cbn [bind].
    + specialize (IH (S i)).
      destruct (aggregate_from (S i) rest captures) as [entries | e]; cbn [bind].
      * destruct Hentry as (Henc & Haddr & Hcount & Hhash).
        destruct IH as (Hmap & Hall & Hnth).
        split; [cbn [map]; rewrite Haddr, Hmap; reflexivity |].
        split; [constructor; assumption |].
        intros [| j] x Hx; cbn [nth_error] in Hx.
        -- injection Hx as <-. rewrite Nat.add_0_r. auto.
        -- rewrite Nat.add_succ_r. apply (Hnth j x Hx).
      * destruct IH as [-> Hex]. split; [reflexivity |]. apply Exists_cons_tl. exact Hex.
    + destruct Hentry as [-> Hno]. split; [reflexivity |]. apply Exists_cons_hd. exact Hno.
Qed.

End Analyzer.

(** X5. [aggregate_all_node_traffic] returns one entry per address, in the
    order of the addresses; the entry at position [j] carries the figures of
    the [j]-th capture (total = in + out) and a proof hash of 64
    hexadecimal digits.  It raises, and then UnicodeEncodeError, exactly when
    some address has a surrogate character. *)
Theorem X5_aggregate_keeps_roster (nodes : list pystr) (captures : nat -> WifiAnalyzer.capture) :
  match WifiAnalyzer.aggregate_all_node_traffic nodes captures with
  | Ok data =>
      map WifiAnalyzer.node_address data = nodes
      /\ Forall Text.encodable nodes
      /\ forall j x, nth_error data j = Some x ->
           Traffic.counted (captures j) x
           /\ Text.lower_hex 64 (WifiAnalyzer.data_proof_hash x)
  | Raise e => e = UnicodeEncodeError /\ Exists (fun a => ~ Text.encodable a) nodes
  end.
Proof. exact (aggregate_from_outcome 0 nodes captures). Qed.

(** X6. The proof hash of a snapshot reads the address, the timestamp, the
    two packet counts (through their sum) and, of all the packets, only the
    payload size and the sequence number of the first inbound one: two
    snapshots that agree on these have the same proof hash, whatever the
    other packets and the latency are. *)
Theorem X6_proof_hash_reads_first_packet_only (s1 s2 : WifiAnalyzer.NodeTrafficSnapshot) :
  WifiAnalyzer.snapshot_node_address s1 = WifiAnalyzer.snapshot_node_address s2 ->
  WifiAnalyzer.timestamp s1 = WifiAnalyzer.timestamp s2 ->
  WifiAnalyzer.snapshot_total_packet_count s1 = WifiAnalyzer.snapshot_total_packet_count s2 ->
  Traffic.first_inbound s1 = Traffic.first_inbound s2 ->
  WifiAnalyzer.generate_data_proof_hash s1 = WifiAnalyzer.generate_data_proof_hash s2.
Proof.
  intros Haddr Htime Htotal Hfirst. unfold WifiAnalyzer.generate_data_proof_hash.
  rewrite Haddr, Htime, Htotal. unfold Traffic.first_inbound in Hfirst.
  destruct (WifiAnalyzer.snapshot_packets_in s1) as [| p1 r1];
    destruct (WifiAnalyzer.snapshot_packets_in s2) as [| p2 r2];
    try discriminate Hfirst; [reflexivity |].
  injection Hfirst as -> ->. reflexivity.
Qed.
Lemma X6_proof_hash_reads_first_packet_only_witness :
  WifiAnalyzer.snapshot_packets_out Cases.snapshot_a
  <> WifiAnalyzer.snapshot_packets_out Cases.snapshot_b
  /\ WifiAnalyzer.generate_data_proof_hash Cases.snapshot_a
     = WifiAnalyzer.generate_data_proof_hash Cases.snapshot_b.
Proof.
  split; [intros H; apply (f_equal (@length _)) in H; vm_compute in H; discriminate H |].
  apply (@X6_proof_hash_reads_first_packet_only Cases.snapshot_a Cases.snapshot_b);
    vm_compute; reflexivity.
Defined.

(** ** Cycle A: what a winning run hands over *)

(** X7. When a run of cycle A returns a reward, the time gate was passed,
    the winner is one of the addresses of the roster, the reward is 300
    of @SNIFFEE-DEBUGEE, the seed frame stamped is the target seed the
    generator holds, the winner's proof hash starts with the first five
    characters of that seed, and the transit number is the winner's total
    packet count. *)
Theorem X7_sdb_reward_content (self : SDBRewardLogic.logic) (nodes : list pystr)
  (w : SDBRewardLogic.io) (rw : SDBRewardLogic.reward) :
  fst (SDBRewardLogic.run_sdb_consensus self nodes w) = Ok (Some rw) ->
  PrimFloat.ltb (PrimFloat.sub (SDBRewardLogic.gate_clock w) (SDBRewardLogic.last_reward_time self))
                (PyFloat.of_int SDBRewardLogic.SDB_CYCLE_TIME_SECONDS) = false
  /\ In (SDBRewardLogic.winner_address rw) nodes
  /\ SDBRewardLogic.reward_amount rw = 300
  /\ SDBRewardLogic.reward_type rw = py "@SNIFFEE-DEBUGEE"
  /\ SDBRewardLogic.seedframe rw
     = FavoriteSeedGenerator.generate_favorite_seed (SDBRewardLogic.seed_generator self)
  /\ SeedMatch.matches (SDBRewardLogic.seedframe rw) (SDBRewardLogic.proof_data rw) = true
  /\ SDBRewardLogic.winner_address rw = WifiAnalyzer.node_address (SDBRewardLogic.proof_data rw)
  /\ SDBRewardLogic.binary_transit_no rw
     = WifiAnalyzer.total_packet_count
         (WifiAnalyzer.io_traffic_details (SDBRewardLogic.proof_data rw)).
Proof.
  unfold SDBRewardLogic.run_sdb_consensus.
  destruct (PrimFloat.ltb _ _) eqn:Egate; [discriminate |].
  destruct nodes as [| node rest]; [discriminate |].
  pose proof (aggregate_from_outcome 0 (node :: rest) (SDBRewardLogic.captures w)) as Hagg.
  fold (WifiAnalyzer.aggregate_all_node_traffic (node :: rest) (SDBRewardLogic.captures w)) in Hagg.
  destruct (WifiAnalyzer.aggregate_all_node_traffic _ _) as [data | e]; [| discriminate].
  destruct Hagg as (Hmap & _ & _).
  destruct (SDBRewardLogic._find_seed_match_winner data _) as [winner |] eqn:Ewin; [| discriminate].
  cbn [fst]. intros H. injection H as <-.
  cbn [SDBRewardLogic.winner_address SDBRewardLogic.reward_amount SDBRewardLogic.reward_type
       SDBRewardLogic.seedframe SDBRewardLogic.proof_data SDBRewardLogic.binary_transit_no].
  unfold SDBRewardLogic._find_seed_match_winner in Ewin.
  apply first_match_some in Ewin. destruct Ewin as (before & after & Hdata & Hhit & _).
  split; [reflexivity |]. split.
  - rewrite <- Hmap, Hdata. apply in_map. apply in_or_app. right. left. reflexivity.
  - repeat split; try reflexivity. exact Hhit.
Qed.

Lemma X7_sdb_reward_content_witness :
  In (SDBRewardLogic.winner_address Scenario.sdb_reward) Scenario.roster
  /\ SeedMatch.matches (SDBRewardLogic.seedframe Scenario.sdb_reward)
       (SDBRewardLogic.proof_data Scenario.sdb_reward) = true.
Proof.
  pose proof (@X7_sdb_reward_content Scenario.sdb_logic Scenario.roster Scenario.sdb_io
                Scenario.sdb_reward (f_equal fst sdb_scenario_wins)) as H.
  split; [exact (proj1 (proj2 H)) | exact (proj1 (proj2 (proj2 (proj2 (proj2 (proj2 H))))))].
Defined.

(** ** Cycle B: the helper and the join *)

(** X8. [_determine_highest_traffic_winner] looks at one entry only, the
    first one with the highest total packet count: it returns that entry
    when it is marked verified, and nothing when the list is empty or that
    entry is not verified -- a verified entry with less traffic is never
    returned in its place. *)
Theorem X8_helper_judges_top_entry_only (l : list BTZRewardLogic.eligible) :
  match BTZRewardLogic._determine_highest_traffic_winner l with
  | Some w => TrafficVolume.first_highest l w /\ BTZRewardLogic.is_verified w = true
  | None =>
      l = [] \/ exists w, TrafficVolume.first_highest l w /\ BTZRewardLogic.is_verified w = false
  end.
Proof.
  unfold BTZRewardLogic._determine_highest_traffic_winner.
  destruct l as [| x l]; [left; reflexivity |].
  pose proof (sorted_descending_head (x :: l)) as Hhead.
  destruct (BTZRewardLogic.sorted_descending (x :: l)) as [| w rest]; [discriminate Hhead |].
  destruct (BTZRewardLogic.is_verified w) eqn:Ev.
  - split; [exact Hhead | exact Ev].
  - right. exists w. split; [exact Hhead | exact Ev].
Qed.

(** X9. The join of traffic entries and verification reports keeps, in
    order, the entries whose first report under their address says
    verified; an entry without a report is dropped.  Each entry kept is
    marked verified, carries the address of its traffic entry, and the
    proof of that first report. *)
Theorem X9_join_by_first_report (data : list WifiAnalyzer.node_data)
  (reports : list PingNmapVerifier.report) :
  map BTZRewardLogic.traffic (BTZRewardLogic.join_verified data reports)
  = filter (TrafficVolume.verified reports) data
  /\ Forall (fun x =>
       BTZRewardLogic.is_verified x = true
       /\ BTZRewardLogic.address x = WifiAnalyzer.node_address (BTZRewardLogic.traffic x)
       /\ exists r,
            BTZRewardLogic.report_for reports (BTZRewardLogic.address x) = Some r
            /\ PingNmapVerifier.is_verified r = true
            /\ BTZRewardLogic.verification_hash_proof x
               = PingNmapVerifier.verification_hash_proof r)
       (BTZRewardLogic.join_verified data reports).
Proof.
  split; [apply join_verified_traffic |].
  induction data as [| t rest IH]; [constructor |].
  cbn [BTZRewardLogic.join_verified].
  destruct (BTZRewardLogic.report_for reports (WifiAnalyzer.node_address t)) as [r |] eqn:Er;
    [| exact IH].
  destruct (PingNmapVerifier.is_verified r) eqn:Ev; [| exact IH].
  constructor; [| exact IH].
  cbn [BTZRewardLogic.is_verified BTZRewardLogic.address BTZRewardLogic.traffic
       BTZRewardLogic.verification_hash_proof].
  split; [reflexivity |]. split; [reflexivity |]. exists r. auto.
Qed.
(** ** The packet monitor *)

Section Monitor.
Import WifiAnalyzer PacketIOMonitor.

(** No entry of the analyzer has the key the monitor sorts by. *)
Lemma sort_key_default (x : node_data) : sort_key x = 0.
Proof. reflexivity. Qed.

Lemma sorted_descending_same (l : list node_data) : sorted_descending l = l.
Proof.
  induction l as [| x l IH]; [reflexivity |].
  unfold sorted_descending in *. cbn [fold_right]. rewrite IH.
  destruct l as [| y l]; reflexivity.
Qed.

Lemma select_highest_is_head (data : list node_data) :
  _select_highest_traffic_node data = hd_error data.
Proof.
  unfold _select_highest_traffic_node. rewrite sorted_descending_same.
  destruct data; reflexivity.
Qed.

End Monitor.

(** X10. On the entries the analyzer aggregates, the monitor's
    [_select_highest_traffic_node] returns the first entry of the list,
    whatever the packet counts are: it sorts by a top-level key
    [total_packet_count] that no entry has (the count is nested under
    [io_traffic_details]), so every entry sorts as 0 and the stable sort
    keeps the order. *)
Theorem X10_monitor_selects_first_entry (data : list WifiAnalyzer.node_data) :
  PacketIOMonitor._select_highest_traffic_node data = hd_error data
  /\ forall x, PacketIOMonitor.sort_key x = 0.
Proof.
  split; [apply select_highest_is_head | exact sort_key_default].
Qed.

(** X11. A cycle of the monitor that returns a reward rewards the first
    address of the roster with 150 of BTZCY-SYSTEM and sets the timer to the
    clock read after the selection; a cycle that returns nothing or raises
    leaves the monitor as it was. *)
Theorem X11_monitor_rewards_first_address (self : PacketIOMonitor.monitor) (nodes : list pystr)
  (w : PacketIOMonitor.io) :
  match PacketIOMonitor.process_traffic_cycle self nodes w with
  | (Ok (Some rw), self') =>
      hd_error nodes = Some (PacketIOMonitor.winner_address rw)
      /\ PacketIOMonitor.winner_address rw
         = WifiAnalyzer.node_address (PacketIOMonitor.traffic_data rw)
      /\ PacketIOMonitor.reward_amount rw = 150
      /\ PacketIOMonitor.reward_type rw = py "BTZCY-SYSTEM"
      /\ PacketIOMonitor.last_reward_time self' = PacketIOMonitor.win_clock w
  | (_, self') => self' = self
  end.
Proof.
  unfold PacketIOMonitor.process_traffic_cycle.
  destruct (PrimFloat.ltb _ _); [reflexivity |].
  destruct nodes as [| node rest]; [reflexivity |].
  pose proof (aggregate_from_outcome 0 (node :: rest) (PacketIOMonitor.captures w)) as Hagg.
  fold (WifiAnalyzer.aggregate_all_node_traffic (node :: rest) (PacketIOMonitor.captures w))
    in Hagg.
  destruct (WifiAnalyzer.aggregate_all_node_traffic _ _) as [data | e]; [| reflexivity].
  destruct Hagg as (Hmap & _ & _).
  rewrite select_highest_is_head.
  destruct data as [| first others]; [reflexivity |]. cbn [hd_error].
  destruct (PacketIOMonitor._create_ethical_choice_challenge _ _) as [payload | e];
    [| reflexivity].
  cbn [PacketIOMonitor.winner_address PacketIOMonitor.traffic_data PacketIOMonitor.reward_amount
       PacketIOMonitor.reward_type PacketIOMonitor.last_reward_time].
  cbn [map] in Hmap. injection Hmap as -> _. auto.
Qed.
(** ** The data logger *)

Section Dictionaries.
Import PyDict.

Lemma str_eqb_sym (a b : pystr) : str_eqb a b = str_eqb b a.
Proof.
  destruct (str_eqb a b) eqn:E.
  - apply str_eqb_eq in E. subst b. symmetry. apply str_eqb_refl.
  - destruct (str_eqb b a) eqn:E'; [| reflexivity].
    apply str_eqb_eq in E'. subst b. rewrite str_eqb_refl in E. discriminate E.
Qed.

Lemma str_eqb_neq (a b : pystr) : str_eqb a b = false <-> a <> b.
Proof.
  split.
  - intros E H. subst b. rewrite str_eqb_refl in E. discriminate E.
  - intros H. destruct (str_eqb a b) eqn:E; [| reflexivity].
    apply str_eqb_eq in E. contradiction.
Qed.

Lemma get_missing (d : dict) (key : pystr) : ~ In key (keys d) -> get d key = None.
Proof.
  induction d as [| [k v] d IH]; intros H; cbn [get]; [reflexivity |].
  destruct (str_eqb k key) eqn:E.
  - apply str_eqb_eq in E. subst k. contradiction H. left. reflexivity.
  - apply IH. intros Hin. apply H. right. exact Hin.
Qed.

(** Reading after an assignment. *)
Lemma get_set (d : dict) (k : pystr) (v : value) (key : pystr) :
  get (set d k v) key = if str_eqb k key then Some v else get d key.
Proof.
  induction d as [| [k0 v0] d IH]; cbn [set get]; [reflexivity |].
  destruct (str_eqb k0 k) eqn:E0.
  - apply str_eqb_eq in E0. subst k0. cbn [get]. destruct (str_eqb k key); reflexivity.
  - cbn [get]. rewrite IH. destruct (str_eqb k0 key) eqn:E1; [| reflexivity].
    apply str_eqb_eq in E1. subst key. rewrite str_eqb_sym, E0. reflexivity.
Qed.

(** Reading after a removal. *)
Lemma get_pop (d : dict) (k key : pystr) :
  NoDup (keys d) -> get (pop d k) key = if str_eqb k key then None else get d key.
Proof.
  induction d as [| [k0 v0] d IH]; intros Hd; cbn [pop get].
  - destruct (str_eqb k key); reflexivity.
  - inversion Hd as [| ? ? Hk0 Hd']; subst.
    destruct (str_eqb k0 k) eqn:E0.
    + apply str_eqb_eq in E0. subst k0. destruct (str_eqb k key) eqn:E1; [| reflexivity].
      apply str_eqb_eq in E1. subst key. apply get_missing. exact Hk0.
    + cbn [get]. rewrite (IH Hd'). destruct (str_eqb k0 key) eqn:E1; [| reflexivity].
      apply str_eqb_eq in E1. subst key. rewrite str_eqb_sym, E0. reflexivity.
Qed.

Lemma keys_set (d : dict) (k : pystr) (v : value) :
  keys (set d k v) = if existsb (str_eqb k) (keys d) then keys d else keys d ++ [k].
Proof.
  induction d as [| [k0 v0] d IH]; [reflexivity |].
  cbn [set]. change (keys ((k0, v0) :: d)) with (k0 :: keys d). cbn [existsb].
  rewrite (str_eqb_sym k k0). destruct (str_eqb k0 k) eqn:E0; cbn [orb]; [reflexivity |].
  change (keys ((k0, v0) :: set d k v)) with (k0 :: keys (set d k v)). rewrite IH.
  destruct (existsb (str_eqb k) (keys d)); reflexivity.
Qed.

Lemma existsb_str (k : pystr) (l : list pystr) : existsb (str_eqb k) l = true <-> In k l.
Proof.
  rewrite existsb_exists. split.
  - intros (x & Hx & E). apply str_eqb_eq in E. subst x. exact Hx.
  - intros H. exists k. split; [exact H | apply str_eqb_refl].
Qed.

Lemma set_nodup (d : dict) (k : pystr) (v : value) :
  NoDup (keys d) -> NoDup (keys (set d k v)).
Proof.
  intros H. rewrite keys_set. destruct (existsb (str_eqb k) (keys d)) eqn:E; [exact H |].
  apply NoDup_app; [exact H | constructor; [intros [] | constructor] |].
  intros x Hx [<- | []]. apply existsb_str in Hx. rewrite Hx in E. discriminate E.
Qed.

Lemma pop_keys (d : dict) (k key : pystr) : In key (keys (pop d k)) -> In key (keys d).
Proof.
  induction d as [| [k0 v0] d IH]; cbn [pop keys map]; [tauto |].
  destruct (str_eqb k0 k); cbn [map fst]; [intros H; right; exact H |].
  intros [H | H]; [left; exact H | right; apply IH; exact H].
Qed.

Lemma pop_nodup (d : dict) (k : pystr) : NoDup (keys d) -> NoDup (keys (pop d k)).
Proof.
  induction d as [| [k0 v0] d IH]; intros H; cbn [pop]; [constructor |].
  inversion H as [| ? ? Hk0 Hd]; subst.
  destruct (str_eqb k0 k); [exact Hd |]. cbn [keys map fst]. constructor.
  - intros Hin. apply Hk0. eapply pop_keys. exact Hin.
  - apply IH. exact Hd.
Qed.

Lemma pops_nodup (ks : list pystr) (d : dict) :
  NoDup (keys d) -> NoDup (keys (fold_left pop ks d)).
Proof.
  revert d. induction ks as [| k ks IH]; intros d H; cbn [fold_left]; [exact H |].
  apply IH. apply pop_nodup. exact H.
Qed.

Lemma get_pops (ks : list pystr) (d : dict) (key : pystr) :
  NoDup (keys d) ->
  get (fold_left pop ks d) key = if existsb (str_eqb key) ks then None else get d key.
Proof.
  revert d. induction ks as [| k ks IH]; intros d H; cbn [fold_left existsb]; [reflexivity |].
  rewrite (IH _ (@pop_nodup d k H)), (@get_pop d k key H), (str_eqb_sym key k).
  destruct (str_eqb k key), (existsb (str_eqb key) ks); reflexivity.
Qed.

End Dictionaries.

Section Flattening.
Import PyDict DataLoggerOutput Flatten.

(** The branch on the reward chain assigns columns and nothing else. *)
Lemma flatten_reward_frame (block flat : dict) (chain : value) :
  flatten_reward block block chain = Ok flat ->
  NoDup (keys block) ->
  NoDup (keys flat)
  /\ forall key, ~ In key COLUMN_KEYS -> get flat key = get block key.
Proof.
  unfold flatten_reward. intros H Hd.
  assert (Hframe : forall d k v key,
             In k COLUMN_KEYS -> ~ In key COLUMN_KEYS -> get (set d k v) key = get d key).
  { intros d k v key Hk Hkey. rewrite get_set.
    destruct (str_eqb k key) eqn:E; [| reflexivity].
    apply str_eqb_eq in E. subst key. contradiction. }
  destruct (eq_str chain (py "BTZCY-SYSTEM")).
  - destruct (value_get _ _ _) as [traffic | e]; cbn [bind] in H; [| discriminate H].
    destruct (value_get _ (py "challenge_id") _) as [id | e]; cbn [bind] in H; [| discriminate H].
    destruct (value_get _ (py "expiry_timestamp") _) as [expiry | e]; cbn [bind] in H;
      [| discriminate H].
    destruct (value_get _ (py "total_packet_count") _) as [total | e]; cbn [bind] in H;
      [| discriminate H].
    destruct (value_get _ (py "simulated_latency_ms") _) as [latency | e]; cbn [bind] in H;
      [| discriminate H].
    injection H as <-. split; [repeat apply set_nodup; exact Hd |].
    intros key Hkey. rewrite !Hframe; try exact Hkey; try reflexivity; cbn; tauto.
  - destruct (eq_str chain (py "@SNIFFEE-DEBUGEE")); injection H as <-.
    + split; [apply set_nodup; exact Hd |].
      intros key Hkey. rewrite Hframe; try exact Hkey; try reflexivity; cbn; tauto.
    + split; [exact Hd | reflexivity].
Qed.

End Flattening.

(** X12. [_flatten_block_data] returns a dictionary without the four
    nested keys PROOF_DATA, ETHICAL_CHALLENGE, SOFT-ENCRYPTER and SEEDFRAME;
    every other key that is not one of the five columns it writes keeps
    the value it has in the block.  (The keys of a dictionary are
    distinct, and stay so.) *)
Theorem X12_flatten_drops_nested_keys (block flat : PyDict.dict) :
  NoDup (PyDict.keys block) ->
  DataLoggerOutput._flatten_block_data block = inr flat ->
  NoDup (PyDict.keys flat)
  /\ (forall key, In key DataLoggerOutput.NESTED_KEYS -> PyDict.get flat key = None)
  /\ (forall key,
        ~ In key DataLoggerOutput.NESTED_KEYS -> ~ In key Flatten.COLUMN_KEYS ->
        PyDict.get flat key = PyDict.get block key).
Proof.
  intros Hd. unfold DataLoggerOutput._flatten_block_data.
  destruct (PyDict.get block (py "REWARD_CHAIN")) as [chain |]; [| discriminate].
  destruct (DataLoggerOutput.flatten_reward block block chain) as [flat' | e] eqn:E;
    [| discriminate].
  intros H.
  assert (Hflat : flat = fold_left PyDict.pop DataLoggerOutput.NESTED_KEYS flat')
    by (injection H as H; symmetry; exact H).
  subst flat. clear H.
  destruct (@flatten_reward_frame block flat' chain E Hd) as [Hd' Hframe].
  split; [apply pops_nodup; exact Hd' |]. split.
  - intros key Hkey. rewrite (@get_pops _ flat' key Hd').
    apply existsb_str in Hkey. rewrite Hkey. reflexivity.
  - intros key Hnested Hcolumn. rewrite (@get_pops _ flat' key Hd').
    destruct (existsb (str_eqb key) DataLoggerOutput.NESTED_KEYS) eqn:Ex.
    + apply existsb_str in Ex. contradiction.
    + apply Hframe. exact Hcolumn.
Qed.
Lemma distinctb_sound (l : list pystr) : Text.distinctb l = true -> NoDup l.
Proof.
  induction l as [| k l IH]; cbn [Text.distinctb]; intros H; constructor.
  - apply andb_true_iff in H. destruct H as [H _]. intros Hin.
    apply existsb_str in Hin. rewrite Hin in H. discriminate H.
  - apply IH. apply andb_true_iff in H. tauto.
Qed.

Lemma X12_flatten_drops_nested_keys_witness :
  NoDup (PyDict.keys Cases.audit_block)
  /\ DataLoggerOutput._flatten_block_data Cases.audit_block = inr Cases.audit_block_flat
  /\ PyDict.get Cases.audit_block_flat (py "PROOF_DATA") = None
  /\ PyDict.get Cases.audit_block_flat (py "BLOCK_INDEX")
     = PyDict.get Cases.audit_block (py "BLOCK_INDEX").
Proof.
  assert (Hd : NoDup (PyDict.keys Cases.audit_block)) by (apply distinctb_sound; reflexivity).
  assert (Hflat : DataLoggerOutput._flatten_block_data Cases.audit_block
                  = inr Cases.audit_block_flat) by reflexivity.
  destruct (@X12_flatten_drops_nested_keys Cases.audit_block Cases.audit_block_flat Hd Hflat)
    as (_ & Hnested & Hframe).
  split; [exact Hd |]. split; [exact Hflat |]. split.
  - apply Hnested. left. reflexivity.
  - apply Hframe; cbn; intuition discriminate.
Defined.

(** X13. [_flatten_block_data] raises KeyError on a block without the key
    REWARD_CHAIN.  On a block of BTZCY-SYSTEM it returns when what is under
    PROOF_DATA, under [traffic_data] inside it, and under ETHICAL_CHALLENGE
    is a dictionary or missing, and raises AttributeError otherwise; on
    every other block it returns. *)
Theorem X13_flatten_failures (block : PyDict.dict) :
  match PyDict.get block (py "REWARD_CHAIN") with
  | None =>
      DataLoggerOutput._flatten_block_data block = inl (PyDict.KeyError (py "REWARD_CHAIN"))
  | Some chain =>
      if PyDict.eq_str chain (py "BTZCY-SYSTEM") then
        (Flatten.nested_readable block ->
         exists flat, DataLoggerOutput._flatten_block_data block = inr flat)
        /\ (~ Flatten.nested_readable block ->
            DataLoggerOutput._flatten_block_data block
            = inl (PyDict.Raised AttributeError))
      else exists flat, DataLoggerOutput._flatten_block_data block = inr flat
  end.
Proof.
  unfold DataLoggerOutput._flatten_block_data, DataLoggerOutput.flatten_reward,
    Flatten.nested_readable, PyDict.get_default.
  destruct (PyDict.get block (py "REWARD_CHAIN")) as [chain |]; [| reflexivity].
  destruct (PyDict.eq_str chain (py "BTZCY-SYSTEM")).
  - destruct (PyDict.get block (py "PROOF_DATA")) as [[n | x | s | proof_data] |];
      destruct (PyDict.get block (py "ETHICAL_CHALLENGE")) as [[n' | x' | s' | challenge] |];
      cbn [PyDict.value_get bind Flatten.dict_or_missing];
      try (split; [tauto | reflexivity]);
      try (split; [intros _; eexists; reflexivity | tauto]);
      unfold PyDict.get_default;
      destruct (PyDict.get proof_data (py "traffic_data")) as [[n'' | x'' | s'' | traffic] |];
      cbn [PyDict.value_get bind Flatten.dict_or_missing];
      try (split; [tauto | reflexivity]);
      try (split; [intros _; eexists; reflexivity | tauto]).
  - destruct (PyDict.eq_str chain (py "@SNIFFEE-DEBUGEE")); eexists; reflexivity.
Qed.

(** X14. The ledger accepts every block the engine stamps: the flattened
    block has no key outside the header, so the row is written (after the
    header when the file is new) and the ValueError branch of
    [_log_to_csv] is never taken.  The row has the sixteen cells of
    [Flatten.ledger_row]: since a stamped block has neither PROOF_DATA nor
    ETHICAL_CHALLENGE, the BTZ columns of a BTZCY-SYSTEM block hold the
    defaults (empty string, 0, 0 and 0.0), and the SDB_SEEDFRAME column of a
    @SNIFFEE-DEBUGEE block holds the block's SEEDFRAME. *)
Theorem X14_stamped_block_fits_ledger (b : BlockStampingEngine.Block) (write_header : bool) :
  DataLoggerOutput._log_to_csv DataLoggerOutput.init (DataLoggerOutput.block_dict b) write_header
  = inr ((if write_header
          then [map PyDict.VStr (DataLoggerOutput.csv_fieldnames DataLoggerOutput.init)]
          else [])
         ++ [Flatten.ledger_row b])
  /\ length (Flatten.ledger_row b)
     = length (DataLoggerOutput.csv_fieldnames DataLoggerOutput.init).
Proof.
  split; [| reflexivity].
  destruct b as [[index time timestamp previous complexity winner chain amount seedframe
                  transit soft] hard lock].
  unfold DataLoggerOutput._log_to_csv, DataLoggerOutput._flatten_block_data,
    DataLoggerOutput.flatten_reward, Flatten.ledger_row, DataLoggerOutput.block_dict.
  cbn [BlockStampingEngine.fields BlockStampingEngine.items map fst snd app
       DataLoggerOutput.of_json BlockStampingEngine.REWARD_CHAIN].
  change (PyDict.get _ (py "REWARD_CHAIN")) with (Some (PyDict.VStr chain)).
  cbn [PyDict.eq_str].
  generalize (str_eqb chain (py "BTZCY-SYSTEM")) (str_eqb chain (py "@SNIFFEE-DEBUGEE")).
  intros [|] [|]; destruct write_header; vm_compute; reflexivity.
Qed.
(** ** The wallet handler *)

Section Wallet.
Import Text WalletAddressHandler.

Lemma firstn_app_exact (A : Type) (a b : list A) : firstn (length a) (a ++ b) = a.
Proof.
  induction a as [| x a IH]; [reflexivity |].
  cbn [length app firstn]. rewrite IH. reflexivity.
Qed.

(** Whether a string starts with a prefix of five characters is a
    comparison of its first five characters with the prefix. *)
Lemma startswith_five (p q rest : pystr) :
  length p = 5%nat -> length q = 5%nat -> startswith (p ++ rest) q = str_eqb q p.
Proof.
  intros Hp Hq. destruct (str_eqb q p) eqn:E.
  - apply str_eqb_eq in E. subst q. apply startswith_prefix.
  - destruct (startswith (p ++ rest) q) eqn:Es; [| reflexivity].
    apply startswith_firstn in Es. rewrite Hq, <- Hp, firstn_app_exact in Es.
    subst q. rewrite str_eqb_refl in E. discriminate E.
Qed.

Lemma digest_prefix_length (data : list Z) :
  length (slice_to 5 (Hashlib.sha256_hexdigest data)) = 5%nat.
Proof.
  unfold slice_to. rewrite length_firstn.
  rewrite (proj1 (sha256_hexdigest_shape data)). reflexivity.
Qed.

End Wallet.

(** X15. A signature made by [generate_reward_acceptance_signature] has 70
    characters, the first five hexadecimal digits of its hash, an
    underscore and the hash.  For a registered address
    [verify_address_signature] accepts it for a payload exactly when the
    SHA-256 of that payload starts with the same five digits; so it accepts
    it for the string that was signed (acceptance text, hyphen, private
    key), and for the acceptance text alone only if the two hashes happen to
    share their first five digits. *)
Theorem X15_acceptance_signature (challenge_id address private_key payload signature : pystr)
  (payload_bytes : list Z) :
  WalletAddressHandler.registered WalletAddressHandler.init address = true ->
  WalletAddressHandler.generate_reward_acceptance_signature challenge_id address private_key
  = Ok signature ->
  encode_utf8 payload = Ok payload_bytes ->
  length signature = 70%nat
  /\ WalletAddressHandler.verify_address_signature WalletAddressHandler.init address payload
       signature
     = Ok (str_eqb (slice_to 5 (Hashlib.sha256_hexdigest payload_bytes)) (slice_to 5 signature))
  /\ WalletAddressHandler.verify_address_signature WalletAddressHandler.init address
       (WalletAddressHandler.acceptance_payload challenge_id address ++ py "-" ++ private_key)
       signature
     = Ok true.
Proof.
  intros Hreg Hsig Hpayload.
  unfold WalletAddressHandler.generate_reward_acceptance_signature in Hsig.
  destruct (encode_utf8 (WalletAddressHandler.acceptance_payload challenge_id address
                         ++ py "-" ++ private_key)) as [signed_bytes |] eqn:Esigned;
    [| discriminate Hsig].
  assert (Hs : signature = slice_to 5 (Hashlib.sha256_hexdigest signed_bytes) ++ py "_"
                           ++ Hashlib.sha256_hexdigest signed_bytes)
    by (injection Hsig as H; symmetry; exact H).
  subst signature. clear Hsig.
  pose proof (sha256_hexdigest_shape signed_bytes) as [Hlen _].
  pose proof (digest_prefix_length signed_bytes) as Hprefix.
  assert (Hsize : length (slice_to 5 (Hashlib.sha256_hexdigest signed_bytes) ++ py "_"
                          ++ Hashlib.sha256_hexdigest signed_bytes) = 70%nat).
  { rewrite !length_app, Hprefix, Hlen. reflexivity. }
  assert (Hhead : slice_to 5 (slice_to 5 (Hashlib.sha256_hexdigest signed_bytes) ++ py "_"
                              ++ Hashlib.sha256_hexdigest signed_bytes)
                  = slice_to 5 (Hashlib.sha256_hexdigest signed_bytes)).
  { unfold slice_to at 1. rewrite <- Hprefix at 1. apply firstn_app_exact. }
  split; [exact Hsize |].
  unfold WalletAddressHandler.verify_address_signature. rewrite Hreg. cbn [negb].
  rewrite Hpayload, Esigned. cbn [bind]. rewrite Hsize, Hhead.
  rewrite !startswith_five by (try exact Hprefix; apply digest_prefix_length).
  rewrite str_eqb_refl. change (10 <? Z.of_nat 70) with true. rewrite andb_true_r.
  split; reflexivity.
Qed.

(** The demonstration of the module: the signature it generates is not
    accepted for the payload it is checked against, and is accepted for the
    string that was signed. *)
Lemma X15_acceptance_signature_witness :
  WalletAddressHandler.registered WalletAddressHandler.init Demonstration.test_address = true
  /\ WalletAddressHandler.generate_reward_acceptance_signature Demonstration.test_challenge_id
       Demonstration.test_address Demonstration.simulated_private_key
     = Ok Demonstration.acceptance_sig
  /\ WalletAddressHandler.verify_address_signature WalletAddressHandler.init
       Demonstration.test_address Demonstration.payload_to_verify Demonstration.acceptance_sig
     = Ok false
  /\ WalletAddressHandler.verify_address_signature WalletAddressHandler.init
       Demonstration.test_address
       (Demonstration.payload_to_verify ++ py "-" ++ Demonstration.simulated_private_key)
       Demonstration.acceptance_sig
     = Ok true.
Proof.
  assert (Hreg : WalletAddressHandler.registered WalletAddressHandler.init
                   Demonstration.test_address = true) by reflexivity.
  assert (Hsig : WalletAddressHandler.generate_reward_acceptance_signature
                   Demonstration.test_challenge_id Demonstration.test_address
                   Demonstration.simulated_private_key
                 = Ok Demonstration.acceptance_sig) by (vm_compute; reflexivity).
  assert (Hpayload : encode_utf8 Demonstration.payload_to_verify
                     = Ok Demonstration.payload_to_verify) by (vm_compute; reflexivity).
  destruct (X15_acceptance_signature Demonstration.test_challenge_id Demonstration.test_address
              Demonstration.simulated_private_key Demonstration.payload_to_verify
              Hreg Hsig Hpayload) as (_ & Hcheck & Hsigned).
  split; [exact Hreg |]. split; [exact Hsig |]. split; [| exact Hsigned].
  rewrite Hcheck. vm_compute. reflexivity.
Defined.
(** ** The main loop *)

Section LoopFacts.
Import NodeRunner Loop.
Variable R : Type.

Lemma stamps_app (a b : list event) : stamps (a ++ b) = (stamps a + stamps b)%nat.
Proof. unfold stamps. rewrite filter_app, length_app. reflexivity. Qed.

Lemma grown_add (a b : nat) (c : float) : grown (a + b) c = grown b (grown a c).
Proof.
  unfold grown. rewrite Nat.add_comm. apply Nat.iter_add.
Qed.

Lemma effect_refl (s : runner * list event) : effect s s.
Proof. exists []. rewrite app_nil_r. auto. Qed.

Lemma effect_trans (s1 s2 s3 : runner * list event) : effect s1 s2 -> effect s2 s3 -> effect s1 s3.
Proof.
  intros (e1 & Hev1 & Hg1) (e2 & Hev2 & Hg2).
  exists (e1 ++ e2). rewrite Hev2, Hev1, app_assoc, Hg2, Hg1.
  rewrite stamps_app, grown_add. auto.
Qed.

Lemma effect_seq (a b : stmt) :
  (forall s, effect s (snd (a s))) -> (forall s, effect s (snd (b s))) ->
  forall s, effect s (snd (seq a b s)).
Proof.
  intros Ha Hb s. unfold seq. specialize (Ha s).
  destruct (a s) as [[u | e] s1]; cbn [snd] in *; [| exact Ha].
  eapply effect_trans; [exact Ha | apply Hb].
Qed.

Lemma effect_emit (ev : event) (s : runner * list event) :
  is_stamp ev = false -> effect s (snd (emit ev s)).
Proof.
  intros H. exists [ev]. unfold emit, stamps. cbn [snd fst filter]. rewrite H. auto.
Qed.

(** The three statements that follow a successful stamp, taken together. *)
Lemma effect_stamped (c : cycle) (f : runner -> runner) (s : runner * list event) :
  (forall r, current_complexity (f r) = current_complexity r) ->
  effect s (snd (seq (emit (Stamped c)) (seq (modify _update_complexity) (modify f)) s)).
Proof.
  intros Hf. exists [Stamped c]. unfold seq, emit, modify. cbn [fst snd].
  rewrite (Hf (_update_complexity (fst s))).
  split; reflexivity.
Qed.

Lemma effect_reward_cycle (k : collaborators R) (c : cycle) (current_time : float)
  (active_nodes : list pystr) (s : runner * list event) :
  effect s (snd (reward_cycle k c current_time active_nodes s)).
Proof.
  unfold reward_cycle. destruct (due _ _ _); [| apply effect_refl].
  pose proof (@effect_emit (Evaluated c) s eq_refl) as Hev.
  destruct (emit (Evaluated c) s) as [u s1]. cbn [snd] in Hev.
  destruct ((match c with SDB => run_sdb_consensus k | BTZ => run_btz_consensus k end)
              active_nodes) as [[reward_data |] | e]; cbn [snd]; try exact Hev.
  destruct (stamp_new_block k c reward_data _) as [u' | e]; cbn [snd]; [| exact Hev].
  eapply effect_trans; [exact Hev |]. apply effect_stamped.
  intros r. destruct c; reflexivity.
Qed.

Lemma effect_tick (k : collaborators R) (current_time : float) (self : runner) :
  effect (self, []) (tick k current_time self).
Proof.
  unfold tick, body.
  assert (Hcaught : forall s e, effect (self, []) s ->
            effect (self, []) (fst s, snd s ++ [Caught e; Slept 10])).
  { intros s e Hs. eapply effect_trans; [exact Hs |].
    exists [Caught e; Slept 10]. cbn [fst snd]. auto. }
  destruct (get_all_active_addresses k) as [active_nodes | e];
    [| apply Hcaught; apply effect_refl].
  pose proof (@effect_seq (reward_cycle k SDB current_time active_nodes)
                (seq (reward_cycle k BTZ current_time active_nodes) (emit (Slept 1)))
                (fun s => effect_reward_cycle k SDB current_time active_nodes s)
                (@effect_seq _ _ (fun s => effect_reward_cycle k BTZ current_time active_nodes s)
                   (fun s => @effect_emit (Slept 1) s eq_refl))
                (self, [])) as H.
  destruct (seq _ _ (self, [])) as [[u | e] s]; cbn [snd] in H; [exact H |].
  apply Hcaught. exact H.
Qed.

(** Any number of iterations: the counter has grown once per block stamped
    in them. *)
Lemma iterations_grown (inputs : list (float * collaborators R)) (self : runner) :
  current_complexity (fst (iterations inputs self))
  = grown (stamps (concat (snd (iterations inputs self)))) (current_complexity self).
Proof.
  revert self. induction inputs as [| [current_time k] rest IH]; intros self;
    cbn [iterations]; [reflexivity |].
  pose proof (effect_tick k current_time self) as (evs & Hev & Hgrown).
  destruct (tick k current_time self) as [self1 events]. cbn [fst snd] in *.
  specialize (IH self1). destruct (iterations rest self1) as [self2 later].
  cbn [fst snd concat] in *. rewrite IH. subst events.
  rewrite stamps_app, grown_add, Hgrown. reflexivity.
Qed.

(** The genesis block leaves the counter alone, whether it is stamped or
    not. *)
Lemma genesis_keeps_counter (g : genesis_calls) (self : runner) :
  current_complexity (snd (_create_genesis_block g self)) = current_complexity self.
Proof.
  unfold _create_genesis_block.
  destruct (stamp_genesis_block g) as [genesis_block | e]; [| reflexivity].
  destruct (log_block g genesis_block _) as [u | e]; reflexivity.
Qed.

End LoopFacts.

(** X16. Through [run_node] the runner's own difficulty grows by the
    increment once per block that the loop stamps, and not otherwise:
    whatever the genesis calls, the consensus calls and the stamping calls
    return or raise, after any number of iterations [current_complexity]
    is its value at the start with the increment added once for every
    stamp that returned.  The genesis block, an evaluation without winner
    and a call that raises leave it alone. *)
Theorem X16_counter_grows_once_per_stamp (R : Type) (g : NodeRunner.genesis_calls)
  (inputs : list (float * NodeRunner.collaborators R)) (self : NodeRunner.runner) :
  NodeRunner.current_complexity (fst (snd (NodeRunner.run_node g inputs self)))
  = Loop.grown (Loop.stamps (concat (snd (snd (NodeRunner.run_node g inputs self)))))
      (NodeRunner.current_complexity self).
Proof.
  unfold NodeRunner.run_node.
  assert (Hloop : forall self1,
            NodeRunner.current_complexity self1 = NodeRunner.current_complexity self ->
            NodeRunner.current_complexity (fst (NodeRunner.iterations inputs self1))
            = Loop.grown (Loop.stamps (concat (snd (NodeRunner.iterations inputs self1))))
                (NodeRunner.current_complexity self)).
  { intros self1 <-. apply iterations_grown. }
  destruct (NodeRunner.blockchain self) as [| first rest].
  - pose proof (genesis_keeps_counter g self) as Hgen.
    destruct (NodeRunner._create_genesis_block g self) as [[u | e] self1]; cbn [fst snd] in *.
    + apply Hloop. exact Hgen.
    + exact Hgen.
  - cbn [fst snd]. apply Hloop. reflexivity.
Qed.



(** ** The seed generator *)

Section SeedFrames.
Import Text FavoriteSeedGenerator.

Lemma favorite_in_table (d : draw) : In (_select_random_favorite d) FAVORITE_ALGORITHM_FACTORS.
Proof.
  unfold _select_random_favorite. apply nth_In. apply Nat.mod_upper_bound. discriminate.
Qed.

Lemma favorite_low (favorite : pystr * float) :
  In favorite FAVORITE_ALGORITHM_FACTORS -> low (fst favorite).
Proof.
  intros [<- | [<- | [<- | [<- | []]]]]; apply lowb_sound; reflexivity.
Qed.

Lemma complex_seed_returns (favorite : pystr * float) (d : draw) :
  low (fst favorite) ->
  exists seed, _generate_complex_seed favorite d = Ok seed /\ lower_hex 64 seed.
Proof.
  intros Hlow. unfold _generate_complex_seed. destruct favorite as [favorite_key factor].
  cbn [fst] in Hlow. rewrite encode_utf8_low.
  - cbn [bind]. eexists. split; [reflexivity |]. unfold TARGET_SEED_LENGTH.
    eapply slice_lower_hex; [apply sha512_hexdigest_shape |]. repeat constructor.
  - repeat (apply low_app; split);
      first [exact Hlow | apply repr_low | apply str_of_int_low | apply lowb_sound; reflexivity].
Qed.

Lemma int_of_float_raises (x : float) (e : exn) :
  PyFloat.int_of_float x = Raise e -> e = ValueError \/ e = OverflowError.
Proof.
  unfold PyFloat.int_of_float. destruct (Prim2SF x); intros H; try discriminate H;
    injection H as <-; auto.
Qed.

End SeedFrames.

(** X18. A seed frame is generated exactly when the two clock readings it
    converts to integers are finite numbers; a reading that is not makes the
    call raise ValueError or OverflowError.  In a generated frame the
    favorite algorithm and its factor are a row of the table, the target
    seed and the lock signature are 64 hexadecimal digits and the frame
    identifier is 16. *)
Theorem X18_seed_frame_outcome (d : FavoriteSeedGenerator.draw) :
  match FavoriteSeedGenerator._generate_new_seed_frame d with
  | Ok frame =>
      In (FavoriteSeedGenerator.favorite_algorithm frame,
          FavoriteSeedGenerator.complexity_factor frame)
         FavoriteSeedGenerator.FAVORITE_ALGORITHM_FACTORS
      /\ Text.lower_hex 64 (FavoriteSeedGenerator.target_seed_transaction frame)
      /\ Text.lower_hex 16 (FavoriteSeedGenerator.seed_frame_id frame)
      /\ Text.lower_hex 64 (FavoriteSeedGenerator.constellation_lock_signature frame)
      /\ returns (PyFloat.int_of_float (FavoriteSeedGenerator.stamp_clock d))
      /\ returns (PyFloat.int_of_float
                    (PrimFloat.div (FavoriteSeedGenerator.lock_clock d) 3600%float))
  | Raise e =>
      (e = ValueError \/ e = OverflowError)
      /\ ~ (returns (PyFloat.int_of_float (FavoriteSeedGenerator.stamp_clock d))
            /\ returns (PyFloat.int_of_float
                          (PrimFloat.div (FavoriteSeedGenerator.lock_clock d) 3600%float)))
  end.
Proof.
  unfold FavoriteSeedGenerator._generate_new_seed_frame,
    FavoriteSeedGenerator._generate_constellation_lock_key.
  pose proof (favorite_in_table d) as Hin.
  destruct (@complex_seed_returns (FavoriteSeedGenerator._select_random_favorite d) d
              (@favorite_low _ Hin)) as (seed & -> & Hseed).
  cbn [bind].
  destruct (PyFloat.int_of_float (FavoriteSeedGenerator.stamp_clock d)) as [stamp | e] eqn:Es;
    cbn [bind].
  - rewrite (@encode_utf8_low seed (@lower_hex_low _ _ Hseed)). cbn [bind].
    destruct (PyFloat.int_of_float (PrimFloat.div _ _)) as [hours | e] eqn:Eh; cbn [bind].
    + rewrite encode_utf8_low.
      * cbn [bind FavoriteSeedGenerator.favorite_algorithm
             FavoriteSeedGenerator.complexity_factor
             FavoriteSeedGenerator.target_seed_transaction FavoriteSeedGenerator.seed_frame_id
             FavoriteSeedGenerator.constellation_lock_signature].
        rewrite <- surjective_pairing.
        split; [exact Hin |]. split; [exact Hseed |].
        split; [eapply slice_lower_hex; [apply sha256_hexdigest_shape | repeat constructor] |].
        split; [apply sha256_hexdigest_shape |]. split; apply returns_ok.
      * apply low_app. split; [exact (@lower_hex_low _ _ Hseed) |].
        apply low_app. split; [apply lowb_sound; reflexivity | apply str_of_int_low].
    + split; [exact (@int_of_float_raises _ _ Eh) |]. intros [_ H]. contradiction (returns_raise H).
  - split; [exact (@int_of_float_raises _ _ Es) |]. intros [H _]. contradiction (returns_raise H).
Qed.

(** ** Verification of a roster *)

Section Bulk.
Import PingNmapVerifier BulkVerification.

Lemma verify_returns (fuel : nat) (self : verifier) (node_address : pystr) (p : probe) :
  (ProofOfWork.MAX_ATTEMPTS <= fuel)%nat ->
  exists r,
    verify_node_integrity fuel self node_address (probe_ping p) (probe_nmap p) (probe_clock p)
    = Some r
    /\ match r with
       | Ok x =>
           address x = node_address /\ is_verified x = Verification.verdict p
           /\ report_difficulty_target x = difficulty_target self
       | Raise e => e = UnicodeEncodeError \/ e = ValueError \/ e = OverflowError
       end.
Proof.
  intros Hfuel. unfold verify_node_integrity, _generate_proof_of_verification_work.
  match goal with
  | |- context [search fuel self ?raw 0] =>
      destruct (@search_returns self raw fuel 0) as (r & -> & _ & Hout);
        [unfold NONCE_CUTOFF; lia | unfold ProofOfWork.MAX_ATTEMPTS in Hfuel; lia |]
  end.
  eexists. split; [reflexivity |].
  destruct r as [proof | e]; cbn [bind].
  - destruct (PyFloat.int_of_float (probe_clock p)) as [stamp | e] eqn:Ec; cbn [bind].
    + cbn [address is_verified report_difficulty_target]. auto.
    + right. exact (@int_of_float_raises _ _ Ec).
  - left. cbn [ProofOfWork.outcome] in Hout. destruct Hout as (nonce & _ & Hhash & _).
    unfold ProofOfWork.attempt_hash, SecurityHasher.sha256_hash in Hhash.
    destruct (encode_utf8 _) as [bytes | e'] eqn:Eenc; [discriminate Hhash |].
    cbn [bind] in Hhash. injection Hhash as <-. exact (proj1 (@encode_utf8_raises _ _ Eenc)).
Qed.

Lemma bulk_from_outcome (fuel : nat) (self : verifier) (i : nat) (nodes : list pystr)
  (probes : nat -> probe) :
  (ProofOfWork.MAX_ATTEMPTS <= fuel)%nat ->
  exists r,
    bulk_from fuel self i nodes probes = Some r
    /\ match r with
       | Ok reports =>
           map address reports = nodes
           /\ forall j x, nth_error reports j = Some x ->
                is_verified x = Verification.verdict (probes (i + j)%nat)
                /\ report_difficulty_target x = difficulty_target self
       | Raise e => e = UnicodeEncodeError \/ e = ValueError \/ e = OverflowError
       end.
Proof.
  intros Hfuel. revert i. induction nodes as [| node rest IH]; intros i; cbn [bulk_from].
  - eexists. split; [reflexivity |]. split; [reflexivity |]. intros [| j] x H; discriminate H.
  - destruct (@verify_returns fuel self node (probes i) Hfuel) as (r & -> & Hr).
    destruct r as [x | e]; [| eexists; split; [reflexivity | exact Hr]].
    destruct (IH (S i)) as (rs & -> & Hrs).
    destruct rs as [reports | e]; [| eexists; split; [reflexivity | exact Hrs]].
    eexists. split; [reflexivity |].
    destruct Hr as (Haddr & Hver & Htarget). destruct Hrs as (Hmap & Hnth).
    split; [cbn [map]; rewrite Haddr, Hmap; reflexivity |].
    intros [| j] y Hy; cbn [nth_error] in Hy.
    + injection Hy as <-. rewrite Nat.add_0_r. auto.
    + rewrite Nat.add_succ_r. apply (Hnth j y Hy).
Qed.

(** Looking a node up among reports that cover it finds a report of that
    node. *)
Lemma report_for_covered (reports : list report) (node : pystr) :
  In node (map address reports) ->
  exists x, BTZRewardLogic.report_for reports node = Some x /\ address x = node.
Proof.
  unfold BTZRewardLogic.report_for.
  induction reports as [| r rest IH]; cbn [map find]; intros H; [contradiction H |].
  destruct (str_eqb (address r) node) eqn:E.
  - exists r. split; [reflexivity | apply str_eqb_eq; exact E].
  - destruct H as [H | H]; [subst node; rewrite str_eqb_refl in E; discriminate E |].
    apply IH. exact H.
Qed.

End Bulk.

(** X19. With fuel for the proof-of-work searches, [bulk_verify_nodes]
    returns.  When no verification raises, there is one report per address,
    in the order of the addresses; the report at position [j] is marked
    verified exactly when the [j]-th probe pinged successfully and found the
    service running -- whatever the proof-of-work search gave -- and the
    lookup of cycle B finds a report for every address of the roster.  What
    a verification can raise is UnicodeEncodeError (an address with a
    surrogate) and the ValueError or OverflowError of a clock that is not a
    finite number. *)
Theorem X19_bulk_reports_follow_roster (fuel : nat) (self : PingNmapVerifier.verifier)
  (nodes : list pystr) (probes : nat -> BulkVerification.probe) :
  (ProofOfWork.MAX_ATTEMPTS <= fuel)%nat ->
  exists r,
    BulkVerification.bulk_verify_nodes fuel self nodes probes = Some r
    /\ match r with
       | Ok reports =>
           map PingNmapVerifier.address reports = nodes
           /\ (forall j x, nth_error reports j = Some x ->
                 PingNmapVerifier.is_verified x = Verification.verdict (probes j)
                 /\ PingNmapVerifier.report_difficulty_target x
                    = PingNmapVerifier.difficulty_target self)
           /\ (forall node, In node nodes ->
                 exists x, BTZRewardLogic.report_for reports node = Some x
                           /\ PingNmapVerifier.address x = node)
       | Raise e => e = UnicodeEncodeError \/ e = ValueError \/ e = OverflowError
       end.
Proof.
  intros Hfuel. unfold BulkVerification.bulk_verify_nodes.
  destruct (@bulk_from_outcome fuel self 0 nodes probes Hfuel) as (r & Hr & Hout).
  exists r. split; [exact Hr |]. destruct r as [reports | e]; [| exact Hout].
  destruct Hout as (Hmap & Hnth). split; [exact Hmap |]. split; [exact Hnth |].
  intros node Hin. apply report_for_covered. rewrite Hmap. exact Hin.
Qed.

(** The roster of the scenario, probed as in its two reports. *)
Lemma X19_bulk_reports_follow_roster_witness :
  (ProofOfWork.MAX_ATTEMPTS <= ProofOfWork.MAX_ATTEMPTS)%nat
  /\ exists r,
       BulkVerification.bulk_verify_nodes ProofOfWork.MAX_ATTEMPTS PingNmapVerifier.init
         Scenario.roster Verification.probes = Some r.
Proof.
  split; [apply le_n |].
  destruct (X19_bulk_reports_follow_roster PingNmapVerifier.init Scenario.roster
              Verification.probes (le_n ProofOfWork.MAX_ATTEMPTS)) as (r & Hr & _).
  exists r. exact Hr.
Defined.
(** ** Cycle B: the challenge and the run as shipped *)

(** X20. [_create_ethical_choice_challenge] returns a challenge exactly
    when the winner's address has no surrogate character and the clock read
    for the expiry is a finite number.  The identifier is then 64
    hexadecimal digits, the expiry is 300 seconds after that clock reading
    cut to whole seconds, the status is PENDING_ACCEPTANCE and the proof
    text is the tag ETHICAL_CONSENT_0x followed by the random bits in
    hexadecimal. *)
Theorem X20_challenge_outcome (winner_address : pystr) (packet_count : Z)
  (d : BTZRewardLogic.challenge_draw) :
  match BTZRewardLogic._create_ethical_choice_challenge winner_address packet_count d with
  | Ok c =>
      Text.encodable winner_address
      /\ Text.lower_hex 64 (BTZRewardLogic.challenge_id c)
      /\ PyFloat.int_of_float (BTZRewardLogic.expiry_clock d)
         = Ok (BTZRewardLogic.expiry_timestamp c - 300)
      /\ BTZRewardLogic.reward_status c = py "PENDING_ACCEPTANCE"
      /\ BTZRewardLogic.ethical_proof_hash c
         = py "ETHICAL_CONSENT_0x" ++ hex_upper (BTZRewardLogic.consent_bits d)
  | Raise e =>
      (e = UnicodeEncodeError /\ ~ Text.encodable winner_address)
      \/ ((e = ValueError \/ e = OverflowError)
          /\ ~ returns (PyFloat.int_of_float (BTZRewardLogic.expiry_clock d)))
  end.
Proof.
  unfold BTZRewardLogic._create_ethical_choice_challenge.
  match goal with
  | |- context [encode_utf8 (winner_address ++ ?tail)] =>
      assert (Htail : Text.low tail)
        by (repeat (apply low_app; split);
            first [apply str_of_int_low | apply repr_low | apply lowb_sound; reflexivity]);
      destruct (encode_utf8 (winner_address ++ tail)) as [bytes | e] eqn:E
  end; cbn [bind].
  - assert (Haddr : Text.encodable winner_address).
    { assert (H : returns (encode_utf8 (winner_address ++ py "-" ++ str_of_int packet_count
                                          ++ py "-" ++ PyFloat.repr (BTZRewardLogic.id_clock d))))
        by (exists bytes; exact E).
      apply encode_utf8_returns, encodable_app in H. tauto. }
    destruct (PyFloat.int_of_float (BTZRewardLogic.expiry_clock d)) as [now | e] eqn:Ec;
      cbn [bind].
    + cbn [BTZRewardLogic.challenge_id BTZRewardLogic.expiry_timestamp
           BTZRewardLogic.reward_status BTZRewardLogic.ethical_proof_hash].
      split; [exact Haddr |]. split; [apply sha256_hexdigest_shape |].
      split; [f_equal; unfold BTZRewardLogic.BTZ_CYCLE_TIME_SECONDS; lia |].
      split; reflexivity.
    + right. split; [exact (@int_of_float_raises _ _ Ec) | apply returns_raise].
  - left. apply encode_utf8_raises in E. destruct E as [-> Hno]. split; [reflexivity |].
    intros H. apply Hno. apply encodable_app. split; [exact H | apply low_encodable, Htail].
Qed.

(** X21. As the file has it, a run of cycle B never returns a reward and
    never moves its timer, whatever the roster, the traffic and the
    verification reports are: it returns None before the interval has
    elapsed or on an empty roster, and otherwise raises -- AttributeError
    when every address can be encoded, since the method it calls at step 3
    does not exist. *)
Theorem X21_shipped_cycle_b_rewards_nobody (self : BTZRewardLogic.logic) (nodes : list pystr)
  (w : BTZRewardLogic.io) :
  snd (BTZRewardLogic.run_btz_consensus self nodes w) = self
  /\ is_winner (fst (BTZRewardLogic.run_btz_consensus self nodes w)) = false
  /\ (fst (BTZRewardLogic.run_btz_consensus self nodes w) = Ok None
      <-> PrimFloat.ltb (PrimFloat.sub (BTZRewardLogic.gate_clock w)
                           (BTZRewardLogic.last_reward_time self))
            (PyFloat.of_int BTZRewardLogic.BTZ_CYCLE_TIME_SECONDS) = true
          \/ nodes = [])
  /\ (Forall Text.encodable nodes ->
      fst (BTZRewardLogic.run_btz_consensus self nodes w) = Ok None
      \/ fst (BTZRewardLogic.run_btz_consensus self nodes w) = Raise AttributeError).
Proof.
  unfold BTZRewardLogic.run_btz_consensus, BTZRewardLogic.run_btz_consensus_calling.
  destruct (PrimFloat.ltb _ _).
  - cbn [fst snd is_winner]. repeat split; auto.
  - destruct nodes as [| node rest].
    + cbn [fst snd is_winner]. repeat split; auto.
    + pose proof (aggregate_from_outcome 0 (node :: rest) (BTZRewardLogic.captures w)) as Hagg.
      fold (WifiAnalyzer.aggregate_all_node_traffic (node :: rest) (BTZRewardLogic.captures w))
        in Hagg.
      destruct (WifiAnalyzer.aggregate_all_node_traffic _ _) as [data | e];
        cbn [BTZRewardLogic.getattr fst snd is_winner].
      * repeat split; try discriminate; auto. intros [H | H]; discriminate H.
      * repeat split; try discriminate.
        -- intros [H | H]; discriminate H.
        -- intros Hall. destruct Hagg as [_ Hex]. apply Exists_exists in Hex.
           destruct Hex as (a & Hin & Hno). rewrite Forall_forall in Hall.
           contradiction (Hno (Hall a Hin)).
Qed.

(** ** Stamping: the arguments and the difficulty *)

(** The first stamp of the scenario returns a block. *)
Lemma scenario_first_stamp :
  exists b g',
    BlockStampingEngine.stamp_new_block (BlockStampingEngine.init [] 0.1%float)
      Scenario.sdb_args Scenario.first_clock Scenario.hasher_clock_1 Scenario.generator_0
    = (Ok b, g').
Proof.
  destruct (BlockStampingEngine.stamp_new_block (BlockStampingEngine.init [] 0.1%float)
              Scenario.sdb_args Scenario.first_clock Scenario.hasher_clock_1 Scenario.generator_0)
    as [[b | e] g'] eqn:E; [| vm_compute in E; discriminate E].
  exists b, g'. reflexivity.
Qed.

(** X22. A block stamped after [update_complexity(c)] records [c] as its
    COMPLEXITY_LEVEL and is locked at [c], and it continues the same chain:
    its index and its PREVIOUS_HASH are what a stamp before the update would
    have given. *)
Theorem X22_update_then_stamp (self : BlockStampingEngine.engine) (c : float)
  (a : BlockStampingEngine.stamp_args) (now : BlockStampingEngine.clock_reading)
  (t : SecurityHasher.time_binding) (g g' : Random.state) (b : BlockStampingEngine.Block) :
  BlockStampingEngine.stamp_new_block (BlockStampingEngine.update_complexity self c) a now t g
  = (Ok b, g') ->
  BlockStampingEngine.COMPLEXITY_LEVEL (BlockStampingEngine.fields b) = c
  /\ BlockStampingEngine.BLOCK_INDEX (BlockStampingEngine.fields b)
     = BlockStampingEngine.last_BLOCK_INDEX (BlockStampingEngine._get_last_block self) + 1
  /\ BlockStampingEngine.PREVIOUS_HASH (BlockStampingEngine.fields b)
     = BlockStampingEngine.last_HARDCOVER_CRYPTION (BlockStampingEngine._get_last_block self)
  /\ SecurityHasher.constellation_lock_key (BlockStampingEngine.HARDCOVER_CRYPTION b) c
       (BlockStampingEngine.reward_type a) t g
     = (Ok (BlockStampingEngine.CONSTELLATION_SECURITY b), g').
Proof.
  intros H. apply stamp_new_block_inv in H. destruct H as (Hprep & _ & Hlock).
  apply prepare_block_data_inv in Hprep. destruct Hprep as (Hindex & Hprev & Hlevel & _).
  rewrite Hindex, Hprev, Hlevel. auto.
Qed.

Lemma X22_update_then_stamp_witness :
  exists b g',
    BlockStampingEngine.stamp_new_block
      (BlockStampingEngine.update_complexity (BlockStampingEngine.init [] 0.5%float) 0.1%float)
      Scenario.sdb_args Scenario.first_clock Scenario.hasher_clock_1 Scenario.generator_0
    = (Ok b, g')
    /\ BlockStampingEngine.COMPLEXITY_LEVEL (BlockStampingEngine.fields b) = 0.1%float
    /\ BlockStampingEngine.BLOCK_INDEX (BlockStampingEngine.fields b) = 1.
Proof.
  destruct scenario_first_stamp as (b & g' & E). exists b, g'.
  change (BlockStampingEngine.init [] 0.1%float)
    with (BlockStampingEngine.update_complexity (BlockStampingEngine.init [] 0.5%float) 0.1%float)
    in E.
  split; [exact E |].
  destruct (X22_update_then_stamp _ _ _ _ _ _ E) as (Hlevel & Hindex & _).
  split; [exact Hlevel | exact Hindex].
Defined.

(** X23. A stamped block records the arguments of the call and the one
    clock reading of [_prepare_block_data], and the argument [is_genesis]
    is ignored: the same call with the other value of the flag returns the
    same block and leaves the random generator in the same state. *)
Theorem X23_block_records_call (self : BlockStampingEngine.engine)
  (a : BlockStampingEngine.stamp_args) (now : BlockStampingEngine.clock_reading)
  (t : SecurityHasher.time_binding) (g g' : Random.state) (b : BlockStampingEngine.Block) :
  BlockStampingEngine.stamp_new_block self a now t g = (Ok b, g') ->
  (forall flag,
     BlockStampingEngine.stamp_new_block self (StampArgs.with_is_genesis a flag) now t g
     = (Ok b, g'))
  /\ BlockStampingEngine.WINNERS_ADDRESSES (BlockStampingEngine.fields b)
     = BlockStampingEngine.miner_address a
  /\ BlockStampingEngine.REWARD_CHAIN (BlockStampingEngine.fields b)
     = BlockStampingEngine.reward_type a
  /\ BlockStampingEngine.REWARD_AMOUNT (BlockStampingEngine.fields b)
     = BlockStampingEngine.reward_amount a
  /\ BlockStampingEngine.BINARY_TRANSIT_NO (BlockStampingEngine.fields b)
     = BlockStampingEngine.binary_transit_no a
  /\ BlockStampingEngine.SEEDFRAME (BlockStampingEngine.fields b)
     = BlockStampingEngine.seedframe a
  /\ BlockStampingEngine.TIMESTAMP (BlockStampingEngine.fields b)
     = BlockStampingEngine.seconds now
  /\ BlockStampingEngine.TIME (BlockStampingEngine.fields b)
     = BlockStampingEngine.ctime now.
Proof.
  intros H. split; [intros flag; exact H |].
  apply stamp_new_block_inv in H. destruct H as (Hprep & _).
  unfold BlockStampingEngine._prepare_block_data in Hprep.
  destruct (SecurityHasher.soft_encrypt _) as [soft | e]; cbn [bind] in Hprep;
    [| discriminate Hprep].
  injection Hprep as <-. cbn. auto 10.
Qed.

Lemma X23_block_records_call_witness :
  exists b g',
    BlockStampingEngine.stamp_new_block (BlockStampingEngine.init [] 0.1%float)
      (StampArgs.with_is_genesis Scenario.sdb_args true) Scenario.first_clock
      Scenario.hasher_clock_1 Scenario.generator_0
    = (Ok b, g')
    /\ BlockStampingEngine.WINNERS_ADDRESSES (BlockStampingEngine.fields b) = Scenario.SNIF_NODE.
Proof.
  destruct scenario_first_stamp as (b & g' & E). exists b, g'.
  destruct (X23_block_records_call _ _ _ _ _ E) as (Hflag & Hwinner & _).
  split; [apply Hflag | exact Hwinner].
Defined.

(** ** The soft encryption layer, character by character *)

Section SoftEncryption.
Import Text.

Lemma lxor_key_changes (c : Z) : Z.lxor c SecurityHasher.soft_encrypt_key <> c.
Proof.
  intros H. apply (f_equal (fun x => Z.lxor c x)) in H.
  rewrite <- Z.lxor_assoc, Z.lxor_nilpotent, Z.lxor_0_l in H. discriminate H.
Qed.

Lemma lxor_key_low (c : Z) : 0 <= c < 128 -> 0 <= Z.lxor c SecurityHasher.soft_encrypt_key < 128.
Proof.
  intros Hc. unfold SecurityHasher.soft_encrypt_key.
  assert (Hnonneg : 0 <= Z.lxor c 42) by (apply Z.lxor_nonneg; lia).
  split; [exact Hnonneg |].
  destruct (Z.eq_dec (Z.lxor c 42) 0) as [-> | Hne]; [lia |].
  change 128 with (2 ^ 7). apply (proj2 (Z.log2_lt_pow2 (Z.lxor c 42) 7 ltac:(lia))).
  eapply Z.le_lt_trans; [apply Z.log2_lxor; lia |].
  apply Z.max_lub_lt; [| reflexivity].
  destruct (Z.eq_dec c 0) as [-> | Hc0]; [reflexivity |].
  apply (proj1 (Z.log2_lt_pow2 c 7 ltac:(lia))). change (2 ^ 7) with 128. lia.
Qed.

Lemma asciib_sound (s : pystr) :
  forallb (fun c => (0 <=? c) && (c <? 128)) s = true -> Forall (fun c => 0 <= c < 128) s.
Proof.
  intros H. apply Forall_forall. intros c Hc. rewrite forallb_forall in H.
  specialize (H c Hc). apply andb_true_iff in H. destruct H as [Hlo Hhi].
  apply Z.leb_le in Hlo. apply Z.ltb_lt in Hhi. lia.
Qed.

End SoftEncryption.

(** X25. The soft encryption works character by character: the result
    has the length of the input, its character at each position is the
    input's XOR 42 and differs from it, and a string of ASCII characters
    encrypts to a string of ASCII characters. *)
Theorem X25_soft_encrypt_per_character (s e : pystr) :
  SecurityHasher.soft_encrypt s = Ok e ->
  length e = length s
  /\ Forall2 (fun c c' => c' = Z.lxor c 42 /\ c' <> c) s e
  /\ (Forall (fun c => 0 <= c < 128) s -> Forall (fun c => 0 <= c < 128) e).
Proof.
  unfold SecurityHasher.soft_encrypt. intros H. apply mapM_ok_inv in H.
  induction H as [| c c' s e Hc Hrest (IHlen & IHxor & IHlow)].
  - split; [reflexivity |]. split; [constructor |]. intros _. constructor.
  - apply chr_inv in Hc. destruct Hc as [-> _]. unfold ord.
    split; [cbn [length]; rewrite IHlen; reflexivity |].
    split; [constructor; [split; [reflexivity | apply lxor_key_changes] | exact IHxor] |].
    intros Hlow. inversion Hlow as [| ? ? Hc Hs]; subst.
    constructor; [apply lxor_key_low; exact Hc | apply IHlow; exact Hs].
Qed.

Lemma X25_soft_encrypt_per_character_witness :
  exists e,
    SecurityHasher.soft_encrypt (py "BTZCY-SYSTEM") = Ok e
    /\ length e = 12%nat
    /\ Forall (fun c => 0 <= c < 128) e.
Proof.
  exists (py "h~pis" ++ [7] ++ py "ysy~og").
  assert (H : SecurityHasher.soft_encrypt (py "BTZCY-SYSTEM")
              = Ok (py "h~pis" ++ [7] ++ py "ysy~og")) by reflexivity.
  destruct (X25_soft_encrypt_per_character _ H) as (Hlen & _ & Hlow).
  split; [exact H |]. split; [exact Hlen |].
  apply Hlow. apply asciib_sound. reflexivity.
Defined.
(** ** The wallet handler: what is rejected *)

(** X26. [verify_address_signature] answers False for an address that is
    not registered, without looking at the payload (so without the
    UnicodeEncodeError a payload with a surrogate character raises for a
    registered address), and for a signature of ten characters or fewer
    whatever it starts with. *)
Theorem X26_verify_rejects (self : WalletAddressHandler.handler)
  (address payload signature : pystr) :
  (WalletAddressHandler.registered self address = false ->
   WalletAddressHandler.verify_address_signature self address payload signature = Ok false)
  /\ (WalletAddressHandler.registered self address = true ->
      ~ Text.encodable payload ->
      WalletAddressHandler.verify_address_signature self address payload signature
      = Raise UnicodeEncodeError)
  /\ (WalletAddressHandler.registered self address = true ->
      Text.encodable payload ->
      (length signature <= 10)%nat ->
      WalletAddressHandler.verify_address_signature self address payload signature = Ok false).
Proof.
  unfold WalletAddressHandler.verify_address_signature.
  split; [intros ->; reflexivity |]. split.
  - intros -> Hno. cbn [negb].
    destruct (encode_utf8 payload) as [bytes | e] eqn:E; cbn [bind].
    + contradiction Hno. apply encode_utf8_returns. exists bytes. exact E.
    + apply encode_utf8_raises in E. destruct E as [-> _]. reflexivity.
  - intros -> Henc Hlen. cbn [negb]. apply encode_utf8_returns in Henc.
    destruct Henc as [bytes ->]. cbn [bind].
    destruct (Z.ltb_spec 10 (Z.of_nat (length signature))) as [Hlt | _]; [lia |].
    rewrite andb_false_r. reflexivity.
Qed.

(** ** The timers of the runner *)

Section TimerFacts.
Import NodeRunner Timers.
Variable R : Type.
Variable current_time : float.

Lemma stamped_app (c : cycle) (a b : list event) :
  stamped c (a ++ b) = stamped c a || stamped c b.
Proof. unfold stamped. apply existsb_app. Qed.

Lemma timers_refl (s : runner * list event) : effect current_time s s.
Proof. exists []. rewrite app_nil_r. auto. Qed.

Lemma timers_trans (s1 s2 s3 : runner * list event) :
  effect current_time s1 s2 -> effect current_time s2 s3 -> effect current_time s1 s3.
Proof.
  intros (e1 & Hev1 & Hs1 & Hb1) (e2 & Hev2 & Hs2 & Hb2).
  exists (e1 ++ e2). rewrite Hev2, Hev1, app_assoc, Hs2, Hs1, Hb2, Hb1, !stamped_app.
  split; [reflexivity |].
  destruct (stamped SDB e1), (stamped SDB e2), (stamped BTZ e1), (stamped BTZ e2); auto.
Qed.

Lemma timers_events (s : runner * list event) (evs : list event) :
  stamped SDB evs = false -> stamped BTZ evs = false ->
  effect current_time s (fst s, snd s ++ evs).
Proof. intros Hs Hb. exists evs. cbn [fst snd]. rewrite Hs, Hb. auto. Qed.

Lemma timers_reward_cycle (k : collaborators R) (c : cycle) (active_nodes : list pystr)
  (s : runner * list event) :
  effect current_time s (snd (reward_cycle k c current_time active_nodes s)).
Proof.
  unfold reward_cycle. destruct (due _ _ _); [| apply timers_refl].
  unfold emit. cbn [fst snd].
  destruct ((match c with SDB => run_sdb_consensus k | BTZ => run_btz_consensus k end)
              active_nodes) as [[reward_data |] | e]; cbn [snd];
    try (apply timers_events; reflexivity).
  destruct (stamp_new_block k c reward_data _) as [u' | e]; cbn [snd];
    [| apply timers_events; reflexivity].
  unfold seq, emit, modify. cbn [fst snd].
  exists [Evaluated c; Stamped c]. rewrite <- app_assoc. destruct c; cbn; auto.
Qed.

Lemma timers_tick (k : collaborators R) (self : runner) :
  effect current_time (self, []) (tick k current_time self).
Proof.
  unfold tick, body.
  assert (Hcaught : forall s e, effect current_time (self, []) s ->
            effect current_time (self, []) (fst s, snd s ++ [Caught e; Slept 10])).
  { intros s e Hs. eapply timers_trans; [exact Hs |]. apply timers_events; reflexivity. }
  destruct (get_all_active_addresses k) as [active_nodes | e];
    [| apply Hcaught; apply timers_refl].
  unfold seq.
  pose proof (timers_reward_cycle k SDB active_nodes (self, [])) as Hsdb.
  destruct (reward_cycle k SDB current_time active_nodes (self, [])) as [[u | e] s1];
    cbn [snd] in Hsdb; [| apply Hcaught; exact Hsdb].
  pose proof (timers_reward_cycle k BTZ active_nodes s1) as Hbtz.
  destruct (reward_cycle k BTZ current_time active_nodes s1) as [[u' | e] s2];
    cbn [snd] in Hbtz.
  - eapply timers_trans; [exact Hsdb |]. eapply timers_trans; [exact Hbtz |].
    unfold emit. apply timers_events; reflexivity.
  - apply Hcaught. eapply timers_trans; [exact Hsdb | exact Hbtz].
Qed.

End TimerFacts.

(** X27. An iteration of the main loop sets the timer of a cycle to the
    clock reading of the iteration exactly when it stamped a block of that
    cycle, and leaves it alone otherwise: a cycle that found no winner, or
    whose evaluation or stamping raised, is due again at the next
    iteration. *)
Theorem X27_timers_follow_stamps (R : Type) (k : NodeRunner.collaborators R)
  (current_time : float) (self : NodeRunner.runner) :
  NodeRunner.last_sdb_reward_time (fst (NodeRunner.tick k current_time self))
  = (if Timers.stamped NodeRunner.SDB (snd (NodeRunner.tick k current_time self))
     then current_time else NodeRunner.last_sdb_reward_time self)
  /\ NodeRunner.last_btz_reward_time (fst (NodeRunner.tick k current_time self))
     = (if Timers.stamped NodeRunner.BTZ (snd (NodeRunner.tick k current_time self))
        then current_time else NodeRunner.last_btz_reward_time self).
Proof.
  destruct (@timers_tick R current_time k self) as (evs & Hev & Hsdb & Hbtz).
  cbn [fst snd app] in *. rewrite Hev. auto.
Qed.
(** ** The integrity hash and the order of the fields *)

Section SortedKeys.
Import Json SortedItems.

Lemma str_ltb_irrefl (a : pystr) : str_ltb a a = false.
Proof.
  induction a as [| x a IH]; [reflexivity |].
  cbn [str_ltb]. rewrite Z.ltb_irrefl, Z.eqb_refl, IH. reflexivity.
Qed.

Lemma str_ltb_asym (a b : pystr) : str_ltb a b = true -> str_ltb b a = false.
Proof.
  revert b. induction a as [| x a IH]; intros [| y b]; cbn [str_ltb]; try discriminate;
    try reflexivity.
  intros H. apply orb_true_iff in H. apply orb_false_iff.
  destruct H as [H | H].
  - apply Z.ltb_lt in H. split; [apply Z.ltb_ge; lia |].
    apply andb_false_iff. left. apply Z.eqb_neq. lia.
  - apply andb_true_iff in H. destruct H as [Hxy Hab]. apply Z.eqb_eq in Hxy. subst y.
    split; [apply Z.ltb_irrefl |]. rewrite (IH b Hab). apply andb_false_r.
Qed.

(** Two different strings are ordered one way or the other. *)
Lemma str_ltb_total (a b : pystr) : a <> b -> str_ltb a b = true \/ str_ltb b a = true.
Proof.
  revert b. induction a as [| x a IH]; intros [| y b] Hne; cbn [str_ltb].
  - contradiction Hne. reflexivity.
  - left. reflexivity.
  - right. reflexivity.
  - destruct (Z.lt_trichotomy x y) as [Hlt | [Heq | Hgt]].
    + left. apply orb_true_iff. left. apply Z.ltb_lt. exact Hlt.
    + subst y. rewrite Z.ltb_irrefl, Z.eqb_refl. cbn [orb andb]. apply IH.
      intros ->. contradiction Hne. reflexivity.
    + right. apply orb_true_iff. left. apply Z.ltb_lt. exact Hgt.
Qed.

Lemma str_ltb_trans (a b c : pystr) :
  str_ltb a b = true -> str_ltb b c = true -> str_ltb a c = true.
Proof.
  revert b c. induction a as [| x a IH]; intros [| y b] [| z c]; cbn [str_ltb];
    try discriminate; try reflexivity.
  intros Hab Hbc. apply orb_true_iff in Hab. apply orb_true_iff in Hbc. apply orb_true_iff.
  destruct Hab as [Hab | Hab], Hbc as [Hbc | Hbc].
  - left. apply Z.ltb_lt in Hab. apply Z.ltb_lt in Hbc. apply Z.ltb_lt. lia.
  - apply andb_true_iff in Hbc. destruct Hbc as [Hyz _]. apply Z.eqb_eq in Hyz. subst z.
    left. exact Hab.
  - apply andb_true_iff in Hab. destruct Hab as [Hxy _]. apply Z.eqb_eq in Hxy. subst y.
    left. exact Hbc.
  - apply andb_true_iff in Hab. destruct Hab as [Hxy Hab]. apply Z.eqb_eq in Hxy. subst y.
    apply andb_true_iff in Hbc. destruct Hbc as [Hyz Hbc]. apply Z.eqb_eq in Hyz. subst z.
    right. rewrite Z.eqb_refl. cbn [andb]. eapply IH; eassumption.
Qed.

Lemma insert_item_permutation (kv : pystr * value) (l : dict) :
  Permutation (kv :: l) (insert_item kv l).
Proof.
  induction l as [| kv' l IH]; cbn [insert_item]; [apply Permutation_refl |].
  destruct (str_ltb (fst kv') (fst kv)); [| apply Permutation_refl].
  eapply perm_trans; [apply perm_swap |]. apply perm_skip. exact IH.
Qed.

Lemma sort_items_permutation (d : dict) : Permutation d (sort_items d).
Proof.
  induction d as [| kv d IH]; [constructor |].
  unfold sort_items in *. cbn [fold_right].
  eapply perm_trans; [apply perm_skip; exact IH | apply insert_item_permutation].
Qed.

Lemma insert_item_sorted (kv : pystr * value) (l : dict) :
  StronglySorted key_lt l -> ~ In (fst kv) (map fst l) -> StronglySorted key_lt (insert_item kv l).
Proof.
  induction 1 as [| kv' l Hsorted IH Hall]; intros Hnew; cbn [insert_item].
  - constructor; constructor.
  - destruct (str_ltb (fst kv') (fst kv)) eqn:E.
    + constructor.
      * apply IH. intros Hin. apply Hnew. right. exact Hin.
      * apply Forall_forall. intros x Hx.
        apply (Permutation_in _ (Permutation_sym (insert_item_permutation kv l))) in Hx.
        destruct Hx as [<- | Hx]; [exact E |].
        rewrite Forall_forall in Hall. apply Hall. exact Hx.
    + assert (Hlt : key_lt kv kv').
      { destruct (@str_ltb_total (fst kv) (fst kv')) as [H | H].
        - intros Heq. apply Hnew. left. symmetry. exact Heq.
        - exact H.
        - rewrite H in E. discriminate E. }
      constructor; [constructor; assumption |].
      constructor; [exact Hlt |].
      revert Hall. apply Forall_impl. intros x Hx. unfold key_lt in *.
      eapply str_ltb_trans; eassumption.
Qed.

Lemma sort_items_sorted (d : dict) : NoDup (map fst d) -> StronglySorted key_lt (sort_items d).
Proof.
  induction d as [| kv d IH]; intros Hd; [constructor |].
  inversion Hd as [| ? ? Hnew Hd']; subst.
  unfold sort_items in *. cbn [fold_right]. apply insert_item_sorted; [apply IH; exact Hd' |].
  intros Hin. apply Hnew.
  apply (Permutation_in _ (Permutation_map fst (Permutation_sym (sort_items_permutation d)))).
  exact Hin.
Qed.

(** There is one way to put given items in the order of their keys. *)
Lemma sorted_unique (l1 l2 : dict) :
  StronglySorted key_lt l1 -> StronglySorted key_lt l2 -> Permutation l1 l2 -> l1 = l2.
Proof.
  intros H1. revert l2. induction H1 as [| a1 l1 Hs1 IH Hall1]; intros l2 H2 Hperm.
  - apply Permutation_nil in Hperm. subst l2. reflexivity.
  - destruct H2 as [| a2 l2 Hs2 Hall2];
      [apply Permutation_sym, Permutation_nil in Hperm; discriminate Hperm |].
    assert (Heq : a1 = a2).
    { assert (Hin1 : In a1 (a2 :: l2))
        by (apply (Permutation_in _ Hperm); left; reflexivity).
      assert (Hin2 : In a2 (a1 :: l1))
        by (apply (Permutation_in _ (Permutation_sym Hperm)); left; reflexivity).
      destruct Hin1 as [Heq | Hin1]; [symmetry; exact Heq |].
      destruct Hin2 as [Heq | Hin2]; [exact Heq |].
      rewrite Forall_forall in Hall1, Hall2.
      pose proof (Hall1 _ Hin2) as H12. pose proof (Hall2 _ Hin1) as H21.
      unfold key_lt in *. rewrite (str_ltb_asym _ _ H12) in H21. discriminate H21. }
    subst a2. f_equal. apply IH; [exact Hs2 |].
    eapply Permutation_cons_inv. exact Hperm.
Qed.

Lemma sort_items_order_free (d1 d2 : dict) :
  NoDup (map fst d1) -> Permutation d1 d2 -> sort_items d1 = sort_items d2.
Proof.
  intros Hd Hperm. apply sorted_unique.
  - apply sort_items_sorted. exact Hd.
  - apply sort_items_sorted.
    apply (Permutation_NoDup (Permutation_map fst Hperm)). exact Hd.
  - eapply perm_trans; [apply Permutation_sym, sort_items_permutation |].
    eapply perm_trans; [exact Hperm | apply sort_items_permutation].
Qed.

End SortedKeys.

(** X24. The JSON text that is hashed, and so the integrity hash, does not
    depend on the order in which the fields were put into the dictionary:
    two dictionaries with the same items (and distinct keys, as a
    dictionary has) give the same text and the same hash. *)
Theorem X24_integrity_hash_order_free (d1 d2 : Json.dict) :
  NoDup (map fst d1) ->
  Permutation d1 d2 ->
  Json.dumps_sorted d1 = Json.dumps_sorted d2
  /\ SecurityHasher.sha256_hash (Json.dumps_sorted d1)
     = SecurityHasher.sha256_hash (Json.dumps_sorted d2).
Proof.
  intros Hd Hperm.
  assert (H : Json.dumps_sorted d1 = Json.dumps_sorted d2)
    by (unfold Json.dumps_sorted; rewrite (sort_items_order_free Hd Hperm); reflexivity).
  split; [exact H | rewrite H; reflexivity].
Qed.

(** The fields of the first block of the scenario, read in the order of
    insertion and in the reverse order. *)
Lemma X24_integrity_hash_order_free_witness :
  exists d,
    Cases.sample_fields = Ok d
    /\ BlockStampingEngine.items d <> rev (BlockStampingEngine.items d)
    /\ Json.dumps_sorted (BlockStampingEngine.items d)
       = Json.dumps_sorted (rev (BlockStampingEngine.items d)).
Proof.
  destruct Cases.sample_fields as [d | e] eqn:E; [| vm_compute in E; discriminate E].
  exists d. split; [reflexivity |]. split.
  - intros H. apply (f_equal (fun l => map fst (firstn 1 l))) in H. vm_compute in H.
    discriminate H.
  - apply (X24_integrity_hash_order_free (d1 := BlockStampingEngine.items d)).
    + apply distinctb_sound. reflexivity.
    + apply Permutation_rev.
Defined.
